(** * Twickell: the asynchronous job subsystem

    A shallow embedding of [app/app.py] (pricing and quote, free-sample
    ledger, job store, upload, payment marking, the payment webhook and
    start, bridge request hand-off), of [workers/queue_worker.py] (request
    processing, the body of the worker loop, the retention predicate and
    the clean-up pass) and of the language choice of [i18n/i18n.py],
    followed by the properties that were checked against them.

    Modelling conventions.
    - A directory of JSON files is a finite map to the parsed documents.
      The jobs and results directories are keyed by the file stem (the job
      id); the requests directory is keyed by the file name, because the
      worker selects its work by the name pattern [*.json].
    - A job file or a request file that a reader opens can hold bytes that
      are not a JSON document: both are written in place by the API tier,
      so a reader can find them empty or half written.
    - A job document is a record.  A field the code reads with [dict.get] is
      an [option]: [None] is an absent key (or [null] where the code cannot
      tell the two apart).
    - Python [int] is [Z].  [pages / 25] is Python's true division: the
      quotient rounded to binary64, modelled on a [Z] mantissa and exponent.
    - Operations are state transformers [World -> World * result A]; an
      uncaught exception keeps the writes made before it.
    - [now_ts()] reads a clock oracle; every call takes the next reading.
      An instant is an integer count of microseconds; the ends of Python's
      [datetime] range (years 1 and 9999) are not modelled.
    - Strings are ASCII: [strip] and [lower] act as Python's do on that
      range.
    - The file system itself does not fail: exceptions come from the data
      (missing keys, unparsable files) and from the external collaborators
      (page counting, the spreadsheet library, timestamp parsing), which
      are parameters of the development.
      The top-level directories are taken as present, so [ensure_dirs()]
      changes nothing. *)

From Stdlib Require Import ZArith Lia Bool Ascii String List.
From stdpp Require Import base option gmap strings list fin_maps.

Local Open Scope string_scope.
Local Open Scope Z_scope.

(* ===================================================================== *)
(** * Python numerics: [int / int] and [math.ceil]                        *)
(* ===================================================================== *)

Module PyFloat.

(** A finite binary64 value [mant * 2^expo]. *)
Record float := mkFloat { mant : Z; expo : Z }.

(** Nearest integer to [n / d] (for [0 < d]), ties to even. *)
Definition round_half_even (n d : Z) : Z :=
  let q := n / d in
  let r := n mod d in
  if 2 * r <? d then q
  else if d <? 2 * r then q + 1
  else if Z.even q then q else q + 1.

(** [floor (log2 (a / b))] for positive [a], [b]. *)
Definition quot_exponent (a b : Z) : Z :=
  let l := Z.log2 a - Z.log2 b in
  let fits := if 0 <=? l then b * 2 ^ l <=? a else b <=? a * 2 ^ (- l) in
  if fits then l else l - 1.

(** Python [a / b] on two ints: the exact quotient rounded once to
    binary64 (53-bit significand, exponent floor at the subnormals).
    [None] is the raised exception: ZeroDivisionError for [b = 0],
    OverflowError when the quotient is beyond the largest float. *)
Definition int_truediv (a b : Z) : option float :=
  if b =? 0 then None
  else if a =? 0 then Some (mkFloat 0 0)
  else
    let sg := Z.sgn a * Z.sgn b in
    let a' := Z.abs a in
    let b' := Z.abs b in
    let e := Z.max (quot_exponent a' b' - 52) (-1074) in
    let m := if 0 <=? e then round_half_even a' (b' * 2 ^ e)
             else round_half_even (a' * 2 ^ (- e)) b' in
    if (0 <=? e) && (2 ^ 1024 <=? m * 2 ^ e) then None
    else Some (mkFloat (sg * m) e).

(** [math.ceil] of a finite float: an exact int. *)
Definition ceil (f : float) : Z :=
  if 0 <=? expo f then mant f * 2 ^ expo f
  else - ((- mant f) / 2 ^ (- expo f)).

End PyFloat.

(* ===================================================================== *)
(** * Python strings (ASCII)                                              *)
(* ===================================================================== *)

Module PyStr.

(** [str.isspace] on one ASCII character. *)
Definition is_space (c : ascii) : bool :=
  let n := nat_of_ascii c in
  (((9 <=? n) && (n <=? 13)) || ((28 <=? n) && (n <=? 32)))%nat.

Fixpoint lstrip (s : string) : string :=
  match s with
  | String c s' => if is_space c then lstrip s' else s
  | EmptyString => EmptyString
  end.

(** [s.strip()] *)
Definition strip (s : string) : string :=
  String.rev (lstrip (String.rev (lstrip s))).

Definition lower_char (c : ascii) : ascii :=
  let n := nat_of_ascii c in
  if ((65 <=? n) && (n <=? 90))%nat then ascii_of_nat (n + 32) else c.

(** [s.lower()] *)
Fixpoint lower (s : string) : string :=
  match s with
  | String c s' => String (lower_char c) (lower s')
  | EmptyString => EmptyString
  end.

(** [c in s] for a one-character [c]. *)
Fixpoint contains (c : ascii) (s : string) : bool :=
  match s with
  | String d s' => Ascii.eqb c d || contains c s'
  | EmptyString => false
  end.

(** [s.endswith(suffix)] *)
Definition endswith (s suffix : string) : bool :=
  let n := String.length s in
  let m := String.length suffix in
  ((m <=? n)%nat && String.eqb (substring (n - m) m s) suffix).

(** [str(v)] for an optional string: [str(None)] is ["None"]. *)
Definition str_opt (v : option string) : string :=
  match v with
  | Some s => s
  | None => "None"
  end.

(** Truthiness of an optional string / bool. *)
Definition truthy_str (v : option string) : bool :=
  match v with
  | Some s => negb (String.eqb s "")
  | None => false
  end.

Definition truthy_bool (v : option bool) : bool :=
  match v with
  | Some b => b
  | None => false
  end.

(** [x in (a, b, ...)] on strings. *)
Definition in_strs (x : string) (l : list string) : bool :=
  existsb (String.eqb x) l.

End PyStr.

(* ===================================================================== *)
(** * Constants of app.py and queue_worker.py                             *)
(* ===================================================================== *)

Definition MAX_PAGES : Z := 200.
Definition FREE_SAMPLE_MAX_PAGES : Z := 5.
Definition PRICE_BLOCK_PAGES : Z := 25.
Definition PRICE_PER_BLOCK : Z := 25.
Definition DEFAULT_RETENTION_DAYS : Z := 7.
Definition ALLOWED_RETENTION_DAYS : list Z := [0; 7; 30].

(** Times of the worker are instants in microseconds ([datetime]'s
    resolution). *)
Definition MICROS_PER_SECOND : Z := 1000000.
Definition RETENTION_ZERO_DONE_BUFFER_SECONDS : Z := 3600.
Definition SECONDS_PER_DAY : Z := 86400.
Definition TIMEDELTA_MAX_DAYS : Z := 999999999.
Definition ONE_HOUR : Z := RETENTION_ZERO_DONE_BUFFER_SECONDS * MICROS_PER_SECOND.
Definition ONE_DAY : Z := SECONDS_PER_DAY * MICROS_PER_SECOND.

(* ===================================================================== *)
(** * Pricing engine                                                      *)
(* ===================================================================== *)

(** [calc_base_amount]: [int(math.ceil(pages / PRICE_BLOCK_PAGES)) *
    PRICE_PER_BLOCK].  [None] when the division raises. *)
Definition calc_base_amount (pages : Z) : option Z :=
  match PyFloat.int_truediv pages PRICE_BLOCK_PAGES with
  | Some q => Some (PyFloat.ceil q * PRICE_PER_BLOCK)
  | None => None
  end.

(** The price the specification writes: [ceil(pages / 25) * 25] over the
    integers. *)
Definition tier_price (pages : Z) : Z :=
  ((pages + (PRICE_BLOCK_PAGES - 1)) / PRICE_BLOCK_PAGES) * PRICE_PER_BLOCK.

(** A page count just past the range in which binary64 still resolves
    1/25 of a page. *)
Definition far_page_count : Z := 25 * 2 ^ 49 + 1.

(* ===================================================================== *)
(** * Data model                                                          *)
(* ===================================================================== *)

(** The job document, one JSON file per job. *)
Record Job := mkJob {
  j_id : string;                         (* job["id"] *)
  j_job_id : option string;              (* job.get("job_id"), worker only *)
  j_created_at : option string;
  j_updated_at : option string;
  j_status : option string;
  j_email : option string;
  j_pages : option Z;
  j_base_amount_due : option Z;
  j_amount_due : option Z;
  j_paid : option bool;
  j_free_sample_applied : option bool;
  j_retention_days : option Z;
  j_done_at : option string;
  j_paths : option (gmap string string);
  j_stripe_paid_at : option string       (* written by the webhook *)
}.

Definition set_status (v : option string) (j : Job) : Job :=
  mkJob (j_id j) (j_job_id j) (j_created_at j) (j_updated_at j) v (j_email j)
    (j_pages j) (j_base_amount_due j) (j_amount_due j) (j_paid j)
    (j_free_sample_applied j) (j_retention_days j) (j_done_at j) (j_paths j)
    (j_stripe_paid_at j).

Definition set_updated_at (v : option string) (j : Job) : Job :=
  mkJob (j_id j) (j_job_id j) (j_created_at j) v (j_status j) (j_email j)
    (j_pages j) (j_base_amount_due j) (j_amount_due j) (j_paid j)
    (j_free_sample_applied j) (j_retention_days j) (j_done_at j) (j_paths j)
    (j_stripe_paid_at j).

Definition set_paid (v : option bool) (j : Job) : Job :=
  mkJob (j_id j) (j_job_id j) (j_created_at j) (j_updated_at j) (j_status j)
    (j_email j) (j_pages j) (j_base_amount_due j) (j_amount_due j) v
    (j_free_sample_applied j) (j_retention_days j) (j_done_at j) (j_paths j)
    (j_stripe_paid_at j).

Definition set_done_at (v : option string) (j : Job) : Job :=
  mkJob (j_id j) (j_job_id j) (j_created_at j) (j_updated_at j) (j_status j)
    (j_email j) (j_pages j) (j_base_amount_due j) (j_amount_due j) (j_paid j)
    (j_free_sample_applied j) (j_retention_days j) v (j_paths j)
    (j_stripe_paid_at j).

Definition set_paths (v : option (gmap string string)) (j : Job) : Job :=
  mkJob (j_id j) (j_job_id j) (j_created_at j) (j_updated_at j) (j_status j)
    (j_email j) (j_pages j) (j_base_amount_due j) (j_amount_due j) (j_paid j)
    (j_free_sample_applied j) (j_retention_days j) (j_done_at j) v
    (j_stripe_paid_at j).

Definition set_retention_days (v : option Z) (j : Job) : Job :=
  mkJob (j_id j) (j_job_id j) (j_created_at j) (j_updated_at j) (j_status j)
    (j_email j) (j_pages j) (j_base_amount_due j) (j_amount_due j) (j_paid j)
    (j_free_sample_applied j) v (j_done_at j) (j_paths j)
    (j_stripe_paid_at j).

Definition set_stripe_paid_at (v : option string) (j : Job) : Job :=
  mkJob (j_id j) (j_job_id j) (j_created_at j) (j_updated_at j) (j_status j)
    (j_email j) (j_pages j) (j_base_amount_due j) (j_amount_due j) (j_paid j)
    (j_free_sample_applied j) (j_retention_days j) (j_done_at j) (j_paths j) v.

(** The notes payload of a bridge request. *)
Record Notes := mkNotes {
  n_pages : option Z;
  n_free_sample_applied : bool;
  n_retention_days : Z
}.

(** The bridge request: a snapshot of the job taken by the API tier. *)
Record BridgeRequest := mkBridgeRequest {
  r_kind : string;
  r_job_id : option string;
  r_created_at : string;
  r_input_pdf : string;
  r_output_dir : string;
  r_notes : Notes
}.

(** What a reader finds in a JSON file: a document, or bytes that
    [json.load] rejects (an empty or half-written file). *)
Inductive JsonFile (A : Type) :=
| Unparsable
| Doc (a : A).
Arguments Unparsable {A}.
Arguments Doc {A} a.

Definition is_unparsable {A} (f : JsonFile A) : bool :=
  match f with
  | Unparsable => true
  | Doc _ => false
  end.

Abbreviation RequestFile := (JsonFile BridgeRequest).
Abbreviation JobFile := (JsonFile Job).

Record BridgeResult := mkBridgeResult {
  res_job_id : string;
  res_ok : bool;
  res_done_at : option string;
  res_paths : gmap string string
}.

(** A value of the ledger's [used] mapping: the record written by
    [mark_email_used_free_sample], or the bare timestamp that
    [read_ledger] puts under its sentinel key. *)
Inductive UsedEntry :=
| UsedBy (job_id ts : string)
| UsedStamp (ts : string).

Record Ledger := mkLedger {
  l_version : option Z;
  l_used : option (gmap string UsedEntry)
}.

(** The ledger file on disk. *)
Inductive LedgerFile :=
| LedgerAbsent
| LedgerUnparsable
| LedgerDoc (l : Ledger).

(** Exceptions. The first group are the [HTTPException]s of app.py, the
    second the uncaught Python exceptions. *)
Inductive error :=
| JobNotFound                                   (* 404 job_not_found *)
| PaymentRequired                               (* 402 payment_required *)
| InvalidStatusForStart (status : option string)(* 409, carries the status *)
| ValidEmailRequired                            (* 400 *)
| RetentionDaysNotAllowed                       (* 400 *)
| OnlyPdfAllowed                                (* 400 *)
| InvalidPdf                                    (* 400 invalid_pdf *)
| CapRejected                                   (* 413 CAP_REJECT_MSG *)
| KeyError (key : string)
| OverflowError
| ValueError
| JSONDecodeError
| FileNotFoundError
| IllegalCharacterError                         (* openpyxl, on a cell value *)
| RuntimeError (msg : string).

Inductive result (A : Type) :=
| Ok (a : A)
| Raise (e : error).
Arguments Ok {A} a.
Arguments Raise {A} e.

(** The state of the service: the directories under the application root,
    the worker's log and the clock. *)
Record World := mkWorld {
  jobs : gmap string JobFile;            (* jobs/<id>.json *)
  requests : gmap string RequestFile;    (* bridge_queue/requests/<name> *)
  results : gmap string BridgeResult;    (* bridge_queue/results/<id>.json *)
  ledger : LedgerFile;                   (* ledger/free_sample_by_email.json *)
  upload_dirs : gset string;             (* uploads/<id>/ *)
  upload_files : gmap string string;     (* uploads/<id>/input.pdf, its bytes *)
  outputs : gmap string (gset string);   (* outputs/<id>/, its file names *)
  log : list string;                     (* logs/queue_worker.log *)
  clock : nat -> string;                 (* successive clock readings *)
  ticks : nat                            (* readings taken so far *)
}.

Definition set_jobs (v : gmap string JobFile) (w : World) : World :=
  mkWorld v (requests w) (results w) (ledger w) (upload_dirs w)
    (upload_files w) (outputs w) (log w) (clock w) (ticks w).

Definition set_requests (v : gmap string RequestFile) (w : World) : World :=
  mkWorld (jobs w) v (results w) (ledger w) (upload_dirs w)
    (upload_files w) (outputs w) (log w) (clock w) (ticks w).

Definition set_results (v : gmap string BridgeResult) (w : World) : World :=
  mkWorld (jobs w) (requests w) v (ledger w) (upload_dirs w)
    (upload_files w) (outputs w) (log w) (clock w) (ticks w).

Definition set_ledger (v : LedgerFile) (w : World) : World :=
  mkWorld (jobs w) (requests w) (results w) v (upload_dirs w)
    (upload_files w) (outputs w) (log w) (clock w) (ticks w).

Definition set_upload_dirs (v : gset string) (w : World) : World :=
  mkWorld (jobs w) (requests w) (results w) (ledger w) v
    (upload_files w) (outputs w) (log w) (clock w) (ticks w).

Definition set_upload_files (v : gmap string string) (w : World) : World :=
  mkWorld (jobs w) (requests w) (results w) (ledger w) (upload_dirs w)
    v (outputs w) (log w) (clock w) (ticks w).

Definition set_outputs (v : gmap string (gset string)) (w : World) : World :=
  mkWorld (jobs w) (requests w) (results w) (ledger w) (upload_dirs w)
    (upload_files w) v (log w) (clock w) (ticks w).

Definition set_log (v : list string) (w : World) : World :=
  mkWorld (jobs w) (requests w) (results w) (ledger w) (upload_dirs w)
    (upload_files w) (outputs w) v (clock w) (ticks w).

Definition set_ticks (v : nat) (w : World) : World :=
  mkWorld (jobs w) (requests w) (results w) (ledger w) (upload_dirs w)
    (upload_files w) (outputs w) (log w) (clock w) v.

(* ===================================================================== *)
(** * The monad of operations                                             *)
(* ===================================================================== *)

Definition M (A : Type) : Type := World -> World * result A.

#[global] Instance M_ret : MRet M := fun A a w => (w, Ok a).

#[global] Instance M_bind : MBind M := fun A B f m w =>
  match m w with
  | (w', Ok a) => f a w'
  | (w', Raise e) => (w', Raise e)
  end.

Definition raise {A} (e : error) : M A := fun w => (w, Raise e).

(** Apply a state change. *)
Definition modify (f : World -> World) : M unit := fun w => (f w, Ok tt).

(** Read the state. *)
Definition gets {A} (f : World -> A) : M A := fun w => (w, Ok (f w)).

(** [now_ts()] / [utcnow_iso()]: the next reading of the clock. *)
Definition now_ts : M string :=
  fun w => (set_ticks (S (ticks w)) w, Ok (clock w (ticks w))).

(* ===================================================================== *)
(** * Writing a JSON file, as other processes see it                      *)
(* ===================================================================== *)

Section FileWrites.

Context {A : Type}.

(** [Path.write_text(text)]: the states of the directory that another
    process can observe while it runs.  The file is opened for writing
    (created or truncated: not yet a JSON document), then holds its text. *)
Definition write_text_trace (name : string) (doc : A)
    (dir : gmap string (JsonFile A)) : list (gmap string (JsonFile A)) :=
  [ <[name := Unparsable]> dir ; <[name := Doc doc]> dir ].

(** The directory once [write_text] has returned. *)
Definition write_text (name : string) (doc : A)
    (dir : gmap string (JsonFile A)) : gmap string (JsonFile A) :=
  List.last (write_text_trace name doc dir) dir.

(** The worker's [write_json(path, data)]: the text goes to
    [path.with_suffix(path.suffix + ".tmp")], which [os.replace] then
    renames over [path]. *)
Definition write_json_trace (name : string) (doc : A)
    (dir : gmap string (JsonFile A)) : list (gmap string (JsonFile A)) :=
  let tmp := name ++ ".tmp" in
  [ <[tmp := Unparsable]> dir ;
    <[tmp := Doc doc]> dir ;
    <[name := Doc doc]> (delete tmp dir) ].

Definition write_json (name : string) (doc : A)
    (dir : gmap string (JsonFile A)) : gmap string (JsonFile A) :=
  List.last (write_json_trace name doc dir) dir.

(** The files a reader that lists [*.json] would fail to parse. *)
Definition unreadable_json (dir : gmap string (JsonFile A)) : gset string :=
  dom (filter (fun kv => PyStr.endswith (fst kv) ".json" && is_unparsable (snd kv) = true) dir).

End FileWrites.

(* ===================================================================== *)
(** * app.py: ledger, job store, bridge request, upload, payment, start   *)
(* ===================================================================== *)

Section App.

(** The application root directory, and the page counter of the PDF
    library ([None]: the reader raises). *)
Variable APP_ROOT : string.
Variable count_pdf_pages : string -> option nat.

Definition UPLOADS_DIR : string := APP_ROOT ++ "/uploads".
Definition BRIDGE_REQ_DIR : string := APP_ROOT ++ "/bridge_queue/requests".
Definition OUTPUTS_ROOT : string := APP_ROOT ++ "/outputs".

(** The name of the request file of a job: [f"{job['id']}.json"]. *)
Definition request_name (job_id : string) : string := job_id ++ ".json".

(** ** Job store *)

(** [write_job(job)]: [Path.write_text] on [jobs/<job['id']>.json], in
    place; this is the store once it has returned. *)
Definition write_job (job : Job) : M unit :=
  modify (fun w => set_jobs (write_text (j_id job) job (jobs w)) w).

(** [read_job(job_id)]: 404 when the file is absent; [json.loads] raises
    when its text is not a document. *)
Definition read_job (job_id : string) : M Job :=
  fun w =>
    match jobs w !! job_id with
    | Some (Doc job) => (w, Ok job)
    | Some Unparsable => (w, Raise JSONDecodeError)
    | None => (w, Raise JobNotFound)
    end.

(** The record in the job file of [job_id], when there is one and it
    parses. *)
Definition stored_job (job_id : string) (w : World) : option Job :=
  match jobs w !! job_id with
  | Some (Doc job) => Some job
  | _ => None
  end.

(** [update_job(job_id, patch)]: the patch is the function that
    [job.update(patch)] performs on the record. *)
Definition update_job (job_id : string) (patch : Job -> Job) : M Job :=
  job ← read_job job_id;
  let job := patch job in
  t ← now_ts;
  let job := set_updated_at (Some t) job in
  write_job job;;
  mret job.

(** ** Free-sample ledger *)

Definition CORRUPTED_KEY : string := "__CORRUPTED__".

Definition read_ledger : M Ledger :=
  file ← gets ledger;
  match file with
  | LedgerAbsent => mret (mkLedger (Some 1) (Some ∅))
  | LedgerDoc l => mret l
  | LedgerUnparsable =>
      (* fail closed: no free samples if ledger is corrupted *)
      t ← now_ts;
      mret (mkLedger (Some 1) (Some {[ CORRUPTED_KEY := UsedStamp t ]}))
  end.

Definition write_ledger (obj : Ledger) : M unit :=
  modify (set_ledger (LedgerDoc obj)).

(** [(email or "").strip().lower()] *)
Definition normalize_email (email : string) : string :=
  PyStr.lower (PyStr.strip email).

Definition email_can_use_free_sample (email_norm : string) : M bool :=
  led ← read_ledger;
  let used := default ∅ (l_used led) in
  mret (bool_decide (used !! email_norm = None)).

Definition mark_email_used_free_sample (email_norm job_id : string) : M unit :=
  led ← read_ledger;
  let used := default ∅ (l_used led) in
  t ← now_ts;
  let used := <[email_norm := UsedBy job_id t]> used in
  write_ledger (mkLedger (l_version led) (Some used)).

(** The entry that the ledger file holds for an email, if it holds one. *)
Definition ledger_entry (file : LedgerFile) (email_norm : string)
    : option UsedEntry :=
  match file with
  | LedgerDoc l => default ∅ (l_used l) !! email_norm
  | LedgerAbsent | LedgerUnparsable => None
  end.

(** ** Bridge request *)

Definition lookup_key (k : string) (m : gmap string string) : M string :=
  match m !! k with
  | Some v => mret v
  | None => raise (KeyError k)
  end.

(** The request document of a job, and the clock reading it is stamped
    with. *)
Definition bridge_request_doc (job : Job) : M BridgeRequest :=
  t ← now_ts;
  paths ← match j_paths job with
          | Some p => mret p
          | None => raise (KeyError "paths")
          end;
  input_pdf ← lookup_key "input_pdf" paths;
  mret (mkBridgeRequest "twickell_pdf_to_xlsx" (Some (j_id job)) t input_pdf
          (OUTPUTS_ROOT ++ "/" ++ j_id job)
          (mkNotes (j_pages job)
             (default false (j_free_sample_applied job))
             (default DEFAULT_RETENTION_DAYS (j_retention_days job)))).

Definition write_bridge_request (job : Job) : M string :=
  req ← bridge_request_doc job;
  modify (fun w =>
    set_requests (write_text (request_name (j_id job)) req (requests w)) w);;
  mret (BRIDGE_REQ_DIR ++ "/" ++ request_name (j_id job)).

(** The states of the service that another process can observe while
    [write_bridge_request] writes the file. *)
Definition write_bridge_request_states (job : Job) (w : World) : list World :=
  match bridge_request_doc job w with
  | (w1, Ok req) =>
      map (fun dir => set_requests dir w1)
        (write_text_trace (request_name (j_id job)) req (requests w1))
  | (_, Raise _) => []
  end.

(** ** Upload *)

Record UploadForm := mkUploadForm {
  f_filename : option string;            (* file.filename *)
  f_bytes : string;                      (* the uploaded body *)
  f_email : string;
  f_retention_days : option Z
}.

Record UploadResponse := mkUploadResponse {
  u_job_id : string;
  u_pages : Z;
  u_email : string;
  u_base_amount_due : Z;
  u_free_sample_applied : bool;
  u_amount_due : Z;
  u_retention_days : Z
}.

Definition input_pdf_path (job_id : string) : string :=
  UPLOADS_DIR ++ "/" ++ job_id ++ "/input.pdf".

Definition upload_dir_path (job_id : string) : string :=
  UPLOADS_DIR ++ "/" ++ job_id.

(** [int(retention_days) if retention_days is not None else
    DEFAULT_RETENTION_DAYS] *)
Definition retention_or_default (form : UploadForm) : Z :=
  match f_retention_days form with
  | Some r => r
  | None => DEFAULT_RETENTION_DAYS
  end.

(** The three checks of the form that precede the save. *)
Definition form_accepted (form : UploadForm) : bool :=
  let email_norm := normalize_email (f_email form) in
  negb (String.eqb email_norm "" || negb (PyStr.contains "@"%char email_norm))
  && bool_decide (retention_or_default form ∈ ALLOWED_RETENTION_DAYS)
  && PyStr.endswith (PyStr.lower (default "" (f_filename form))) ".pdf".

(** [upload_pdf]; [new_job_id] is the identifier that [new_job_id()]
    draws. *)
Definition upload_pdf (new_job_id : string) (form : UploadForm)
    : M UploadResponse :=
  let email_norm := normalize_email (f_email form) in
  if String.eqb email_norm "" || negb (PyStr.contains "@"%char email_norm)
  then raise ValidEmailRequired
  else
  let retention_days_i := retention_or_default form in
  if negb (bool_decide (retention_days_i ∈ ALLOWED_RETENTION_DAYS))
  then raise RetentionDaysNotAllowed
  else
  let filename := PyStr.lower (default "" (f_filename form)) in
  if negb (PyStr.endswith filename ".pdf") then raise OnlyPdfAllowed
  else
  let job_id := new_job_id in
  modify (fun w => set_upload_dirs ({[job_id]} ∪ upload_dirs w) w);;
  (* Save upload to disk *)
  modify (fun w =>
    set_upload_files (<[job_id := f_bytes form]> (upload_files w)) w);;
  (* Count pages *)
  pages ← match count_pdf_pages (f_bytes form) with
          | Some n => mret (Z.of_nat n)
          | None => raise InvalidPdf
          end;
  (* Enforce hard cap *)
  if MAX_PAGES <? pages
  then
    modify (fun w => set_upload_files (delete job_id (upload_files w)) w);;
    raise CapRejected
  else
  base_amount ← match calc_base_amount pages with
                | Some b => mret b
                | None => raise OverflowError
                end;
  free_sample_eligible ←
    (if pages <=? FREE_SAMPLE_MAX_PAGES
     then email_can_use_free_sample email_norm
     else mret false : M bool);
  let free_sample_applied : bool := free_sample_eligible in
  let amount_due := if free_sample_applied then 0 else base_amount in
  let status := if amount_due =? 0 then "uploaded" else "awaiting_payment" in
  let paid := amount_due =? 0 in
  created ← now_ts;
  updated ← now_ts;
  let job :=
    mkJob job_id None (Some created) (Some updated) (Some status)
      (Some email_norm) (Some pages) (Some base_amount) (Some amount_due)
      (Some paid) (Some free_sample_applied) (Some retention_days_i) None
      (Some (<["upload_dir" := upload_dir_path job_id]>
               {[ "input_pdf" := input_pdf_path job_id ]})) None in
  write_job job;;
  (if free_sample_applied
   then mark_email_used_free_sample email_norm job_id
   else mret tt);;
  mret (mkUploadResponse job_id pages email_norm base_amount
          free_sample_applied amount_due retention_days_i).

(** ** Payment marking and start *)

Inductive PaidResponse :=
| PaidAlready (job : Job)                 (* note: already_paid *)
| PaidNow (job : Job).

Definition mark_paid (job_id : string) : M PaidResponse :=
  job ← read_job job_id;
  if bool_decide (j_paid job = Some true)
  then
    (if String.eqb (PyStr.str_opt (j_status job)) "awaiting_payment"
     then job ← update_job job_id (set_status (Some "paid"));
          mret (PaidAlready job)
     else mret (PaidAlready job))
  else
    job ← update_job job_id
            (fun j => set_status (Some "paid") (set_paid (Some true) j));
    mret (PaidNow job).

Inductive StartResponse :=
| StartAlreadyQueued (job : Job)          (* note: already_queued *)
| StartQueued (job : Job) (queued_request : string).

Definition start (job_id : string) : M StartResponse :=
  job ← read_job job_id;
  if negb (PyStr.truthy_bool (j_paid job)) then raise PaymentRequired
  else
  if String.eqb (PyStr.str_opt (j_status job)) "queued"
  then mret (StartAlreadyQueued job)
  else
  if negb (PyStr.in_strs (PyStr.str_opt (j_status job)) ["uploaded"; "paid"])
  then raise (InvalidStatusForStart (j_status job))
  else
  job ← update_job job_id (set_status (Some "queued"));
  req_path ← write_bridge_request job;
  job ← update_job job_id
          (set_paths (Some (<["bridge_request" := req_path]>
                              (default ∅ (j_paths job)))));
  mret (StartQueued job req_path).

(** ** What a successful start leaves behind *)

(** The request document that [start] writes for [job] at clock reading
    [t]. *)
Definition expected_request (job : Job) (input_pdf t : string) : BridgeRequest :=
  mkBridgeRequest "twickell_pdf_to_xlsx" (Some (j_id job)) t input_pdf
    (OUTPUTS_ROOT ++ "/" ++ j_id job)
    (mkNotes (j_pages job) (default false (j_free_sample_applied job))
       (default DEFAULT_RETENTION_DAYS (j_retention_days job))).

(** The path that [start] records under [paths.bridge_request]. *)
Definition request_path (job_id : string) : string :=
  BRIDGE_REQ_DIR ++ "/" ++ request_name job_id.

(** The job record that a successful [start] leaves in the store. *)
Definition queued_job (job : Job) (paths : gmap string string)
    (t1 t3 : string) : Job :=
  set_updated_at (Some t3)
    (set_paths (Some (<["bridge_request" := request_path (j_id job)]> paths))
       (set_updated_at (Some t1) (set_status (Some "queued") job))).

End App.

(* ===================================================================== *)
(** * queue_worker.py: request processing, worker loop, retention         *)
(* ===================================================================== *)

Section Worker.

(** [datetime.fromisoformat] followed by the conversion to UTC, as an
    instant in microseconds ([None]: it raises); whether the spreadsheet
    library can be imported; and the exception, if any, that the library
    raises while the sheet is filled with the job's id, page count and
    email and saved (openpyxl refuses a string with a control character
    and a value that is not a number, a string, a date or a boolean). *)
Variable parse_iso : string -> option Z.
Variable openpyxl_available : bool.
Variable workbook_error : string -> option Z -> option string -> option error.

Definition ROOT : string := "/home/frank/projects/TWICKELL_ROOT".
Definition OUTPUTS_DIR : string := ROOT ++ "/outputs".

Definition output_xlsx_path (job_id : string) : string :=
  OUTPUTS_DIR ++ "/" ++ job_id ++ "/output.xlsx".

Definition bundle_zip_path (job_id : string) : string :=
  OUTPUTS_DIR ++ "/" ++ job_id ++ "/bundle.zip".

(** [log(msg)]: a line stamped with [utcnow_iso()]. *)
Definition write_log (msg : string) : M unit :=
  t ← now_ts;
  modify (fun w => set_log (log w ++ [(t ++ "  " ++ msg)%string])%list w).

(** [job.get("job_id") or job.get("id")] *)
Definition jid_of (job : Job) : string :=
  if PyStr.truthy_str (j_job_id job) then default "" (j_job_id job)
  else j_id job.

(** Files written into [outputs/<jid>/]; with no names, the
    [out_dir.mkdir(parents=True, exist_ok=True)] that precedes them. *)
Definition add_outputs (jid : string) (names : gset string) : M unit :=
  modify (fun w =>
    set_outputs (<[jid := names ∪ default ∅ (outputs w !! jid)]> (outputs w)) w).

Definition generate_xlsx_for_job (job : Job) : M string :=
  if negb openpyxl_available
  then raise (RuntimeError "openpyxl is required (pip install openpyxl).")
  else
  let jid := jid_of job in
  if String.eqb jid "" then raise (RuntimeError "job missing id")
  else
  add_outputs jid ∅;;
  match workbook_error jid (j_pages job) (j_email job) with
  | Some e => raise e
  | None =>
      add_outputs jid {[ "output.xlsx" ]};;
      mret (output_xlsx_path jid)
  end.

(** The bundle: metadata snapshot, summary and archive next to the
    spreadsheet.  The archive members exist when this runs (the spreadsheet
    was just saved), so only the look-ups can raise. *)
Definition build_zip_bundle (job : Job) : M string :=
  let jid := jid_of job in
  if String.eqb jid "" then raise (RuntimeError "job missing id")
  else
  add_outputs jid ∅;;
  paths ← match j_paths job with
          | Some p => mret p
          | None => raise (KeyError "paths")
          end;
  _ ← match paths !! "output_xlsx" with
      | Some v => mret v
      | None => raise (KeyError "output_xlsx")
      end;
  add_outputs jid {[ "metadata.json"; "summary.txt"; "bundle.zip" ]};;
  mret (bundle_zip_path jid).

(** [req_path.unlink(missing_ok=True)] *)
Definition unlink_request (name : string) : M unit :=
  modify (fun w => set_requests (delete name (requests w)) w).

(** [read_json(req_path)] *)
Definition read_request (name : string) : M BridgeRequest :=
  fun w =>
    match requests w !! name with
    | Some (Doc r) => (w, Ok r)
    | Some Unparsable => (w, Raise JSONDecodeError)
    | None => (w, Raise FileNotFoundError)
    end.

Definition process_request (name : string) : M unit :=
  req ← read_request name;
  if negb (PyStr.truthy_str (r_job_id req))
  then
    write_log ("SKIP bad request (no job_id): " ++ name);;
    unlink_request name
  else
  let job_id := default "" (r_job_id req) in
  found ← gets (fun w => jobs w !! job_id);
  match found with
  | None =>
      write_log ("JOB_NOT_FOUND " ++ job_id ++ " (request " ++ name ++ ")");;
      unlink_request name
  | Some file =>
      (* job = read_json(jp) *)
      job ← match file with
            | Doc job => mret job
            | Unparsable => raise JSONDecodeError
            end;
      write_log ("PROCESSING " ++ name);;
      xlsx_path ← generate_xlsx_for_job job;
      let paths := <["output_xlsx" := xlsx_path]> (default ∅ (j_paths job)) in
      let job := set_paths (Some paths) job in
      let job := set_status (Some "done") job in
      done_at ← now_ts;
      let job := set_done_at (Some done_at) job in
      zip_path ← build_zip_bundle job;
      let paths := <["bundle_zip" := zip_path]> paths in
      let job := set_paths (Some paths) job in
      (* write_json(jp, job): temporary file, then rename *)
      modify (fun w => set_jobs (<[job_id := Doc job]> (jobs w)) w);;
      modify (fun w =>
        set_results
          (<[job_id := mkBridgeResult job_id true (j_done_at job) paths]>
             (results w)) w);;
      unlink_request name;;
      write_log ("DONE " ++ name)
  end.

(** The body of the [for req_path in reqs] loop of [main]: the try/except
    around [process_request].  The logged line leaves out the text of the
    exception. *)
Definition handle_request (name : string) (w : World) : World :=
  match process_request name w with
  | (w', Ok _) => w'
  | (w', Raise _) =>
      fst ((write_log ("ERROR processing " ++ name);;
            unlink_request name) w')
  end.

(** One drain of the listing [reqs], in listing order. *)
Definition run_requests (reqs : list string) (w : World) : World :=
  fold_left (fun w name => handle_request name w) reqs w.

(** [REQ_DIR.glob("*.json")]: the names a poll can list. *)
Definition pending (w : World) : gset string :=
  dom (filter (fun kv => PyStr.endswith (fst kv) ".json" = true) (requests w)).

(** ** Retention *)

Definition parse_time (s : string) : result Z :=
  match parse_iso s with
  | Some t => Ok t
  | None => Raise ValueError
  end.

(** The retention that [should_delete] works with:
    [int(job.get("retention_days", 7))]. *)
Definition effective_retention_days (job : Job) : Z :=
  default 7 (j_retention_days job).

(** A terminal status. *)
Definition is_terminal (job : Job) : Prop :=
  j_status job = Some "done" \/ j_status job = Some "failed".

(** [should_delete(job)] at the instant [now]. *)
Definition should_delete (now : Z) (job : Job) : result bool :=
  if negb (match j_status job with
           | Some s => PyStr.in_strs s ["done"; "failed"]
           | None => false
           end)
  then Ok false
  else
  if negb (PyStr.truthy_str (j_created_at job)) then Ok false
  else
  let created_at := default "" (j_created_at job) in
  let retention_days := effective_retention_days job in
  if retention_days =? 0
  then
    if negb (PyStr.truthy_str (j_done_at job)) then Ok false
    else
    match parse_time (default "" (j_done_at job)) with
    | Ok done =>
        Ok (done + RETENTION_ZERO_DONE_BUFFER_SECONDS * MICROS_PER_SECOND <=? now)
    | Raise e => Raise e
    end
  else
    match parse_time created_at with
    | Ok created =>
        if TIMEDELTA_MAX_DAYS <? Z.abs retention_days then Raise OverflowError
        else
        Ok (created + retention_days * SECONDS_PER_DAY * MICROS_PER_SECOND <=? now)
    | Raise e => Raise e
    end.

Definition delete_job_everywhere (job_id : string) : M unit :=
  modify (fun w => set_upload_dirs (upload_dirs w ∖ {[job_id]}) w);;
  modify (fun w => set_upload_files (delete job_id (upload_files w)) w);;
  modify (fun w => set_outputs (delete job_id (outputs w)) w);;
  modify (fun w => set_results (delete job_id (results w)) w);;
  modify (fun w => set_requests (delete (job_id ++ ".json") (requests w)) w);;
  modify (fun w => set_jobs (delete job_id (jobs w)) w);;
  write_log ("CLEANUP_DELETED " ++ job_id).

(** One file of [cleanup_pass], under its try/except: a file that has
    vanished or does not parse makes [read_json] raise and is skipped. *)
Definition cleanup_one (now : Z) (stem : string) (w : World) : World :=
  match jobs w !! stem with
  | None | Some Unparsable => w
  | Some (Doc job) =>
      let job_id := if PyStr.truthy_str (j_job_id job)
                    then default "" (j_job_id job) else stem in
      match should_delete now job with
      | Ok true => fst (delete_job_everywhere job_id w)
      | _ => w
      end
  end.

(** [cleanup_pass()] over the listing of the jobs directory taken when the
    pass starts. *)
Definition cleanup_pass (now : Z) (w : World) : World :=
  fold_left (fun w stem => cleanup_one now stem w)
    (elements (dom (jobs w))) w.

(** No stored job carries a [job_id] key of its own (the API tier never
    writes one), so the reaper names each job by its file. *)
Definition named_by_file (w : World) : Prop :=
  forall stem job, jobs w !! stem = Some (Doc job) ->
    PyStr.truthy_str (j_job_id job) = false.

End Worker.

(* ===================================================================== *)
(** * Fixtures for the concrete checks                                    *)
(* ===================================================================== *)

Module Demo.

Definition root : string := "/srv/twickell".

(** A page counter for the checks: the body ["not a pdf"] is rejected,
    ["a long report"] has 250 pages, any other body one page per byte. *)
Definition count_pages (bytes : string) : option nat :=
  if String.eqb bytes "not a pdf" then None
  else if String.eqb bytes "a long report" then Some 250%nat
  else Some (String.length bytes).

Definition clock_reading (n : nat) : string := "2024-01-01T00:00:00Z".

(** The service before any request. *)
Definition empty_world : World :=
  mkWorld ∅ ∅ ∅ LedgerAbsent ∅ ∅ ∅ [] clock_reading 0.

(** A three-page upload by a new customer. *)
Definition small_form : UploadForm :=
  mkUploadForm (Some "Report.PDF") "abc" "  Ann@Example.com " (Some 7).

Definition after_upload : World :=
  fst (upload_pdf root count_pages "job_1" small_form empty_world).

(** The job record that this upload stores. *)
Definition uploaded_paths : gmap string string :=
  <["upload_dir" := "/srv/twickell/uploads/job_1"]>
    {[ "input_pdf" := "/srv/twickell/uploads/job_1/input.pdf" ]}.

Definition uploaded_job : Job :=
  mkJob "job_1" None (Some "2024-01-01T00:00:00Z")
    (Some "2024-01-01T00:00:00Z") (Some "uploaded") (Some "ann@example.com")
    (Some 3) (Some 25) (Some 0) (Some true) (Some true) (Some 7) None
    (Some uploaded_paths) None.

(** An upload over the page cap. *)
Definition long_form : UploadForm :=
  mkUploadForm (Some "long.pdf") "a long report" "bob@example.com" (Some 30).

(** A forty-page upload by another customer. *)
Definition medium_form : UploadForm :=
  mkUploadForm (Some "forty.pdf") "0123456789012345678901234567890123456789"
    "bob@example.com" None.

(** A PDF without pages, sent by the same customer. *)
Definition blank_form : UploadForm :=
  mkUploadForm (Some "blank.pdf") "" "ann@example.com" None.

(** The same service once the ledger file no longer parses. *)
Definition corrupt_ledger_world : World :=
  set_ledger LedgerUnparsable after_upload.

(** The job as [start] hands it to [write_bridge_request]. *)
Definition job_being_queued : Job :=
  set_updated_at (Some "2024-01-01T00:00:00Z")
    (set_status (Some "queued") uploaded_job).

Definition world_being_queued : World :=
  set_jobs (<["job_1" := Doc job_being_queued]> (jobs after_upload))
    after_upload.

(** The service once [start] has queued the job. *)
Definition after_start : World :=
  fst (start root "job_1" after_upload).

(** An upload whose email carries a control character, queued in the
    same way. *)
Definition control_form : UploadForm :=
  mkUploadForm (Some "c.pdf") "abc" ("eve" ++ String "001" "@example.com")
    (Some 7).

Definition after_control_start : World :=
  fst (start root "job_3"
         (fst (upload_pdf root count_pages "job_3" control_form empty_world))).

(** The queued job of [after_start] while the API tier rewrites its file:
    the first state of the in-place write. *)
Definition torn_job_world : World :=
  set_jobs (<["job_1" := Unparsable]> (jobs after_start)) after_start.

(** Instants of the checks, in microseconds since the epoch. *)
Definition new_year : Z := 1704067200 * MICROS_PER_SECOND.

(** A timestamp parser for the checks: it knows two instants and rejects
    everything else, the empty string included. *)
Definition parse_iso (s : string) : option Z :=
  if String.eqb s "2024-01-01T00:00:00+00:00" then Some new_year
  else if String.eqb s "2024-01-01T06:00:00+00:00"
       then Some (new_year + 6 * 3600 * MICROS_PER_SECOND)
  else None.

(** The spreadsheet library of the checks: a control character in the id
    or in the email is refused. *)
Definition is_illegal_char (c : ascii) : bool :=
  let n := nat_of_ascii c in
  (n <=? 8)%nat || (11 <=? n)%nat && (n <=? 12)%nat
  || (14 <=? n)%nat && (n <=? 31)%nat.

Fixpoint has_illegal_char (s : string) : bool :=
  match s with
  | EmptyString => false
  | String c s' => is_illegal_char c || has_illegal_char s'
  end.

Definition workbook_error (jid : string) (pages : option Z)
    (email : option string) : option error :=
  if has_illegal_char jid || has_illegal_char (default "" email)
  then Some IllegalCharacterError
  else None.

(** A finished job: created at the new year, done six hours later. *)
Definition finished_job (retention : option Z) : Job :=
  mkJob "job_5" None (Some "2024-01-01T00:00:00+00:00")
    (Some "2024-01-01T06:00:00+00:00") (Some "done") (Some "ann@example.com")
    (Some 3) (Some 25) (Some 0) (Some true) (Some true) retention
    (Some "2024-01-01T06:00:00+00:00") (Some uploaded_paths) None.

(** The service of [after_start] once the worker, running without the
    spreadsheet library, has handled the request of the job. *)
Definition after_dropped_request : World :=
  handle_request false workbook_error "job_1.json" after_start.

End Demo.

(* ===================================================================== *)
(** * app.py: the quote route                                             *)
(* ===================================================================== *)

(** What [int(payload.get("pages", 0))] has to work with: no ["pages"]
    key, a value that [int] turns into an integer, or a value on which
    [int] raises. *)
Inductive PagesField :=
| PagesAbsent
| PagesInt (n : Z)
| PagesNotInt.

Record Quote := mkQuote {
  q_pages : Z;
  q_base_amount_due : Z;
  q_block_pages : Z;
  q_price_per_block : Z;
  q_retention_options_days : list Z;
  q_default_retention_days : Z
}.

Inductive QuoteOutcome :=
| QuotePagesRequired                     (* HTTPException 400 pages_required *)
| QuoteConversionError                   (* int() raised *)
| QuoteOverflowError                     (* the division raised *)
| QuoteRejected                          (* ok: False, reject: True *)
| QuotePriced (q : Quote).

(** [quote(payload)]; [sorted(list(ALLOWED_RETENTION_DAYS))] is the list
    [ALLOWED_RETENTION_DAYS], which is in increasing order. *)
Definition quote (payload : PagesField) : QuoteOutcome :=
  match payload with
  | PagesNotInt => QuoteConversionError
  | _ =>
      let pages := match payload with
                   | PagesInt n => n
                   | _ => 0
                   end in
      if pages <=? 0 then QuotePagesRequired
      else if MAX_PAGES <? pages then QuoteRejected
      else
        match calc_base_amount pages with
        | Some base_amount =>
            QuotePriced (mkQuote pages base_amount PRICE_BLOCK_PAGES
                           PRICE_PER_BLOCK ALLOWED_RETENTION_DAYS
                           DEFAULT_RETENTION_DAYS)
        | None => QuoteOverflowError
        end
  end.

(* ===================================================================== *)
(** * app.py: the payment webhook                                         *)
(* ===================================================================== *)

Section Webhook.

Variable APP_ROOT : string.

(** The verified event, as far as the handler reads it: its type and the
    [job_id] of the session metadata. *)
Record StripeEvent := mkStripeEvent {
  ev_type : option string;
  ev_job_id : option string
}.

Inductive WebhookOutcome :=
| WebhookSecretNotSet                    (* 500 stripe_webhook_secret_not_set *)
| WebhookInvalidSignature                (* 400 invalid_webhook_signature *)
| WebhookRaised (e : error)
| WebhookOk.

(** The body of [if job_id:].  The patch of the first [update_job] is
    built before the call, so the reading for ["stripe_paid_at"] precedes
    the one for ["updated_at"]. *)
Definition checkout_completed (job_id : string) : M unit :=
  job ← read_job job_id;
  (if bool_decide (j_paid job = Some true) then mret tt
   else
     t ← now_ts;
     _ ← update_job job_id
           (fun j => set_stripe_paid_at (Some t)
                       (set_status (Some "paid") (set_paid (Some true) j)));
     mret tt);;
  (* Auto-start: move to queued and write bridge request (idempotent) *)
  job ← read_job job_id;
  if PyStr.in_strs (PyStr.str_opt (j_status job)) ["paid"; "uploaded"]
     && negb (String.eqb (PyStr.str_opt (j_status job)) "queued")
  then
    job ← update_job job_id (set_status (Some "queued"));
    req_path ← write_bridge_request APP_ROOT job;
    _ ← update_job job_id
          (set_paths (Some (<["bridge_request" := req_path]>
                              (default ∅ (j_paths job)))));
    mret tt
  else mret tt.

(** [payments_webhook]; [secret_set] is whether STRIPE_WEBHOOK_SECRET is
    configured, [event] what [stripe.Webhook.construct_event] returns
    ([None]: it raises). *)
Definition payments_webhook (secret_set : bool) (event : option StripeEvent)
    (w : World) : World * WebhookOutcome :=
  if negb secret_set then (w, WebhookSecretNotSet)
  else
    match event with
    | None => (w, WebhookInvalidSignature)
    | Some ev =>
        if bool_decide (ev_type ev = Some "checkout.session.completed")
           && PyStr.truthy_str (ev_job_id ev)
        then
          match checkout_completed (default "" (ev_job_id ev)) w with
          | (w', Ok _) => (w', WebhookOk)
          | (w', Raise e) => (w', WebhookRaised e)
          end
        else (w, WebhookOk)
    end.

End Webhook.

(* ===================================================================== *)
(** * Histories of uploads, and the store invariant                       *)
(* ===================================================================== *)

Section Histories.

Variable APP_ROOT : string.
Variable count_pdf_pages : string -> option nat.

(** Uploads served one after the other, each with the id drawn for it. *)
Fixpoint run_uploads (uploads : list (string * UploadForm)) (w : World)
    : World * list (result UploadResponse) :=
  match uploads with
  | [] => (w, [])
  | (new_job_id, form) :: rest =>
      let (w1, r) := upload_pdf APP_ROOT count_pdf_pages new_job_id form w in
      let (w2, rs) := run_uploads rest w1 in
      (w2, r :: rs)
  end.

(** The response grants the free sample to [email_norm]. *)
Definition grants_sample_to (email_norm : string) (r : result UploadResponse)
    : bool :=
  match r with
  | Ok resp => u_free_sample_applied resp && String.eqb (u_email resp) email_norm
  | Raise _ => false
  end.

End Histories.

(** Every job file is named after the [id] inside it. *)
Definition store_keyed_by_id (w : World) : Prop :=
  forall k job, jobs w !! k = Some (Doc job) -> j_id job = k.

(* ===================================================================== *)
(** * i18n.py: choice of the language                                     *)
(* ===================================================================== *)

Module I18n.

Definition DEFAULT : string := "en".

(** [[a-zA-Z]] *)
Definition is_alpha (c : ascii) : bool :=
  let n := nat_of_ascii c in
  (((65 <=? n) && (n <=? 90)) || ((97 <=? n) && (n <=? 122)))%nat.

Fixpoint all_alpha (s : string) : bool :=
  match s with
  | String c s' => is_alpha c && all_alpha s'
  | EmptyString => true
  end.

(** [[a-zA-Z]{2}(-[a-zA-Z]{2,8})?] on the whole of [s]. *)
Definition lang_tag (s : string) : bool :=
  match s with
  | String a (String b rest) =>
      is_alpha a && is_alpha b
      && match rest with
         | EmptyString => true
         | String c sub =>
             Ascii.eqb c "-" && all_alpha sub
             && (2 <=? String.length sub)%nat && (String.length sub <=? 8)%nat
         end
  | _ => false
  end.

(** [s] without its last character. *)
Definition chop (s : string) : string :=
  substring 0 (String.length s - 1) s.

Definition NEWLINE : string := String (ascii_of_nat 10) EmptyString.

(** [_LANG_RE.match(s)]: the pattern is anchored by [^] and [$], and [$]
    also matches just before a newline that ends the string. *)
Definition lang_re_match (s : string) : bool :=
  lang_tag s || (PyStr.endswith s NEWLINE && lang_tag (chop s)).

(** [s.split(sep)] for a one-character separator. *)
Fixpoint split (sep : ascii) (s : string) : list string :=
  match s with
  | EmptyString => [EmptyString]
  | String c s' =>
      if Ascii.eqb c sep then EmptyString :: split sep s'
      else match split sep s' with
           | piece :: pieces => String c piece :: pieces
           | [] => [String c EmptyString]
           end
  end.

(** [[p.strip() for p in accept_language.split(",") if p.strip()]] *)
Definition header_parts (accept_language : string) : list string :=
  List.filter (fun p => negb (String.eqb p ""))
    (List.map PyStr.strip (split "," accept_language)).

(** The language that the [Accept-Language] branch returns, if it
    returns. *)
Definition from_header (accept_language : option string) : option string :=
  match accept_language with
  | Some a =>
      if String.eqb a "" then None
      else
        match header_parts a with
        | part :: _ =>
            let first := PyStr.lower (PyStr.strip (hd "" (split ";" part))) in
            if lang_re_match first then Some first else None
        | [] => None
        end
  | None => None
  end.

Definition pick_lang (query_lang accept_language : option string) : string :=
  let fallback := default DEFAULT (from_header accept_language) in
  match query_lang with
  | Some ql =>
      if String.eqb ql "" then fallback
      else
        let q := PyStr.lower (PyStr.strip ql) in
        if lang_re_match q then q else fallback
  | None => fallback
  end.

End I18n.

(** An operation keeps the job store keyed by id. *)
Definition keeps_store_keyed {A} (m : M A) : Prop :=
  forall w, store_keyed_by_id w -> store_keyed_by_id (fst (m w)).

(** Everything the service holds for one job id: its record, the saved
    input, whether its upload directory exists, its output directory, its
    result and its request file. *)
Definition job_footprint (k : string) (w : World)
    : option JobFile * option string * bool * option (gset string)
      * option BridgeResult * option RequestFile :=
  (jobs w !! k, upload_files w !! k, bool_decide (k ∈ upload_dirs w),
   outputs w !! k, results w !! k, requests w !! (k ++ ".json")).

(** Nothing is left of the job. *)
Definition erased (k : string) (w : World) : Prop :=
  job_footprint k w = (None, None, false, None, None, None).

(** The string is empty or begins with a character that [strip] keeps. *)
Definition starts_clean (s : string) : Prop :=
  match s with
  | String c _ => PyStr.is_space c = false
  | EmptyString => True
  end.

(* ===================================================================== *)
(** * More fixtures for the concrete checks                               *)
(* ===================================================================== *)

Module DemoMore.

Definition stamp : string := "2024-01-01T00:00:00Z".

(** A form without a usable email, and one whose body is not a PDF. *)
Definition no_email_form : UploadForm :=
  mkUploadForm (Some "a.pdf") "abc" "nobody" None.

Definition broken_pdf_form : UploadForm :=
  mkUploadForm (Some "a.pdf") "not a pdf" "ann@example.com" None.

(** What the first demo upload answers. *)
Definition first_response : UploadResponse :=
  mkUploadResponse "job_1" 3 "ann@example.com" 25 true 0 7.

(** The service after the forty-page upload, and the record it stores. *)
Definition after_billed_upload : World :=
  fst (upload_pdf Demo.root Demo.count_pages "job_40" Demo.medium_form
         Demo.empty_world).

Definition billed_paths : gmap string string :=
  <["upload_dir" := "/srv/twickell/uploads/job_40"]>
    {[ "input_pdf" := "/srv/twickell/uploads/job_40/input.pdf" ]}.

Definition billed_job : Job :=
  mkJob "job_40" None (Some stamp) (Some stamp) (Some "awaiting_payment")
    (Some "bob@example.com") (Some 40) (Some 50) (Some 50) (Some false)
    (Some false) (Some 7) None (Some billed_paths) None.

(** The first demo job once queued, and its request. *)
Definition queued_record : Job :=
  queued_job Demo.root Demo.uploaded_job Demo.uploaded_paths stamp stamp.

Definition queued_request : BridgeRequest :=
  expected_request Demo.root Demo.uploaded_job
    "/srv/twickell/uploads/job_1/input.pdf" stamp.

(** The queue holding that request while the job record is gone. *)
Definition orphan_request_world : World :=
  set_jobs ∅ Demo.after_start.

(** A store holding one finished job with retention 0, and one holding a
    failed job whose timestamps end in ["Z"], which the demo parser does
    not read. *)
Definition finished_world : World :=
  set_jobs {[ "job_5" := Doc (Demo.finished_job (Some 0)) ]} Demo.empty_world.

Definition stale_job : Job := set_status (Some "failed") Demo.uploaded_job.

Definition stale_world : World :=
  set_jobs {[ "job_1" := Doc stale_job ]} Demo.empty_world.

End DemoMore.

(* ===================================================================== *)
(** * Properties: pricing                                                 *)
(* ===================================================================== *)

Example truediv_1_25 :
  PyFloat.int_truediv 1 25 = Some (PyFloat.mkFloat 5764607523034235 (-57)).
Proof. reflexivity. Qed.

Example truediv_rounds_to_even :
  PyFloat.int_truediv 9007199254740993 1
  = Some (PyFloat.mkFloat 4503599627370496 1).
Proof. reflexivity. Qed.

Example calc_base_amount_1 : calc_base_amount 1 = Some 25.
Proof. reflexivity. Qed.

Example calc_base_amount_25 : calc_base_amount 25 = Some 25.
Proof. reflexivity. Qed.

Example calc_base_amount_26 : calc_base_amount 26 = Some 50.
Proof. reflexivity. Qed.

Example calc_base_amount_200 : calc_base_amount 200 = Some 200.
Proof. reflexivity. Qed.

Example calc_base_amount_0 : calc_base_amount 0 = Some 0.
Proof. reflexivity. Qed.

Section PricingProofs.

Import PyFloat.

Lemma round_half_even_bounds n d :
  0 < d -> n / d <= round_half_even n d <= n / d + 1.
Proof.
  intros Hd. unfold round_half_even.
  repeat case_match; lia.
Qed.

Lemma round_half_even_exact n d :
  0 < d -> n mod d = 0 -> round_half_even n d = n / d.
Proof.
  intros Hd Hr. unfold round_half_even. rewrite Hr.
  destruct (2 * 0 <? d) eqn:E; [reflexivity | apply Z.ltb_ge in E; lia].
Qed.

(** Rounding [a * P / 25] to an integer and taking the ceiling of the
    result over [P] gives the integer ceiling of [a / 25] as soon as the
    grid [1 / P] is finer than [1 / 25]. *)
Lemma ceil_of_rounded_quotient a P :
  0 <= a -> 32 <= P ->
  - ((- round_half_even (a * P) 25) / P) = (a + 24) / 25.
Proof.
  intros Ha HP.
  pose proof (Z.div_mod a 25 ltac:(lia)) as Ea.
  pose proof (Z.mod_pos_bound a 25 ltac:(lia)) as Ra.
  set (q := a / 25) in *. set (r := a mod 25) in *.
  assert (Hq : 0 <= q) by (subst q; apply Z.div_pos; lia).
  destruct (Z.eq_dec r 0) as [Hr0 | Hr0].
  - assert (Ea' : a = q * 25) by lia.
    rewrite round_half_even_exact; [| lia |].
    + replace (a * P) with (q * P * 25) by lia.
      rewrite Z.div_mul by lia.
      replace (- (q * P)) with (- q * P) by lia.
      rewrite Z.div_mul by lia.
      replace (a + 24) with (24 + q * 25) by lia.
      rewrite Z.div_add by lia. change (24 / 25) with 0. lia.
    + replace (a * P) with (q * P * 25) by lia. apply Z.mod_mul. lia.
  - pose proof (round_half_even_bounds (a * P) 25 ltac:(lia)) as Hm.
    set (m := round_half_even (a * P) 25) in *.
    pose proof (Z.div_mod (a * P) 25 ltac:(lia)) as En.
    pose proof (Z.mod_pos_bound (a * P) 25 ltac:(lia)) as Rn.
    set (q0 := a * P / 25) in *. set (r0 := (a * P) mod 25) in *.
    assert (HrP : P <= r * P <= 24 * P) by nia.
    assert (EaP : a * P = 25 * (q * P) + r * P) by nia.
    assert (Hlo : q * P + 1 <= m) by lia.
    assert (Hhi : m <= q * P + P - 1) by lia.
    assert (E1 : (a + 24) / 25 = q + 1).
    { symmetry. apply (Z.div_unique (a + 24) 25 (q + 1) (r - 1)); lia. }
    rewrite E1.
    assert (E2 : (- m) / P = - (q + 1)).
    { symmetry. apply (Z.div_unique (- m) P (- (q + 1)) ((q + 1) * P - m)); lia. }
    rewrite E2. lia.
Qed.

Lemma quot_exponent_25 a :
  1 <= a < 25 * 2 ^ 48 -> -5 <= quot_exponent a 25 <= 47.
Proof.
  intros [Hlo Hhi]. unfold quot_exponent.
  change (Z.log2 25) with 4.
  pose proof (Z.log2_nonneg a) as H0.
  assert (H1 : Z.log2 a < 53).
  { apply Z.log2_lt_pow2; [lia |]. change (2 ^ 53) with (32 * 2 ^ 48). lia. }
  set (l := Z.log2 a - 4).
  assert (Hl : -4 <= l <= 48) by (subst l; lia).
  destruct (Z.eq_dec l 48) as [E | E].
  - rewrite E. change (0 <=? 48) with true. cbv iota.
    destruct (25 * 2 ^ 48 <=? a) eqn:F; [apply Z.leb_le in F; lia | lia].
  - case_match; lia.
Qed.

(** On every page count below [25 * 2^48] the float computation agrees
    with the integer ceiling. *)
Lemma calc_base_amount_tier_price pages :
  1 <= pages < 25 * 2 ^ 48 ->
  calc_base_amount pages = Some (tier_price pages).
Proof.
  intros Hp. pose proof (quot_exponent_25 pages Hp) as Hq.
  unfold calc_base_amount, tier_price, int_truediv, PRICE_BLOCK_PAGES,
    PRICE_PER_BLOCK.
  change (25 =? 0) with false. cbv iota.
  destruct (pages =? 0) eqn:E0; [apply Z.eqb_eq in E0; lia |].
  rewrite (Z.abs_eq pages) by lia. change (Z.abs 25) with 25.
  rewrite (Z.sgn_pos pages) by lia. change (Z.sgn 25) with 1.
  set (e := Z.max (quot_exponent pages 25 - 52) (-1074)).
  assert (He : -57 <= e <= -5) by (subst e; lia).
  cbv zeta.
  destruct (0 <=? e) eqn:E1; [apply Z.leb_le in E1; lia |].
  cbn [andb]. unfold ceil. cbn [expo mant]. rewrite E1.
  assert (HP : 32 <= 2 ^ (- e)).
  { change 32 with (2 ^ 5). apply Z.pow_le_mono_r; lia. }
  rewrite Z.mul_1_l.
  rewrite (ceil_of_rounded_quotient pages (2 ^ (- e))) by lia.
  reflexivity.
Qed.

(** The integer ceiling is the number of the 25-page block. *)
Lemma tier_price_block pages k :
  0 <= k -> 25 * k + 1 <= pages <= 25 * k + 25 ->
  tier_price pages = 25 * (k + 1).
Proof.
  intros Hk Hp. unfold tier_price, PRICE_BLOCK_PAGES, PRICE_PER_BLOCK.
  rewrite <- (Z.div_unique (pages + (25 - 1)) 25 (k + 1) (pages - 25 * k - 1));
    lia.
Qed.

End PricingProofs.

(** C4, as stated, fails: at [25 * 2^49 + 1] pages the float quotient
    rounds down to [2^49] and the code's price is one block short of
    [ceil(pages / 25) * 25]. *)
Lemma calc_base_amount_not_ceiling_everywhere :
  1 <= far_page_count
  /\ calc_base_amount far_page_count = Some 14073748835532800
  /\ tier_price far_page_count = 14073748835532825
  /\ calc_base_amount far_page_count <> Some (tier_price far_page_count).
Proof.
  repeat split; try reflexivity; vm_compute; congruence.
Qed.

(** C4 (amended): for every page count from 1 up to (excluding)
    [25 * 2^48], which covers every count up to MAX_PAGES, the base price
    is [ceil(pages / 25) * 25]: it is 25 times the 1-based number of the
    25-page block that holds [pages], hence never 0, constant inside a
    block and 25 more in the next block. *)
Theorem calc_base_amount_is_block_price pages :
  1 <= pages -> pages < 25 * 2 ^ 48 ->
  calc_base_amount pages = Some (tier_price pages)
  /\ tier_price pages = 25 * ((pages - 1) / 25 + 1)
  /\ pages <= tier_price pages < pages + 25
  /\ 0 < tier_price pages.
Proof.
  intros H1 H2.
  assert (Hb : tier_price pages = 25 * ((pages - 1) / 25 + 1)).
  { apply tier_price_block.
    - apply Z.div_pos; lia.
    - pose proof (Z.div_mod (pages - 1) 25 ltac:(lia)).
      pose proof (Z.mod_pos_bound (pages - 1) 25 ltac:(lia)). lia. }
  split; [apply calc_base_amount_tier_price; lia |].
  split; [exact Hb |].
  rewrite Hb.
  pose proof (Z.div_mod (pages - 1) 25 ltac:(lia)).
  pose proof (Z.mod_pos_bound (pages - 1) 25 ltac:(lia)).
  assert (0 <= (pages - 1) / 25) by (apply Z.div_pos; lia).
  lia.
Qed.

Lemma calc_base_amount_is_block_price_witness :
  calc_base_amount 26 = Some (tier_price 26)
  /\ tier_price 26 = 25 * ((26 - 1) / 25 + 1)
  /\ 26 <= tier_price 26 < 26 + 25
  /\ 0 < tier_price 26.
Proof.
  apply (calc_base_amount_is_block_price 26); [lia | reflexivity].
Defined.

(** The prices inside one block and in the next one. *)
Corollary calc_base_amount_block_step pages k :
  0 <= k -> 25 * k + 1 <= pages <= 25 * k + 25 -> pages + 25 < 25 * 2 ^ 48 ->
  calc_base_amount pages = Some (25 * (k + 1))
  /\ calc_base_amount (pages + 25) = Some (25 * (k + 1) + 25).
Proof.
  intros Hk Hp Hb. split.
  - rewrite calc_base_amount_tier_price by lia.
    f_equal. apply tier_price_block; lia.
  - rewrite calc_base_amount_tier_price by lia.
    f_equal. rewrite (tier_price_block (pages + 25) (k + 1)); lia.
Qed.

(** Every page count the service accepts is in that range. *)
Corollary calc_base_amount_up_to_cap pages :
  1 <= pages <= MAX_PAGES -> calc_base_amount pages = Some (tier_price pages).
Proof.
  intros [H1 H2]. apply calc_base_amount_tier_price.
  unfold MAX_PAGES in H2. split; [lia |].
  apply Z.le_lt_trans with 200; [lia | reflexivity].
Qed.

(* ===================================================================== *)
(** * Properties: the start operation                                     *)
(* ===================================================================== *)

(** Unfold the monadic plumbing. *)
Ltac run :=
  unfold mbind, mret, M_bind, M_ret, modify, gets, raise in *; cbn beta iota.

Section StartProofs.

Variable APP_ROOT : string.

Lemma read_job_found job_id job w :
  jobs w !! job_id = Some (Doc job) -> read_job job_id w = (w, Ok job).
Proof. intros H. unfold read_job. rewrite H. reflexivity. Qed.

(** [update_job] on a stored job whose file is named after its id: the
    patched job, stamped with the next clock reading, replaces it. *)
Lemma update_job_found job_id job patch w :
  jobs w !! job_id = Some (Doc job) ->
  j_id (patch job) = job_id ->
  let job' := set_updated_at (Some (clock w (ticks w))) (patch job) in
  update_job job_id patch w
  = (set_jobs (<[job_id := Doc job']> (jobs w)) (set_ticks (S (ticks w)) w), Ok job').
Proof.
  intros H Hid job'. unfold update_job, write_job, now_ts. run.
  rewrite (read_job_found _ _ _ H). cbn.
  subst job'. cbn. rewrite Hid. reflexivity.
Qed.

Lemma start_unpaid job_id job w :
  jobs w !! job_id = Some (Doc job) -> j_paid job <> Some true ->
  start APP_ROOT job_id w = (w, Raise PaymentRequired).
Proof.
  intros H Hp. unfold start. run. rewrite (read_job_found _ _ _ H).
  destruct (j_paid job) as [[|]|]; cbn; congruence.
Qed.

Lemma start_already_queued job_id job w :
  jobs w !! job_id = Some (Doc job) -> j_paid job = Some true ->
  j_status job = Some "queued" ->
  start APP_ROOT job_id w = (w, Ok (StartAlreadyQueued job)).
Proof.
  intros H Hp Hs. unfold start. run. rewrite (read_job_found _ _ _ H).
  rewrite Hp, Hs. reflexivity.
Qed.

Lemma start_invalid_status job_id job w :
  jobs w !! job_id = Some (Doc job) -> j_paid job = Some true ->
  PyStr.in_strs (PyStr.str_opt (j_status job)) ["uploaded"; "paid"; "queued"]
    = false ->
  start APP_ROOT job_id w = (w, Raise (InvalidStatusForStart (j_status job))).
Proof.
  intros H Hp Hs. unfold start. run. rewrite (read_job_found _ _ _ H).
  rewrite Hp. cbn [PyStr.truthy_bool negb].
  unfold PyStr.in_strs in *. cbn [existsb] in *.
  apply orb_false_elim in Hs as [Hu Hs].
  apply orb_false_elim in Hs as [Hpd Hs].
  apply orb_false_elim in Hs as [Hq _].
  rewrite Hq, Hu, Hpd. reflexivity.
Qed.

Lemma start_enqueues_eq job_id job paths input_pdf w :
  jobs w !! job_id = Some (Doc job) -> j_paid job = Some true ->
  j_status job = Some "uploaded" \/ j_status job = Some "paid" ->
  j_id job = job_id ->
  j_paths job = Some paths -> paths !! "input_pdf" = Some input_pdf ->
  let t1 := clock w (ticks w) in
  let t2 := clock w (S (ticks w)) in
  let t3 := clock w (S (S (ticks w))) in
  let job' := queued_job APP_ROOT job paths t1 t3 in
  start APP_ROOT job_id w
  = (mkWorld (<[job_id := Doc job']> (jobs w))
       (<[request_name job_id := Doc (expected_request APP_ROOT job input_pdf t2)]>
          (requests w))
       (results w) (ledger w) (upload_dirs w) (upload_files w) (outputs w)
       (log w) (clock w) (S (S (S (ticks w)))),
     Ok (StartQueued job' (request_path APP_ROOT job_id))).
Proof.
  intros H Hp Hs Hid Hpaths Hin t1 t2 t3 job'.
  unfold start. run. rewrite (read_job_found _ _ _ H).
  rewrite Hp. cbn [PyStr.truthy_bool negb].
  assert (Hq : String.eqb (PyStr.str_opt (j_status job)) "queued" = false)
    by (destruct Hs as [-> | ->]; reflexivity).
  assert (Hok : PyStr.in_strs (PyStr.str_opt (j_status job)) ["uploaded"; "paid"]
                = true)
    by (destruct Hs as [-> | ->]; reflexivity).
  rewrite Hq, Hok. cbn [negb].
  rewrite (update_job_found job_id job (set_status (Some "queued")) w H Hid).
  cbn zeta.
  unfold write_bridge_request, bridge_request_doc, lookup_key, now_ts. run.
  cbn [j_paths set_updated_at set_status j_id ticks clock set_jobs set_ticks
       jobs requests].
  rewrite Hpaths, Hin. cbn [default].
  erewrite update_job_found; cycle 1.
  { cbn [jobs set_requests set_ticks set_jobs]. apply lookup_insert_eq. }
  { cbn. exact Hid. }
  cbn zeta. unfold write_text. cbn [write_text_trace List.last].
  cbn [jobs requests results ledger upload_dirs upload_files outputs log clock
       ticks set_jobs set_requests set_ticks
       j_id j_pages j_free_sample_applied j_retention_days set_updated_at
       set_status set_paths].
  rewrite insert_insert_eq.
  subst job' t1 t2 t3. unfold queued_job, expected_request, request_path, set_jobs.
  cbn. rewrite Hid. reflexivity.
Qed.

(** A start that returns normally on a job that was not queued yet went
    through the transition: the status allowed it and the input path was
    on record. *)
Lemma start_ok_inv job_id job w w1 r1 :
  jobs w !! job_id = Some (Doc job) -> j_id job = job_id ->
  j_status job <> Some "queued" ->
  start APP_ROOT job_id w = (w1, Ok r1) ->
  j_paid job = Some true
  /\ (j_status job = Some "uploaded" \/ j_status job = Some "paid")
  /\ exists paths input_pdf,
       j_paths job = Some paths /\ paths !! "input_pdf" = Some input_pdf.
Proof.
  intros H Hid Hnq Hst.
  destruct (j_paid job) as [[|]|] eqn:Hp;
    [| rewrite (start_unpaid job_id job w H) in Hst by congruence; discriminate
     | rewrite (start_unpaid job_id job w H) in Hst by congruence; discriminate ].
  split; [reflexivity |].
  destruct (PyStr.in_strs (PyStr.str_opt (j_status job))
              ["uploaded"; "paid"; "queued"]) eqn:Hin.
  2:{ rewrite (start_invalid_status job_id job w H Hp Hin) in Hst. discriminate. }
  assert (Hs : j_status job = Some "uploaded" \/ j_status job = Some "paid").
  { unfold PyStr.in_strs in Hin. cbn [existsb] in Hin.
    destruct (j_status job) as [s|] eqn:Es; cbn [PyStr.str_opt] in Hin.
    - destruct (String.eqb_spec s "uploaded") as [-> | _]; [left; reflexivity |].
      destruct (String.eqb_spec s "paid") as [-> | _]; [right; reflexivity |].
      destruct (String.eqb_spec s "queued") as [-> | _]; [congruence |].
      discriminate.
    - discriminate. }
  split; [exact Hs |].
  destruct (j_paths job) as [paths|] eqn:Hpaths.
  - destruct (paths !! "input_pdf") as [input_pdf|] eqn:Hin'.
    + eauto.
    + exfalso. revert Hst. unfold start. run.
      rewrite (read_job_found _ _ _ H). rewrite Hp. cbn [PyStr.truthy_bool negb].
      assert (Hq : String.eqb (PyStr.str_opt (j_status job)) "queued" = false)
        by (destruct Hs as [-> | ->]; reflexivity).
      assert (Hok : PyStr.in_strs (PyStr.str_opt (j_status job))
                      ["uploaded"; "paid"] = true)
        by (destruct Hs as [-> | ->]; reflexivity).
      rewrite Hq, Hok. cbn [negb].
      rewrite (update_job_found job_id job (set_status (Some "queued")) w H Hid).
      cbn zeta.
      unfold write_bridge_request, bridge_request_doc, lookup_key, now_ts. run.
      cbn [j_paths set_updated_at set_status]. rewrite Hpaths, Hin'.
      discriminate.
  - exfalso. revert Hst. unfold start. run.
    rewrite (read_job_found _ _ _ H). rewrite Hp. cbn [PyStr.truthy_bool negb].
    assert (Hq : String.eqb (PyStr.str_opt (j_status job)) "queued" = false)
      by (destruct Hs as [-> | ->]; reflexivity).
    assert (Hok : PyStr.in_strs (PyStr.str_opt (j_status job))
                    ["uploaded"; "paid"] = true)
      by (destruct Hs as [-> | ->]; reflexivity).
    rewrite Hq, Hok. cbn [negb].
    rewrite (update_job_found job_id job (set_status (Some "queued")) w H Hid).
    cbn zeta.
    unfold write_bridge_request, bridge_request_doc, now_ts. run.
    cbn [j_paths set_updated_at set_status]. rewrite Hpaths.
    discriminate.
Qed.

(** C1: on an existing job, [start] raises PaymentRequired unless [paid]
    is true; with [paid] true it returns the job unchanged when the status
    is 'queued', raises the invalid-transition error carrying the status
    when the status is none of 'uploaded', 'paid', 'queued', and otherwise
    (for a job stored under its own id with its input path on record) sets
    the status to 'queued', writes the one request file named after the
    job, and records that file's path under [paths.bridge_request]. *)
Theorem start_transitions job_id job w :
  jobs w !! job_id = Some (Doc job) ->
  (j_paid job <> Some true ->
   start APP_ROOT job_id w = (w, Raise PaymentRequired))
  /\ (j_paid job = Some true ->
      (j_status job = Some "queued" ->
       start APP_ROOT job_id w = (w, Ok (StartAlreadyQueued job)))
      /\ (PyStr.in_strs (PyStr.str_opt (j_status job))
            ["uploaded"; "paid"; "queued"] = false ->
          start APP_ROOT job_id w
          = (w, Raise (InvalidStatusForStart (j_status job))))
      /\ (j_status job = Some "uploaded" \/ j_status job = Some "paid" ->
          j_id job = job_id ->
          forall paths input_pdf,
            j_paths job = Some paths ->
            paths !! "input_pdf" = Some input_pdf ->
            exists w' job' req,
              start APP_ROOT job_id w
              = (w', Ok (StartQueued job' (request_path APP_ROOT job_id)))
              /\ jobs w' = <[job_id := Doc job']> (jobs w)
              /\ j_status job' = Some "queued"
              /\ j_paid job' = Some true
              /\ j_paths job'
                 = Some (<["bridge_request" := request_path APP_ROOT job_id]> paths)
              /\ requests w'
                 = <[request_name job_id := Doc req]> (requests w)
              /\ r_job_id req = Some job_id
              /\ r_input_pdf req = input_pdf
              /\ results w' = results w
              /\ ledger w' = ledger w
              /\ upload_files w' = upload_files w)).
Proof.
  intros H. split; [apply start_unpaid; exact H |].
  intros Hp. split; [apply start_already_queued; assumption |].
  split; [apply start_invalid_status; assumption |].
  intros Hs Hid paths input_pdf Hpaths Hin.
  pose proof (start_enqueues_eq job_id job paths input_pdf w H Hp Hs Hid
                Hpaths Hin) as E.
  cbn zeta in E. eexists _, _, _. split; [exact E |].
  unfold queued_job, expected_request. cbn. rewrite Hid.
  repeat split; try reflexivity. exact Hp.
Qed.

(** C6 (amended): when [start] succeeds on a paid job that was not
    'queued' before the call (its record stored under its own id), a second
    [start] returns the same job with status 'queued' and changes nothing:
    the status stays 'queued' and the requests directory is the one before
    the first call plus the single request file of the job. *)
Theorem start_twice_same_queue job_id job w w1 r1 :
  jobs w !! job_id = Some (Doc job) ->
  j_id job = job_id ->
  j_paid job = Some true ->
  j_status job <> Some "queued" ->
  start APP_ROOT job_id w = (w1, Ok r1) ->
  exists job1 req,
    r1 = StartQueued job1 (request_path APP_ROOT job_id)
    /\ j_status job1 = Some "queued"
    /\ jobs w1 !! job_id = Some (Doc job1)
    /\ start APP_ROOT job_id w1 = (w1, Ok (StartAlreadyQueued job1))
    /\ requests w1 = <[request_name job_id := Doc req]> (requests w)
    /\ requests w1 !! request_name job_id = Some (Doc req).
Proof.
  intros H Hid Hp Hnq Hst.
  destruct (start_ok_inv job_id job w w1 r1 H Hid Hnq Hst)
    as (_ & Hs & paths & input_pdf & Hpaths & Hin).
  pose proof (start_enqueues_eq job_id job paths input_pdf w H Hp Hs Hid
                Hpaths Hin) as E.
  cbn zeta in E. rewrite E in Hst. injection Hst as <- <-.
  eexists _, _. split; [reflexivity |].
  split; [reflexivity |].
  split; [cbn; apply lookup_insert_eq |].
  split.
  - apply start_already_queued.
    + cbn. apply lookup_insert_eq.
    + cbn. exact Hp.
    + reflexivity.
  - split; [reflexivity | cbn; apply lookup_insert_eq].
Qed.

End StartProofs.

Lemma demo_upload_stores_job :
  jobs Demo.after_upload !! "job_1" = Some (Doc Demo.uploaded_job).
Proof. vm_compute. reflexivity. Qed.

Lemma start_transitions_witness :
  exists w' job' req,
    start Demo.root "job_1" Demo.after_upload
    = (w', Ok (StartQueued job' (request_path Demo.root "job_1")))
    /\ j_status job' = Some "queued"
    /\ requests w'
       = <[request_name "job_1" := Doc req]> (requests Demo.after_upload).
Proof.
  destruct (start_transitions Demo.root "job_1" Demo.uploaded_job
              Demo.after_upload demo_upload_stores_job) as [_ H].
  destruct (H eq_refl) as (_ & _ & H4).
  destruct (H4 (or_introl eq_refl) eq_refl Demo.uploaded_paths
              "/srv/twickell/uploads/job_1/input.pdf" eq_refl eq_refl)
    as (w' & job' & req & E & _ & Hs & _ & _ & Hr & _).
  exists w', job', req. repeat split; assumption.
Defined.

Lemma start_twice_same_queue_witness :
  exists w1 job1 req,
    start Demo.root "job_1" Demo.after_upload
    = (w1, Ok (StartQueued job1 (request_path Demo.root "job_1")))
    /\ start Demo.root "job_1" w1 = (w1, Ok (StartAlreadyQueued job1))
    /\ j_status job1 = Some "queued"
    /\ requests w1 !! request_name "job_1" = Some (Doc req).
Proof.
  destruct (start Demo.root "job_1" Demo.after_upload) as [w1 r1] eqn:E.
  assert (Hok : exists r, r1 = Ok r).
  { vm_compute in E. injection E as _ <-. eexists. reflexivity. }
  destruct Hok as [r ->].
  destruct (start_twice_same_queue Demo.root "job_1" Demo.uploaded_job
              Demo.after_upload w1 r demo_upload_stores_job eq_refl eq_refl
              ltac:(discriminate) E)
    as (job1 & req & -> & Hs & _ & H2 & _ & Hr).
  exists w1, job1, req. repeat split; assumption.
Defined.

(** C6, as stated, fails on a paid job that is already 'queued': once the
    worker has dropped the request of the job (here the spreadsheet library
    is missing), [start] succeeds as often as it is called, answering
    'already queued' with the same job, and writes nothing, so after two
    successful calls no request file of the job exists. *)
Lemma start_twice_without_request_file :
  exists job,
    stored_job "job_1" Demo.after_dropped_request = Some job
    /\ j_paid job = Some true
    /\ j_status job = Some "queued"
    /\ start Demo.root "job_1" Demo.after_dropped_request
       = (Demo.after_dropped_request, Ok (StartAlreadyQueued job))
    /\ start Demo.root "job_1"
         (fst (start Demo.root "job_1" Demo.after_dropped_request))
       = (Demo.after_dropped_request, Ok (StartAlreadyQueued job))
    /\ requests Demo.after_dropped_request !! request_name "job_1" = None
    /\ requests (fst (start Demo.root "job_1" Demo.after_dropped_request))
         !! request_name "job_1" = None.
Proof.
  eexists.
  split; [vm_compute; reflexivity |].
  split; [reflexivity |]. split; [reflexivity |].
  match goal with
  | |- start _ _ _ = (_, Ok (StartAlreadyQueued ?j)) /\ _ =>
      assert (E : start Demo.root "job_1" Demo.after_dropped_request
                  = (Demo.after_dropped_request, Ok (StartAlreadyQueued j)))
  end.
  { apply start_already_queued; [vm_compute; reflexivity | reflexivity ..]. }
  rewrite E. cbn [fst]. rewrite E.
  split; [reflexivity |]. split; [reflexivity |].
  split; vm_compute; reflexivity.
Qed.

(* ===================================================================== *)
(** * Properties: upload and the free-sample ledger                       *)
(* ===================================================================== *)

Section UploadProofs.

Variable APP_ROOT : string.
Variable count_pdf_pages : string -> option nat.

Lemma upload_form_rejected new_job_id form w :
  form_accepted form = false ->
  exists e, upload_pdf APP_ROOT count_pdf_pages new_job_id form w = (w, Raise e).
Proof.
  unfold form_accepted, upload_pdf. intros H.
  destruct (String.eqb (normalize_email (f_email form)) ""
            || negb (PyStr.contains "@"%char (normalize_email (f_email form))));
    [eexists; reflexivity |].
  cbn [negb andb] in H.
  fold (retention_or_default form).
  destruct (bool_decide (retention_or_default form ∈ ALLOWED_RETENTION_DAYS));
    [| eexists; reflexivity].
  cbn [negb andb] in H |- *. rewrite H. eexists; reflexivity.
Qed.

(** Past the form checks the body is saved and the pages are counted. *)
Lemma upload_form_accepted new_job_id form w :
  form_accepted form = true ->
  upload_pdf APP_ROOT count_pdf_pages new_job_id form w
  = (let email_norm := normalize_email (f_email form) in
     let retention_days_i := retention_or_default form in
     let job_id := new_job_id in
     modify (fun w => set_upload_dirs ({[job_id]} ∪ upload_dirs w) w);;
     modify (fun w =>
       set_upload_files (<[job_id := f_bytes form]> (upload_files w)) w);;
     pages ← match count_pdf_pages (f_bytes form) with
             | Some n => mret (Z.of_nat n)
             | None => raise InvalidPdf
             end;
     if MAX_PAGES <? pages
     then
       modify (fun w => set_upload_files (delete job_id (upload_files w)) w);;
       raise CapRejected
     else
     base_amount ← match calc_base_amount pages with
                   | Some b => mret b
                   | None => raise OverflowError
                   end;
     free_sample_eligible ←
       (if pages <=? FREE_SAMPLE_MAX_PAGES
        then email_can_use_free_sample email_norm
        else mret false : M bool);
     let free_sample_applied : bool := free_sample_eligible in
     let amount_due := if free_sample_applied then 0 else base_amount in
     let status := if amount_due =? 0 then "uploaded" else "awaiting_payment" in
     let paid := amount_due =? 0 in
     created ← now_ts;
     updated ← now_ts;
     let job :=
       mkJob job_id None (Some created) (Some updated) (Some status)
         (Some email_norm) (Some pages) (Some base_amount) (Some amount_due)
         (Some paid) (Some free_sample_applied) (Some retention_days_i) None
         (Some (<["upload_dir" := upload_dir_path APP_ROOT job_id]>
                  {[ "input_pdf" := input_pdf_path APP_ROOT job_id ]})) None in
     write_job job;;
     (if free_sample_applied
      then mark_email_used_free_sample email_norm job_id
      else mret tt);;
     mret (mkUploadResponse job_id pages email_norm base_amount
             free_sample_applied amount_due retention_days_i)) w.
Proof.
  unfold form_accepted, upload_pdf. intros H.
  apply andb_prop in H as [H H3]. apply andb_prop in H as [H1 H2].
  apply negb_true_iff in H1. rewrite H1.
  fold (retention_or_default form). rewrite H2, H3. reflexivity.
Qed.

Lemma contains_at_not_sentinel s :
  PyStr.contains "@"%char s = true -> s <> CORRUPTED_KEY.
Proof. intros H ->. vm_compute in H. discriminate. Qed.

Lemma form_accepted_email form :
  form_accepted form = true ->
  normalize_email (f_email form) <> CORRUPTED_KEY.
Proof.
  unfold form_accepted. intros H.
  apply andb_prop in H as [H _]. apply andb_prop in H as [H _].
  apply negb_true_iff, orb_false_elim in H as [_ H].
  apply negb_false_iff in H. apply contains_at_not_sentinel, H.
Qed.

(** What [email_can_use_free_sample] answers, by the state of the ledger
    file. *)
Lemma email_can_use_free_sample_doc email_norm l w :
  ledger w = LedgerDoc l ->
  email_can_use_free_sample email_norm w
  = (w, Ok (bool_decide (ledger_entry (ledger w) email_norm = None))).
Proof.
  intros H. unfold email_can_use_free_sample, read_ledger. run.
  rewrite H. reflexivity.
Qed.

Lemma email_can_use_free_sample_absent email_norm w :
  ledger w = LedgerAbsent ->
  email_can_use_free_sample email_norm w = (w, Ok true).
Proof.
  intros H. unfold email_can_use_free_sample, read_ledger. run.
  rewrite H. reflexivity.
Qed.

Lemma email_can_use_free_sample_unparsable email_norm w :
  ledger w = LedgerUnparsable ->
  email_norm <> CORRUPTED_KEY ->
  email_can_use_free_sample email_norm w
  = (set_ticks (S (ticks w)) w, Ok true).
Proof.
  intros H Hne. unfold email_can_use_free_sample, read_ledger, now_ts. run.
  rewrite H. cbn. unfold CORRUPTED_KEY in Hne.
  rewrite lookup_insert_ne by congruence. rewrite lookup_empty. reflexivity.
Qed.

(** Eligible email: the answer is yes whatever the file, and only the
    clock may have advanced. *)
Lemma email_can_use_free_sample_yes email_norm w :
  email_norm <> CORRUPTED_KEY ->
  ledger_entry (ledger w) email_norm = None ->
  exists k, email_can_use_free_sample email_norm w
            = (set_ticks k w, Ok true).
Proof.
  intros Hne He. destruct (ledger w) as [| |l] eqn:El.
  - exists (ticks w). rewrite email_can_use_free_sample_absent by exact El.
    destruct w; reflexivity.
  - exists (S (ticks w)). apply email_can_use_free_sample_unparsable; assumption.
  - exists (ticks w). rewrite (email_can_use_free_sample_doc _ l) by exact El.
    rewrite El. cbn [ledger_entry] in He |- *. rewrite He.
    destruct w; reflexivity.
Qed.

Lemma email_can_use_free_sample_no email_norm w :
  ledger_entry (ledger w) email_norm <> None ->
  email_can_use_free_sample email_norm w = (w, Ok false).
Proof.
  intros He. destruct (ledger w) as [| |l] eqn:El;
    try (cbn in He; congruence).
  rewrite (email_can_use_free_sample_doc _ l) by exact El.
  rewrite El. rewrite bool_decide_eq_false_2 by exact He. reflexivity.
Qed.

(** [mark_email_used_free_sample] leaves a ledger document that holds the
    email. *)
Lemma mark_email_used_free_sample_entry email_norm job_id w :
  exists w' t,
    mark_email_used_free_sample email_norm job_id w = (w', Ok tt)
    /\ ledger_entry (ledger w') email_norm = Some (UsedBy job_id t)
    /\ jobs w' = jobs w /\ requests w' = requests w
    /\ upload_files w' = upload_files w.
Proof.
  unfold mark_email_used_free_sample, read_ledger, write_ledger, now_ts. run.
  destruct (ledger w) as [| |l] eqn:El; cbn;
    eexists _, _; (split; [reflexivity |]); cbn;
    rewrite lookup_insert_eq; repeat split; reflexivity.
Qed.

Lemma calc_base_amount_in_cap pages :
  0 <= pages <= MAX_PAGES ->
  exists b, calc_base_amount pages = Some b
            /\ (1 <= pages -> b = tier_price pages /\ 0 < b)
            /\ (pages = 0 -> b = 0).
Proof.
  intros [H0 Hc]. destruct (Z.eq_dec pages 0) as [-> | Hne].
  - exists 0. repeat split; try reflexivity; lia.
  - exists (tier_price pages).
    split; [apply calc_base_amount_up_to_cap; lia |].
    split; [| lia]. intros _. split; [reflexivity |].
    rewrite (tier_price_block pages ((pages - 1) / 25)).
    + assert (0 <= (pages - 1) / 25) by (apply Z.div_pos; lia). lia.
    + apply Z.div_pos; lia.
    + pose proof (Z.div_mod (pages - 1) 25 ltac:(lia)).
      pose proof (Z.mod_pos_bound (pages - 1) 25 ltac:(lia)). lia.
Qed.

(** An accepted upload of at most FREE_SAMPLE_MAX_PAGES pages by an email
    without a ledger entry: the job is free and paid, and the ledger gains
    the entry of this job. *)
Lemma upload_free_sample new_job_id form w n :
  form_accepted form = true ->
  count_pdf_pages (f_bytes form) = Some n ->
  Z.of_nat n <= FREE_SAMPLE_MAX_PAGES ->
  ledger_entry (ledger w) (normalize_email (f_email form)) = None ->
  exists w' job resp t,
    upload_pdf APP_ROOT count_pdf_pages new_job_id form w = (w', Ok resp)
    /\ jobs w' = <[new_job_id := Doc job]> (jobs w)
    /\ j_id job = new_job_id
    /\ j_pages job = Some (Z.of_nat n)
    /\ j_amount_due job = Some 0
    /\ j_status job = Some "uploaded"
    /\ j_paid job = Some true
    /\ j_free_sample_applied job = Some true
    /\ ledger_entry (ledger w') (normalize_email (f_email form))
       = Some (UsedBy new_job_id t).
Proof.
  intros Hf Hn Hfree He.
  pose proof (form_accepted_email form Hf) as Hne.
  rewrite (upload_form_accepted _ _ _ Hf). cbn zeta. run. rewrite Hn.
  unfold FREE_SAMPLE_MAX_PAGES in Hfree.
  destruct (MAX_PAGES <? Z.of_nat n) eqn:E;
    [apply Z.ltb_lt in E; unfold MAX_PAGES in E; lia |].
  destruct (calc_base_amount_in_cap (Z.of_nat n)) as (b & Hb & _);
    [unfold MAX_PAGES; lia |].
  rewrite Hb.
  destruct (Z.of_nat n <=? FREE_SAMPLE_MAX_PAGES) eqn:E5;
    [| apply Z.leb_gt in E5; unfold FREE_SAMPLE_MAX_PAGES in E5; lia].
  match goal with
  | |- context [email_can_use_free_sample ?e ?w1] =>
      destruct (email_can_use_free_sample_yes e w1 Hne He) as [k Hk];
      rewrite Hk
  end.
  unfold now_ts, write_job. cbn.
  match goal with
  | |- context [mark_email_used_free_sample ?e ?j ?w1] =>
      destruct (mark_email_used_free_sample_entry e j w1)
        as (w' & t & Hm & Hent & Hj & _);
      rewrite Hm
  end.
  eexists _, _, _, t. split; [reflexivity |].
  rewrite Hj. cbn. repeat split; try reflexivity. exact Hent.
Qed.

(** An accepted upload of at least one page that is not eligible (too
    many pages, or the email already has a ledger entry): the job awaits
    payment at the base price and the ledger file is untouched. *)
Lemma upload_billed new_job_id form w n :
  form_accepted form = true ->
  count_pdf_pages (f_bytes form) = Some n ->
  1 <= Z.of_nat n <= MAX_PAGES ->
  FREE_SAMPLE_MAX_PAGES < Z.of_nat n
  \/ ledger_entry (ledger w) (normalize_email (f_email form)) <> None ->
  exists w' job resp,
    upload_pdf APP_ROOT count_pdf_pages new_job_id form w = (w', Ok resp)
    /\ jobs w' = <[new_job_id := Doc job]> (jobs w)
    /\ j_id job = new_job_id
    /\ j_pages job = Some (Z.of_nat n)
    /\ j_status job = Some "awaiting_payment"
    /\ j_paid job = Some false
    /\ j_free_sample_applied job = Some false
    /\ j_base_amount_due job = Some (tier_price (Z.of_nat n))
    /\ j_amount_due job = j_base_amount_due job
    /\ ledger w' = ledger w.
Proof.
  intros Hf Hn [H1 Hc] Hel.
  rewrite (upload_form_accepted _ _ _ Hf). cbn zeta. run. rewrite Hn.
  destruct (MAX_PAGES <? Z.of_nat n) eqn:E; [apply Z.ltb_lt in E; lia |].
  destruct (calc_base_amount_in_cap (Z.of_nat n)) as (b & Hb & Hpos & _);
    [lia |].
  destruct (Hpos H1) as [-> Hb0]. rewrite Hb.
  assert (Hno :
    forall w1, ledger w1 = ledger w ->
      (if Z.of_nat n <=? FREE_SAMPLE_MAX_PAGES
       then email_can_use_free_sample (normalize_email (f_email form))
       else mret false : M bool) w1 = (w1, Ok false)).
  { intros w1 Hw1. destruct (Z.of_nat n <=? FREE_SAMPLE_MAX_PAGES) eqn:E5.
    - apply Z.leb_le in E5. destruct Hel as [Hel | Hel]; [lia |].
      apply email_can_use_free_sample_no. rewrite Hw1. exact Hel.
    - reflexivity. }
  unfold mret, M_ret in Hno. rewrite Hno by reflexivity.
  assert (Hz : (tier_price (Z.of_nat n) =? 0) = false) by (apply Z.eqb_neq; lia).
  unfold now_ts, write_job. cbn. rewrite Hz.
  eexists _, _, _. split; [reflexivity |].
  cbn. repeat split; reflexivity.
Qed.

(** The record that a successful upload stores is filed under its own id
    and carries the path of the saved input: what [start] relies on. *)
Lemma upload_ok_startable new_job_id form w w' resp :
  upload_pdf APP_ROOT count_pdf_pages new_job_id form w = (w', Ok resp) ->
  exists job paths,
    jobs w' !! new_job_id = Some (Doc job)
    /\ j_id job = new_job_id
    /\ j_job_id job = None
    /\ j_paths job = Some paths
    /\ paths !! "input_pdf" = Some (input_pdf_path APP_ROOT new_job_id).
Proof.
  destruct (form_accepted form) eqn:Hf.
  2:{ destruct (upload_form_rejected new_job_id form w Hf) as [e ->].
      discriminate. }
  rewrite (upload_form_accepted _ _ _ Hf). cbn zeta. run.
  unfold now_ts, write_job. run.
  destruct (count_pdf_pages (f_bytes form)) as [n|]; [| discriminate].
  destruct (MAX_PAGES <? Z.of_nat n); [discriminate |].
  destruct (calc_base_amount (Z.of_nat n)) as [b|]; [| discriminate].
  match goal with
  | |- context [(if ?c then email_can_use_free_sample ?e else ?f) ?w1] =>
      destruct ((if c then email_can_use_free_sample e else f) w1)
        as [w2 [[|]|err]] eqn:Ee
  end; [| | discriminate].
  - match goal with
    | |- context [mark_email_used_free_sample ?e ?j ?w3] =>
        destruct (mark_email_used_free_sample_entry e j w3)
          as (w4 & t & Hm & _ & Hj & _); rewrite Hm
    end.
    intros [= <- _]. rewrite Hj. cbn.
    eexists _, _. split; [apply lookup_insert_eq |].
    cbn. repeat split; reflexivity.
  - intros [= <- _]. cbn.
    eexists _, _. split; [apply lookup_insert_eq |].
    cbn. repeat split; reflexivity.
Qed.

(** C5: an upload whose page count exceeds MAX_PAGES is rejected; the job
    store, the ledger and the request queue are as before, no upload file
    has been added, and when the cap is what rejected it the body saved
    under the new job id has been removed again. *)
Theorem upload_over_cap_rejected new_job_id form w n :
  count_pdf_pages (f_bytes form) = Some n ->
  MAX_PAGES < Z.of_nat n ->
  exists e w',
    upload_pdf APP_ROOT count_pdf_pages new_job_id form w = (w', Raise e)
    /\ jobs w' = jobs w
    /\ ledger w' = ledger w
    /\ requests w' = requests w
    /\ (forall k, k <> new_job_id -> upload_files w' !! k = upload_files w !! k)
    /\ (form_accepted form = false -> upload_files w' = upload_files w)
    /\ (form_accepted form = true ->
        e = CapRejected /\ upload_files w' !! new_job_id = None).
Proof.
  intros Hn Hcap.
  destruct (form_accepted form) eqn:Hf.
  - rewrite (upload_form_accepted _ _ _ Hf). cbn zeta. run. rewrite Hn.
    destruct (MAX_PAGES <? Z.of_nat n) eqn:E; [| apply Z.ltb_ge in E; lia].
    eexists _, _. split; [reflexivity |]. cbn.
    repeat split; try reflexivity; try discriminate.
    + intros k Hk. rewrite lookup_delete_ne by congruence.
      rewrite lookup_insert_ne by congruence. reflexivity.
    + apply lookup_delete_eq.
  - destruct (upload_form_rejected new_job_id form w Hf) as [e He].
    exists e, w. split; [exact He |].
    repeat split; try reflexivity; discriminate.
Qed.

End UploadProofs.

Lemma upload_over_cap_rejected_witness :
  exists e w',
    upload_pdf Demo.root Demo.count_pages "job_9" Demo.long_form
      Demo.after_upload = (w', Raise e)
    /\ jobs w' = jobs Demo.after_upload
    /\ ledger w' = ledger Demo.after_upload
    /\ upload_files w' !! "job_9" = None.
Proof.
  destruct (upload_over_cap_rejected Demo.root Demo.count_pages "job_9"
              Demo.long_form Demo.after_upload 250 eq_refl)
    as (e & w' & E & Hj & Hl & _ & _ & _ & Hcap).
  - reflexivity.
  - exists e, w'. repeat split; try assumption.
    apply Hcap. reflexivity.
Defined.

(** C3, where the code departs from it: a PDF without pages sent by an
    email that already has a ledger entry is accepted, and its job is
    created as 'uploaded' and paid with nothing due, not as
    'awaiting_payment' and unpaid; the free sample is not applied and the
    ledger is unchanged. *)
Theorem upload_zero_pages_not_billed :
  let r := upload_pdf Demo.root Demo.count_pages "job_2" Demo.blank_form
             Demo.after_upload in
  ledger_entry (ledger Demo.after_upload) "ann@example.com"
  = Some (UsedBy "job_1" "2024-01-01T00:00:00Z")
  /\ snd r = Ok (mkUploadResponse "job_2" 0 "ann@example.com" 0 false 0 7)
  /\ j_status <$> stored_job "job_2" (fst r) = Some (Some "uploaded")
  /\ j_paid <$> stored_job "job_2" (fst r) = Some (Some true)
  /\ j_free_sample_applied <$> stored_job "job_2" (fst r) = Some (Some false)
  /\ ledger (fst r) = ledger Demo.after_upload.
Proof. vm_compute. repeat split; reflexivity. Qed.

(** The same on any state: an accepted upload of zero pages by an email
    with a ledger entry is stored as 'uploaded' and paid. *)
Lemma upload_zero_pages_paid (APP_ROOT : string)
    (count_pdf_pages : string -> option nat) new_job_id form w :
  form_accepted form = true ->
  count_pdf_pages (f_bytes form) = Some 0%nat ->
  ledger_entry (ledger w) (normalize_email (f_email form)) <> None ->
  exists w' job resp,
    upload_pdf APP_ROOT count_pdf_pages new_job_id form w = (w', Ok resp)
    /\ jobs w' = <[new_job_id := Doc job]> (jobs w)
    /\ j_status job = Some "uploaded"
    /\ j_paid job = Some true
    /\ j_free_sample_applied job = Some false
    /\ ledger w' = ledger w.
Proof.
  intros Hf Hn Hel.
  rewrite (upload_form_accepted _ _ _ _ _ Hf). cbn zeta. run. rewrite Hn.
  change (Z.of_nat 0) with 0. change (MAX_PAGES <? 0) with false.
  change (calc_base_amount 0) with (Some 0).
  change (0 <=? FREE_SAMPLE_MAX_PAGES) with true. cbv beta iota.
  rewrite email_can_use_free_sample_no by exact Hel.
  unfold now_ts, write_job. cbn.
  eexists _, _, _. split; [reflexivity |].
  cbn. repeat split; reflexivity.
Qed.

(** C7, where the code departs from it: with a ledger file that does not
    parse, the eligibility check answers yes for an email (here one whose
    sample was already used), and the upload is granted the free sample. *)
Theorem corrupt_ledger_grants_sample :
  ledger Demo.corrupt_ledger_world = LedgerUnparsable
  /\ snd (email_can_use_free_sample "ann@example.com" Demo.corrupt_ledger_world)
     = Ok true
  /\ snd (upload_pdf Demo.root Demo.count_pages "job_3" Demo.small_form
            Demo.corrupt_ledger_world)
     = Ok (mkUploadResponse "job_3" 3 "ann@example.com" 25 true 0 7).
Proof. vm_compute. repeat split; reflexivity. Qed.

(** With an unparsable ledger every email that an upload can carry is
    answered yes. *)
Lemma corrupt_ledger_denies_nobody form w :
  ledger w = LedgerUnparsable ->
  form_accepted form = true ->
  snd (email_can_use_free_sample (normalize_email (f_email form)) w) = Ok true.
Proof.
  intros Hl Hf.
  rewrite email_can_use_free_sample_unparsable;
    [reflexivity | exact Hl | apply form_accepted_email, Hf].
Qed.

(** The paid path of the specification, end to end: a forty-page upload
    is priced at 50 and awaits payment, [start] is refused until the job is
    marked paid, and then queues it with one request file. *)
Example forty_page_job_end_to_end :
  let r1 := upload_pdf Demo.root Demo.count_pages "job_40" Demo.medium_form
              Demo.empty_world in
  let r2 := start Demo.root "job_40" (fst r1) in
  let r3 := mark_paid "job_40" (fst r2) in
  let r4 := start Demo.root "job_40" (fst r3) in
  snd r1 = Ok (mkUploadResponse "job_40" 40 "bob@example.com" 50 false 50 7)
  /\ j_status <$> stored_job "job_40" (fst r1) = Some (Some "awaiting_payment")
  /\ snd r2 = Raise PaymentRequired
  /\ j_status <$> stored_job "job_40" (fst r3) = Some (Some "paid")
  /\ j_status <$> stored_job "job_40" (fst r4) = Some (Some "queued")
  /\ dom (requests (fst r4)) = ({[ "job_40.json" ]} : gset string).
Proof. cbv zeta. repeat split; vm_compute; reflexivity. Qed.

(* ===================================================================== *)
(** * Properties: how the request file is written                         *)
(* ===================================================================== *)

Lemma append_cons c s t : String c s ++ t = String c (s ++ t).
Proof. reflexivity. Qed.

Lemma append_nil t : "" ++ t = t.
Proof. reflexivity. Qed.

Lemma substring_all s : substring 0 (String.length s) s = s.
Proof. induction s as [|c s IH]; cbn; [reflexivity | rewrite IH; reflexivity]. Qed.

Lemma substring_skip_prefix s t :
  substring (String.length s) (String.length t) (s ++ t) = t.
Proof. induction s as [|c s IH]; cbn; [apply substring_all | exact IH]. Qed.

Lemma length_append s t :
  String.length (s ++ t) = (String.length s + String.length t)%nat.
Proof.
  induction s as [|c s IH]; [reflexivity | exact (f_equal S IH)].
Qed.

Lemma endswith_append s t : PyStr.endswith (s ++ t) t = true.
Proof.
  unfold PyStr.endswith. rewrite length_append.
  replace (String.length s + String.length t - String.length t)%nat
    with (String.length s) by lia.
  rewrite substring_skip_prefix, String.eqb_refl.
  rewrite andb_true_r. apply Nat.leb_le. lia.
Qed.

Lemma request_name_is_json job_id :
  PyStr.endswith (request_name job_id) ".json" = true.
Proof. apply endswith_append. Qed.

(** The last five characters of a name that ends in [".tmp"]. *)
Lemma tail_of_tmp s :
  s <> "" ->
  String.eqb (substring (String.length s - 1) 5 (s ++ ".tmp")) ".json" = false.
Proof.
  induction s as [|c s IH]; [congruence |]. intros _.
  destruct s as [|d s].
  - rewrite append_cons, append_nil. cbn.
    destruct (Ascii.eqb c "."); reflexivity.
  - replace (String.length (String c (String d s)) - 1)%nat
      with (S (String.length (String d s) - 1)) by (cbn; lia).
    rewrite append_cons. cbn [substring]. apply IH. discriminate.
Qed.

Lemma tmp_name_is_not_json s : PyStr.endswith (s ++ ".tmp") ".json" = false.
Proof.
  unfold PyStr.endswith. rewrite length_append.
  destruct s as [|c s]; [reflexivity |].
  apply andb_false_intro2.
  replace (String.length (String c s) + String.length ".tmp"
           - String.length ".json")%nat
    with (String.length (String c s) - 1)%nat by (cbn; lia).
  apply tail_of_tmp. discriminate.
Qed.

Section FileWriteProofs.

Context {A : Type}.
Implicit Types (dir : gmap string (JsonFile A)) (name : string) (doc : A).

Lemma elem_of_unreadable_json dir name :
  name ∈ unreadable_json dir
  <-> PyStr.endswith name ".json" = true /\ dir !! name = Some Unparsable.
Proof.
  unfold unreadable_json. rewrite elem_of_dom. split.
  - intros [f Hf]. apply map_lookup_filter_Some in Hf as [Hl Hp].
    cbn in Hp. apply andb_prop in Hp as [Hn Hu].
    destruct f; [auto | discriminate].
  - intros [Hn Hl]. exists Unparsable. apply map_lookup_filter_Some.
    split; [exact Hl |]. cbn. rewrite Hn. reflexivity.
Qed.

(** [write_text] on a name that the reader's pattern matches passes
    through a state in which the reader lists the file and cannot parse
    it. *)
Lemma write_text_exposes_partial dir name doc :
  PyStr.endswith name ".json" = true ->
  exists s, s ∈ write_text_trace name doc dir /\ name ∈ unreadable_json s.
Proof.
  intros Hn. exists (<[name := Unparsable]> dir). split.
  - unfold write_text_trace. apply list_elem_of_here.
  - apply elem_of_unreadable_json. split; [exact Hn | apply lookup_insert_eq].
Qed.

(** The worker's [write_json] never adds such a file: in every state it
    passes through, the unparsable files under the pattern were unparsable
    before. *)
Lemma write_json_hides_partial dir name doc s :
  s ∈ write_json_trace name doc dir ->
  unreadable_json s ⊆ unreadable_json dir.
Proof.
  unfold write_json_trace. intros Hs k Hk.
  apply elem_of_unreadable_json in Hk as [Hkn Hkl].
  apply elem_of_unreadable_json. split; [exact Hkn |].
  assert (Htmp : k <> name ++ ".tmp").
  { intros ->. rewrite tmp_name_is_not_json in Hkn. discriminate. }
  rewrite !elem_of_cons in Hs. destruct Hs as [-> | [-> | [-> | Hs]]].
  - rewrite lookup_insert_ne in Hkl by congruence. exact Hkl.
  - rewrite lookup_insert_ne in Hkl by congruence. exact Hkl.
  - destruct (decide (name = k)) as [-> | Hne].
    + rewrite lookup_insert_eq in Hkl. discriminate.
    + rewrite lookup_insert_ne in Hkl by exact Hne.
      rewrite lookup_delete_ne in Hkl by congruence. exact Hkl.
  - apply not_elem_of_nil in Hs. contradiction.
Qed.

End FileWriteProofs.

(* ===================================================================== *)
(** * Properties: the worker loop                                         *)
(* ===================================================================== *)

Section WorkerProofs.

Variable openpyxl_available : bool.
Variable workbook_error : string -> option Z -> option string -> option error.

(** Unfold one request's processing down to the state changes. *)
Ltac run_worker :=
  unfold process_request, read_request, generate_xlsx_for_job,
    build_zip_bundle, add_outputs, unlink_request, write_log, now_ts in *;
  run.

(** Whatever happens to a request, its file is gone afterwards and no
    other request file is touched. *)
Lemma handle_request_requests name w :
  requests (handle_request openpyxl_available workbook_error name w)
  = delete name (requests w).
Proof.
  unfold handle_request.
  destruct (process_request openpyxl_available workbook_error name w) as [w' r] eqn:E.
  revert E. run_worker. intros E.
  repeat (case_match; simplify_eq; cbn in *; try reflexivity).
Qed.

(** A drain never creates a request file. *)
Lemma run_requests_keeps_absent reqs name w :
  requests w !! name = None ->
  requests (run_requests openpyxl_available workbook_error reqs w) !! name = None.
Proof.
  revert w. induction reqs as [|r reqs IH]; intros w H; [exact H |].
  cbn. apply IH. rewrite handle_request_requests.
  apply lookup_delete_None. right. exact H.
Qed.

(** Processing that raises has written neither a job record nor a
    result. *)
Lemma process_request_raise_no_record name w w' e :
  process_request openpyxl_available workbook_error name w = (w', Raise e) ->
  jobs w' = jobs w /\ results w' = results w.
Proof.
  run_worker. intros E.
  repeat (case_match; simplify_eq; cbn in *; try (split; reflexivity)).
Qed.

(** C9: when processing a request raises, whatever the exception (a
    request or job file that is missing or does not parse, the spreadsheet
    library missing or refusing the job's values, a job without id), the
    worker loop deletes the request file, the job store is exactly as
    before (the job keeps the status it had, 'queued'), no result is
    written, and no later drain of the worker finds the request again. *)
Theorem failed_request_is_dropped name w w' e :
  process_request openpyxl_available workbook_error name w = (w', Raise e) ->
  requests (handle_request openpyxl_available workbook_error name w)
  = delete name (requests w)
  /\ jobs (handle_request openpyxl_available workbook_error name w) = jobs w
  /\ results (handle_request openpyxl_available workbook_error name w)
     = results w
  /\ forall reqs,
       requests
         (run_requests openpyxl_available workbook_error reqs
            (handle_request openpyxl_available workbook_error name w))
         !! name = None.
Proof.
  intros E. split; [apply handle_request_requests |].
  destruct (process_request_raise_no_record name w w' e E) as [Hj Hr].
  unfold handle_request at 1 2. rewrite E.
  unfold write_log, unlink_request, now_ts. run. cbn.
  split; [exact Hj |]. split; [exact Hr |].
  intros reqs. apply run_requests_keeps_absent.
  rewrite handle_request_requests. apply lookup_delete_eq.
Qed.

End WorkerProofs.

Lemma failed_request_is_dropped_witness :
  process_request true Demo.workbook_error "job_3.json"
    Demo.after_control_start
  = (fst (process_request true Demo.workbook_error "job_3.json"
            Demo.after_control_start), Raise IllegalCharacterError)
  /\ requests (handle_request true Demo.workbook_error "job_3.json"
                 Demo.after_control_start) !! "job_3.json" = None
  /\ jobs (handle_request true Demo.workbook_error "job_3.json"
             Demo.after_control_start)
     = jobs Demo.after_control_start
  /\ j_status <$> stored_job "job_3" Demo.after_control_start
     = Some (Some "queued")
  /\ results (handle_request true Demo.workbook_error "job_3.json"
                Demo.after_control_start)
     = results Demo.after_control_start.
Proof.
  assert (E : process_request true Demo.workbook_error "job_3.json"
                Demo.after_control_start
              = (fst (process_request true Demo.workbook_error "job_3.json"
                        Demo.after_control_start),
                 Raise IllegalCharacterError))
    by (vm_compute; reflexivity).
  destruct (failed_request_is_dropped true Demo.workbook_error "job_3.json"
              Demo.after_control_start _ _ E) as (Hq & Hj & Hres & _).
  split; [exact E |].
  split; [rewrite Hq; apply lookup_delete_eq |].
  split; [exact Hj |].
  split; [vm_compute; reflexivity | exact Hres].
Defined.

(** The state in which a reader finds the job file unreadable is the
    first state of any in-place rewrite of that file by the API tier. *)
Lemma torn_job_file_is_a_write_state job :
  jobs Demo.torn_job_world
  ∈ write_text_trace "job_1" job (jobs Demo.after_start).
Proof. unfold write_text_trace. apply list_elem_of_here. Qed.

(** The other ways in which processing fails end in the same way: the
    spreadsheet library cannot be imported, or the job file is caught
    while the API tier rewrites it. *)
Example worker_drops_failed_requests :
  snd (process_request false Demo.workbook_error "job_1.json"
         Demo.after_start)
  = Raise (RuntimeError "openpyxl is required (pip install openpyxl).")
  /\ snd (process_request true Demo.workbook_error "job_1.json"
            Demo.torn_job_world) = Raise JSONDecodeError
  /\ requests (handle_request true Demo.workbook_error "job_1.json"
                 Demo.torn_job_world) !! "job_1.json" = None
  /\ jobs (handle_request true Demo.workbook_error "job_1.json"
             Demo.torn_job_world) !! "job_1" = Some Unparsable
  /\ results (handle_request true Demo.workbook_error "job_1.json"
                Demo.torn_job_world) !! "job_1" = None.
Proof. do 4 (split; [vm_compute; reflexivity |]). vm_compute. reflexivity. Qed.

(** The same request with the spreadsheet library present: the job
    becomes 'done', a result is written and the request is consumed. *)
Example worker_completes_job :
  let w := handle_request true Demo.workbook_error "job_1.json"
             Demo.after_start in
  j_status <$> stored_job "job_1" w = Some (Some "done")
  /\ res_ok <$> results w !! "job_1" = Some true
  /\ requests w !! "job_1.json" = None
  /\ outputs w !! "job_1"
     = Some ({[ "output.xlsx"; "metadata.json"; "summary.txt"; "bundle.zip" ]}
             : gset string).
Proof. cbv zeta. repeat split; vm_compute; reflexivity. Qed.

(* ===================================================================== *)
(** * Properties: the request file as the worker can see it               *)
(* ===================================================================== *)

Lemma elem_of_pending name w :
  name ∈ pending w
  <-> PyStr.endswith name ".json" = true /\ is_Some (requests w !! name).
Proof.
  unfold pending. rewrite elem_of_dom. split.
  - intros [f Hf]. apply map_lookup_filter_Some in Hf as [Hl Hp].
    split; [exact Hp | eauto].
  - intros [Hn [f Hl]]. exists f. apply map_lookup_filter_Some.
    split; [exact Hl | exact Hn].
Qed.

Section RequestWriteProofs.

Variable APP_ROOT : string.
Variable openpyxl_available : bool.
Variable workbook_error : string -> option Z -> option string -> option error.

(** The last state of the write is the one [write_bridge_request]
    returns. *)
Lemma write_bridge_request_states_last job w w1 req :
  bridge_request_doc APP_ROOT job w = (w1, Ok req) ->
  last (write_bridge_request_states APP_ROOT job w)
  = Some (fst (write_bridge_request APP_ROOT job w)).
Proof.
  intros E. unfold write_bridge_request_states, write_bridge_request. run.
  rewrite E. reflexivity.
Qed.

(** While [write_bridge_request] runs there is a state in which the worker
    lists the request file, fails to parse it, and therefore drops it: the
    request is lost and the job record stays as it is. *)
Lemma write_bridge_request_exposes_partial job w w1 req :
  bridge_request_doc APP_ROOT job w = (w1, Ok req) ->
  exists s,
    s ∈ write_bridge_request_states APP_ROOT job w
    /\ request_name (j_id job) ∈ pending s
    /\ request_name (j_id job) ∈ unreadable_json (requests s)
    /\ read_request (request_name (j_id job)) s = (s, Raise JSONDecodeError)
    /\ requests (handle_request openpyxl_available workbook_error (request_name (j_id job)) s)
         !! request_name (j_id job) = None
    /\ jobs (handle_request openpyxl_available workbook_error (request_name (j_id job)) s)
       = jobs w.
Proof.
  intros E.
  assert (Hj : jobs w1 = jobs w).
  { revert E. unfold bridge_request_doc, lookup_key, now_ts. run. intros E.
    repeat (case_match; simplify_eq); reflexivity. }
  set (name := request_name (j_id job)).
  exists (set_requests (<[name := Unparsable]> (requests w1)) w1).
  assert (Hread :
    read_request name (set_requests (<[name := Unparsable]> (requests w1)) w1)
    = (set_requests (<[name := Unparsable]> (requests w1)) w1,
       Raise JSONDecodeError)).
  { unfold read_request. cbn. rewrite lookup_insert_eq. reflexivity. }
  split.
  { unfold write_bridge_request_states. rewrite E. cbn. apply list_elem_of_here. }
  split.
  { apply elem_of_pending. split; [apply request_name_is_json |].
    cbn. rewrite lookup_insert_eq. eauto. }
  split.
  { apply elem_of_unreadable_json. split; [apply request_name_is_json |].
    cbn. apply lookup_insert_eq. }
  split; [exact Hread |].
  split.
  { rewrite handle_request_requests. apply lookup_delete_eq. }
  unfold handle_request, process_request. run. rewrite Hread.
  unfold write_log, unlink_request, now_ts. run. cbn. exact Hj.
Qed.

End RequestWriteProofs.

(** C8, where the code departs from it: the request file is named after
    the job, but [write_bridge_request] writes it in place.  In the first
    state of the write the worker's listing holds [job_1.json], reading it
    raises, and the worker loop then deletes it: no result, and the job
    stays 'queued'. *)
Theorem request_file_is_written_in_place :
  exists s,
    head (write_bridge_request_states Demo.root Demo.job_being_queued
            Demo.world_being_queued) = Some s
    /\ request_name (j_id Demo.job_being_queued) = "job_1.json"
    /\ "job_1.json" ∈ pending s
    /\ read_request "job_1.json" s = (s, Raise JSONDecodeError)
    /\ requests (handle_request true Demo.workbook_error "job_1.json" s)
         !! "job_1.json" = None
    /\ results (handle_request true Demo.workbook_error "job_1.json" s)
         !! "job_1" = None
    /\ j_status
         <$> stored_job "job_1"
               (handle_request true Demo.workbook_error "job_1.json" s)
       = Some (Some "queued").
Proof.
  eexists. split; [vm_compute; reflexivity |].
  split; [reflexivity |].
  split.
  { apply elem_of_pending. split; [reflexivity |].
    vm_compute. eexists. reflexivity. }
  repeat split; vm_compute; reflexivity.
Qed.

(* ===================================================================== *)
(** * Properties: retention                                               *)
(* ===================================================================== *)

Section RetentionProofs.

Variable parse_iso : string -> option Z.

Lemma truthy_str_Some v :
  PyStr.truthy_str v = true <-> exists s, v = Some s /\ s <> "".
Proof.
  destruct v as [s|]; cbn.
  - destruct (String.eqb_spec s ""); cbn; split.
    + discriminate.
    + intros (s' & [= <-] & Hne). contradiction.
    + eauto.
    + reflexivity.
  - split; [discriminate | intros (s & [=] & _)].
Qed.

Lemma terminal_status_check job :
  match j_status job with
  | Some s => PyStr.in_strs s ["done"; "failed"]
  | None => false
  end = true <-> is_terminal job.
Proof.
  unfold is_terminal. destruct (j_status job) as [s|]; cbn.
  - destruct (String.eqb_spec s "done") as [-> | H1]; cbn.
    + split; [auto | reflexivity].
    + destruct (String.eqb_spec s "failed") as [-> | H2]; cbn.
      * split; [auto | reflexivity].
      * split; [discriminate | intros [[= ->] | [= ->]]; contradiction].
  - split; [discriminate | intros [[=] | [=]]].
Qed.

(** A job that is not in a terminal status is never eligible. *)
Lemma should_delete_not_terminal now job :
  ~ is_terminal job -> should_delete parse_iso now job = Ok false.
Proof.
  intros H. unfold should_delete.
  destruct (match j_status job with
            | Some s => PyStr.in_strs s ["done"; "failed"]
            | None => false
            end) eqn:E; [| reflexivity].
  apply terminal_status_check in E. contradiction.
Qed.

(** The branch for [retention_days == 0]. *)
Lemma should_delete_zero now job :
  effective_retention_days job = 0 ->
  should_delete parse_iso now job = Ok true
  <-> is_terminal job
      /\ (exists created, j_created_at job = Some created /\ created <> "")
      /\ exists done t,
           j_done_at job = Some done /\ done <> ""
           /\ parse_iso done = Some t /\ t + ONE_HOUR <= now.
Proof.
  intros Hrd. unfold should_delete. rewrite Hrd. cbn [Z.eqb].
  split.
  - intros H.
    destruct (match j_status job with
              | Some s => PyStr.in_strs s ["done"; "failed"]
              | None => false
              end) eqn:Et; [| discriminate].
    apply terminal_status_check in Et. cbn [negb] in H.
    destruct (PyStr.truthy_str (j_created_at job)) eqn:Ec; [| discriminate].
    apply truthy_str_Some in Ec. cbn [negb] in H.
    destruct (PyStr.truthy_str (j_done_at job)) eqn:Ed; [| discriminate].
    apply truthy_str_Some in Ed as (done & Hd & Hne). cbn [negb] in H.
    rewrite Hd in H. cbn [from_option id] in H. unfold parse_time in H.
    destruct (parse_iso done) as [t|] eqn:Ep; [| discriminate].
    injection H as H. apply Z.leb_le in H.
    split; [exact Et |]. split; [exact Ec |].
    exists done, t. auto.
  - intros (Ht & Hc & done & t & Hd & Hne & Hp & Hle).
    apply terminal_status_check in Ht. rewrite Ht. cbn [negb].
    apply truthy_str_Some in Hc. rewrite Hc. cbn [negb].
    assert (Hd' : PyStr.truthy_str (j_done_at job) = true)
      by (apply truthy_str_Some; eauto).
    rewrite Hd'. cbn [negb]. rewrite Hd. cbn [from_option id].
    unfold parse_time. rewrite Hp. f_equal. apply Z.leb_le. exact Hle.
Qed.

(** The branch for any other retention that [timedelta] accepts. *)
Lemma should_delete_days now job :
  effective_retention_days job <> 0 ->
  Z.abs (effective_retention_days job) <= TIMEDELTA_MAX_DAYS ->
  should_delete parse_iso now job = Ok true
  <-> is_terminal job
      /\ exists created t,
           j_created_at job = Some created /\ created <> ""
           /\ parse_iso created = Some t
           /\ t + effective_retention_days job * ONE_DAY <= now.
Proof.
  intros Hrd Hmax. unfold should_delete.
  apply Z.eqb_neq in Hrd. rewrite Hrd.
  assert (Hm : (TIMEDELTA_MAX_DAYS <? Z.abs (effective_retention_days job))
               = false) by (apply Z.ltb_ge; exact Hmax).
  split.
  - intros H.
    destruct (match j_status job with
              | Some s => PyStr.in_strs s ["done"; "failed"]
              | None => false
              end) eqn:Et; [| discriminate].
    apply terminal_status_check in Et. cbn [negb] in H.
    destruct (PyStr.truthy_str (j_created_at job)) eqn:Ec; [| discriminate].
    apply truthy_str_Some in Ec as (created & Hc & Hne). cbn [negb] in H.
    rewrite Hc in H. cbn [from_option id] in H. unfold parse_time in H.
    destruct (parse_iso created) as [t|] eqn:Ep; [| discriminate].
    rewrite Hm in H. injection H as H. apply Z.leb_le in H.
    split; [exact Et |]. exists created, t.
    unfold ONE_DAY. rewrite Z.mul_assoc. auto.
  - intros (Ht & created & t & Hc & Hne & Hp & Hle).
    apply terminal_status_check in Ht. rewrite Ht. cbn [negb].
    assert (Hc' : PyStr.truthy_str (j_created_at job) = true)
      by (apply truthy_str_Some; eauto).
    rewrite Hc'. cbn [negb]. rewrite Hc. cbn [from_option id].
    unfold parse_time. rewrite Hp, Hm. f_equal. apply Z.leb_le.
    unfold ONE_DAY in Hle. rewrite Z.mul_assoc in Hle. exact Hle.
Qed.

(** With [retention_days == 0] and a completion time [T] on record the
    answer is the comparison of [now] with [T] plus one hour. *)
Lemma should_delete_zero_value now job created done T :
  is_terminal job ->
  j_created_at job = Some created -> created <> "" ->
  j_retention_days job = Some 0 ->
  j_done_at job = Some done -> done <> "" -> parse_iso done = Some T ->
  should_delete parse_iso now job = Ok (T + ONE_HOUR <=? now).
Proof.
  intros Ht Hc Hcne Hrd Hd Hdne Hp. unfold should_delete.
  unfold effective_retention_days.
  apply terminal_status_check in Ht. rewrite Ht, Hrd, Hc, Hd.
  cbn [negb Z.eqb from_option id].
  unfold PyStr.truthy_str.
  destruct (String.eqb_spec created ""); [contradiction |].
  destruct (String.eqb_spec done ""); [contradiction |].
  cbn [negb from_option id]. unfold parse_time. rewrite Hp. reflexivity.
Qed.

(** Marked done at [T]: not deletable 59 minutes later, deletable 61
    minutes later. *)
Corollary should_delete_zero_buffer job created done T :
  is_terminal job ->
  j_created_at job = Some created -> created <> "" ->
  j_retention_days job = Some 0 ->
  j_done_at job = Some done -> done <> "" -> parse_iso done = Some T ->
  should_delete parse_iso (T + 59 * 60 * MICROS_PER_SECOND) job = Ok false
  /\ should_delete parse_iso (T + 61 * 60 * MICROS_PER_SECOND) job = Ok true.
Proof.
  intros Ht Hc Hcne Hrd Hd Hdne Hp.
  rewrite !(should_delete_zero_value _ job created done T) by assumption.
  unfold ONE_HOUR, RETENTION_ZERO_DONE_BUFFER_SECONDS, MICROS_PER_SECOND.
  split; f_equal; [apply Z.leb_gt | apply Z.leb_le]; lia.
Qed.

Lemma delete_job_everywhere_jobs job_id w :
  jobs (fst (delete_job_everywhere job_id w)) = delete job_id (jobs w).
Proof. reflexivity. Qed.

(** One step of the pass keeps every job that is not terminal. *)
Lemma cleanup_one_keeps_live now stem w k job :
  named_by_file w ->
  jobs w !! k = Some (Doc job) -> ~ is_terminal job ->
  named_by_file (cleanup_one parse_iso now stem w)
  /\ jobs (cleanup_one parse_iso now stem w) !! k = Some (Doc job).
Proof.
  intros Hwf Hk Hlive. unfold cleanup_one.
  destruct (jobs w !! stem) as [[|victim]|] eqn:Es; [auto | | auto].
  rewrite (Hwf stem victim Es).
  destruct (should_delete parse_iso now victim) as [[|]|] eqn:Ed; [| auto | auto].
  assert (Hne : stem <> k).
  { intros ->. assert (victim = job) by congruence. subst victim.
    rewrite should_delete_not_terminal in Ed by exact Hlive. discriminate. }
  unfold named_by_file. rewrite delete_job_everywhere_jobs. split.
  - intros s j Hs. apply lookup_delete_Some in Hs as [_ Hs]. eapply Hwf, Hs.
  - rewrite lookup_delete_ne by exact Hne. exact Hk.
Qed.

(** The reaper never deletes a job that has not reached a terminal status,
    whatever the instant of the pass. *)
Lemma cleanup_pass_keeps_live now w k job :
  named_by_file w ->
  jobs w !! k = Some (Doc job) -> ~ is_terminal job ->
  jobs (cleanup_pass parse_iso now w) !! k = Some (Doc job).
Proof.
  intros Hwf Hk Hlive. unfold cleanup_pass.
  generalize (elements (dom (jobs w))). intros stems.
  revert w Hwf Hk. induction stems as [|stem stems IH]; intros w Hwf Hk.
  - exact Hk.
  - cbn [fold_left].
    destruct (cleanup_one_keeps_live now stem w k job Hwf Hk Hlive) as [Hwf' Hk'].
    apply IH; assumption.
Qed.

(** C2: for a job record whose stored [retention_days] is one of the
    allowed values 0, 7, 30 (or is absent, which counts as 7), the job is
    eligible for deletion exactly when its status is 'done' or 'failed',
    its creation timestamp is present and non-empty, and either the stored
    retention is 0, a completion time is on record and [now] is at least
    one hour after it, or the stored retention is 7 or 30 and [now] is at
    least that many days after the creation time.  A job that is not in a
    terminal status is not eligible at any instant, whatever its record
    holds. *)
Theorem should_delete_eligibility now job d :
  j_retention_days job = Some d \/ (j_retention_days job = None /\ d = 7) ->
  d = 0 \/ d = 7 \/ d = 30 ->
  parse_iso "" = None ->
  (should_delete parse_iso now job = Ok true
   <-> is_terminal job
       /\ (exists created, j_created_at job = Some created /\ created <> "")
       /\ ((d = 0
            /\ exists done t,
                 j_done_at job = Some done
                 /\ parse_iso done = Some t /\ t + ONE_HOUR <= now)
           \/ ((d = 7 \/ d = 30)
               /\ exists created t,
                    j_created_at job = Some created
                    /\ parse_iso created = Some t
                    /\ t + d * ONE_DAY <= now)))
  /\ (forall job' now',
        ~ is_terminal job' -> should_delete parse_iso now' job' = Ok false).
Proof.
  intros Hstored Hrd Hempty.
  assert (He : effective_retention_days job = d).
  { unfold effective_retention_days.
    destruct Hstored as [-> | [-> ->]]; reflexivity. }
  split.
  2:{ intros job' now' Hnt. apply should_delete_not_terminal. exact Hnt. }
  destruct Hrd as [H0 | H730].
  - subst d. rewrite (should_delete_zero now job He). split.
    + intros (Ht & Hc & done & t & Hd & Hne & Hp & Hle).
      split; [exact Ht |]. split; [exact Hc |]. left. split; [reflexivity |].
      exists done, t. auto.
    + intros (Ht & Hc & [(_ & done & t & Hd & Hp & Hle) | ([H | H] & _)]);
        [| lia | lia].
      split; [exact Ht |]. split; [exact Hc |].
      exists done, t. repeat split; try assumption.
      intros ->. congruence.
  - rewrite (should_delete_days now job)
      by (rewrite He; unfold TIMEDELTA_MAX_DAYS; lia).
    rewrite He. split.
    + intros (Ht & created & t & Hc & Hne & Hp & Hle).
      split; [exact Ht |]. split; [eauto |]. right. split; [exact H730 |]. eauto.
    + intros (Ht & (created & Hc & Hne)
              & [(H & _) | (_ & c2 & t & Hc2 & Hp & Hle)]); [lia |].
      split; [exact Ht |]. exists created, t.
      assert (c2 = created) by congruence. subst c2. auto.
Qed.

(** C10: a job record without a [retention_days] field is judged exactly
    as the same record with [retention_days = 7]; when its status is
    terminal it is eligible exactly when its creation timestamp is present,
    non-empty, parses, and [now] is at least 7 days after it. *)
Theorem should_delete_absent_retention now job :
  j_retention_days job = None ->
  should_delete parse_iso now job
  = should_delete parse_iso now (set_retention_days (Some 7) job)
  /\ (is_terminal job ->
      (should_delete parse_iso now job = Ok true
       <-> exists created t,
             j_created_at job = Some created /\ created <> ""
             /\ parse_iso created = Some t /\ t + 7 * ONE_DAY <= now)).
Proof.
  intros Hnone. split.
  - unfold should_delete, effective_retention_days. rewrite Hnone. reflexivity.
  - intros Ht.
    assert (Hrd : effective_retention_days job = 7)
      by (unfold effective_retention_days; rewrite Hnone; reflexivity).
    rewrite (should_delete_days now job)
      by (rewrite Hrd; unfold TIMEDELTA_MAX_DAYS; lia).
    rewrite Hrd. split.
    + intros (_ & H). exact H.
    + intros H. split; assumption.
Qed.

End RetentionProofs.

Lemma demo_parse_iso_empty : Demo.parse_iso "" = None.
Proof. reflexivity. Qed.

Lemma should_delete_eligibility_witness :
  (should_delete Demo.parse_iso (Demo.new_year + 8 * ONE_DAY)
     (Demo.finished_job (Some 30)) = Ok true
   <-> False)
  /\ should_delete Demo.parse_iso (Demo.new_year + 30 * ONE_DAY)
       (Demo.finished_job (Some 30)) = Ok true
  /\ should_delete Demo.parse_iso (Demo.new_year + 7 * ONE_HOUR)
       (Demo.finished_job (Some 0)) = Ok true.
Proof.
  split; [| split].
  - destruct (should_delete_eligibility Demo.parse_iso
                (Demo.new_year + 8 * ONE_DAY) (Demo.finished_job (Some 30)) 30
                (or_introl eq_refl) (or_intror (or_intror eq_refl)) eq_refl)
      as [Hiff _].
    rewrite Hiff. split; [| contradiction].
    intros (_ & _ & [(H & _) | (_ & c & t & Hc & Hp & Hle)]); [discriminate H |].
    injection Hc as <-. injection Hp as <-.
    unfold ONE_DAY, SECONDS_PER_DAY, MICROS_PER_SECOND in Hle. lia.
  - apply (should_delete_eligibility Demo.parse_iso
             (Demo.new_year + 30 * ONE_DAY) (Demo.finished_job (Some 30)) 30
             (or_introl eq_refl) (or_intror (or_intror eq_refl)) eq_refl).
    split; [left; reflexivity |].
    split; [eexists; split; [reflexivity | discriminate] |].
    right. split; [right; reflexivity |].
    exists "2024-01-01T00:00:00+00:00", Demo.new_year.
    repeat split. lia.
  - apply (should_delete_eligibility Demo.parse_iso
             (Demo.new_year + 7 * ONE_HOUR) (Demo.finished_job (Some 0)) 0
             (or_introl eq_refl) (or_introl eq_refl) eq_refl).
    split; [left; reflexivity |].
    split; [eexists; split; [reflexivity | discriminate] |].
    left. split; [reflexivity |].
    exists "2024-01-01T06:00:00+00:00", (Demo.new_year + 6 * 3600 * MICROS_PER_SECOND).
    repeat split. unfold ONE_HOUR, RETENTION_ZERO_DONE_BUFFER_SECONDS, MICROS_PER_SECOND. lia.
Defined.

Lemma should_delete_absent_retention_witness :
  should_delete Demo.parse_iso (Demo.new_year + 6 * ONE_DAY)
    (Demo.finished_job None) = Ok false
  /\ should_delete Demo.parse_iso (Demo.new_year + 7 * ONE_DAY)
       (Demo.finished_job None) = Ok true
  /\ should_delete Demo.parse_iso (Demo.new_year + 7 * ONE_DAY)
       (Demo.finished_job None)
     = should_delete Demo.parse_iso (Demo.new_year + 7 * ONE_DAY)
         (set_retention_days (Some 7) (Demo.finished_job None)).
Proof.
  split; [reflexivity |].
  destruct (should_delete_absent_retention Demo.parse_iso
              (Demo.new_year + 7 * ONE_DAY) (Demo.finished_job None) eq_refl)
    as [Heq Hiff].
  split; [| exact Heq].
  apply Hiff.
  - left. reflexivity.
  - exists "2024-01-01T00:00:00+00:00", Demo.new_year.
    repeat split; [discriminate | lia].
Defined.


(* ===================================================================== *)
(** * Further properties: quote                                           *)
(* ===================================================================== *)

(** [quote] answers with a price exactly for an integer page count from 1
    to MAX_PAGES. *)
Lemma quote_priced_exactly_in_range payload q :
  quote payload = QuotePriced q
  <-> exists n,
        payload = PagesInt n /\ 1 <= n <= MAX_PAGES
        /\ q = mkQuote n (tier_price n) 25 25 [0; 7; 30] 7
        /\ 25 <= tier_price n <= 200.
Proof.
  split.
  - unfold quote. destruct payload as [|n|]; cbn; try discriminate.
    destruct (n <=? 0) eqn:E0; [discriminate |]. apply Z.leb_gt in E0.
    destruct (MAX_PAGES <? n) eqn:E1; [discriminate |]. apply Z.ltb_ge in E1.
    rewrite calc_base_amount_up_to_cap by lia.
    intros [= <-]. exists n. repeat split; try lia.
    + rewrite (tier_price_block n ((n - 1) / 25)).
      * assert (0 <= (n - 1) / 25) by (apply Z.div_pos; lia). lia.
      * apply Z.div_pos; lia.
      * pose proof (Z.div_mod (n - 1) 25 ltac:(lia)).
        pose proof (Z.mod_pos_bound (n - 1) 25 ltac:(lia)). lia.
    + unfold MAX_PAGES in E1.
      rewrite (tier_price_block n ((n - 1) / 25)).
      * assert ((n - 1) / 25 < 8) by (apply Z.div_lt_upper_bound; lia). lia.
      * apply Z.div_pos; lia.
      * pose proof (Z.div_mod (n - 1) 25 ltac:(lia)).
        pose proof (Z.mod_pos_bound (n - 1) 25 ltac:(lia)). lia.
  - intros (n & -> & [H1 Hc] & -> & _). unfold quote.
    destruct (n <=? 0) eqn:E0; [apply Z.leb_le in E0; lia |].
    destruct (MAX_PAGES <? n) eqn:E1; [apply Z.ltb_lt in E1; lia |].
    rewrite calc_base_amount_up_to_cap by lia. reflexivity.
Qed.

(** The other answers of [quote]. *)
Lemma quote_refusals :
  quote PagesAbsent = QuotePagesRequired
  /\ (forall n, n <= 0 -> quote (PagesInt n) = QuotePagesRequired)
  /\ (forall n, MAX_PAGES < n -> quote (PagesInt n) = QuoteRejected).
Proof.
  split; [reflexivity |]. split.
  - intros n Hn. unfold quote.
    destruct (n <=? 0) eqn:E; [reflexivity | apply Z.leb_gt in E; lia].
  - intros n Hn. unfold quote. unfold MAX_PAGES in *.
    destruct (n <=? 0) eqn:E; [apply Z.leb_le in E; lia |].
    destruct (200 <? n) eqn:E1; [reflexivity | apply Z.ltb_ge in E1; lia].
Qed.

(** X1: [quote] answers with a price exactly for an integer page count
    from 1 to MAX_PAGES; the price is then [ceil(pages / 25) * 25], between
    25 and 200, and the answer repeats the page count and the pricing and
    retention constants.  A missing ["pages"] key or a count of zero or
    less is refused with pages_required, and a count above MAX_PAGES gets
    the rejection answer, which carries no price. *)
Theorem quote_outcomes payload q :
  (quote payload = QuotePriced q
   <-> exists n,
         payload = PagesInt n /\ 1 <= n <= MAX_PAGES
         /\ q = mkQuote n (tier_price n) 25 25 [0; 7; 30] 7
         /\ 25 <= tier_price n <= 200)
  /\ quote PagesAbsent = QuotePagesRequired
  /\ (forall n, n <= 0 -> quote (PagesInt n) = QuotePagesRequired)
  /\ (forall n, MAX_PAGES < n -> quote (PagesInt n) = QuoteRejected).
Proof.
  split; [apply quote_priced_exactly_in_range | apply quote_refusals].
Qed.


(* ===================================================================== *)
(** * Further properties: upload                                          *)
(* ===================================================================== *)

Lemma set_ticks_same w : set_ticks (ticks w) w = w.
Proof. destruct w; reflexivity. Qed.

(** The eligibility step of [upload_pdf]: it answers, at most the clock
    advances, and the answer is yes exactly for a small document of an
    email without a ledger entry. *)
Lemma eligibility_inv email_norm pages w1 :
  email_norm <> CORRUPTED_KEY ->
  exists k b,
    (if pages <=? FREE_SAMPLE_MAX_PAGES
     then email_can_use_free_sample email_norm
     else (mret false : M bool)) w1 = (set_ticks k w1, Ok b)
    /\ (b = true
        <-> pages <= FREE_SAMPLE_MAX_PAGES
            /\ ledger_entry (ledger w1) email_norm = None).
Proof.
  intros Hne. destruct (pages <=? FREE_SAMPLE_MAX_PAGES) eqn:E.
  - apply Z.leb_le in E.
    destruct (ledger_entry (ledger w1) email_norm) as [x|] eqn:El.
    + exists (ticks w1), false. rewrite set_ticks_same. split.
      * apply email_can_use_free_sample_no. congruence.
      * split; [discriminate | intros [_ [=]]].
    + destruct (email_can_use_free_sample_yes email_norm w1 Hne El) as [k Hk].
      exists k, true. split; [exact Hk | tauto].
  - apply Z.leb_gt in E. exists (ticks w1), false. rewrite set_ticks_same.
    split; [reflexivity |]. split; [discriminate | lia].
Qed.

(** [mark_email_used_free_sample] rewrites the ledger file as a document
    that holds the email and every entry that was there. *)
Lemma mark_email_used_inv email_norm job_id w :
  exists k l t,
    mark_email_used_free_sample email_norm job_id w
    = (set_ledger (LedgerDoc l) (set_ticks k w), Ok tt)
    /\ ledger_entry (LedgerDoc l) email_norm = Some (UsedBy job_id t)
    /\ (forall e, ledger_entry (ledger w) e <> None ->
                  ledger_entry (LedgerDoc l) e <> None).
Proof.
  unfold mark_email_used_free_sample, read_ledger, write_ledger, now_ts. run.
  destruct (ledger w) as [| |l0] eqn:El; cbn;
    eexists _, _, _; (split; [reflexivity |]); cbn;
    (split; [apply lookup_insert_eq |]); intros e He; try congruence.
  destruct (decide (email_norm = e)) as [-> | Hne].
  - rewrite lookup_insert_eq. discriminate.
  - rewrite lookup_insert_ne by exact Hne. exact He.
Qed.

Section UploadMore.

Variable APP_ROOT : string.
Variable count_pdf_pages : string -> option nat.

(** Everything a successful upload has done. *)
Lemma upload_ok_inv new_job_id form w w' resp :
  upload_pdf APP_ROOT count_pdf_pages new_job_id form w = (w', Ok resp) ->
  form_accepted form = true
  /\ exists n base applied created updated,
       count_pdf_pages (f_bytes form) = Some n
       /\ Z.of_nat n <= MAX_PAGES
       /\ calc_base_amount (Z.of_nat n) = Some base
       /\ (applied = true
           <-> Z.of_nat n <= FREE_SAMPLE_MAX_PAGES
               /\ ledger_entry (ledger w) (normalize_email (f_email form))
                  = None)
       /\ resp = mkUploadResponse new_job_id (Z.of_nat n)
                   (normalize_email (f_email form)) base applied
                   (if applied then 0 else base) (retention_or_default form)
       /\ jobs w'
          = <[new_job_id := Doc (
                mkJob new_job_id None (Some created) (Some updated)
                  (Some (if (if applied then 0 else base) =? 0
                         then "uploaded" else "awaiting_payment"))
                  (Some (normalize_email (f_email form)))
                  (Some (Z.of_nat n)) (Some base)
                  (Some (if applied then 0 else base))
                  (Some ((if applied then 0 else base) =? 0))
                  (Some applied) (Some (retention_or_default form)) None
                  (Some (<["upload_dir" := upload_dir_path APP_ROOT new_job_id]>
                           {[ "input_pdf" := input_pdf_path APP_ROOT new_job_id ]}))
                  None)]>
              (jobs w)
       /\ requests w' = requests w
       /\ results w' = results w
       /\ outputs w' = outputs w
       /\ upload_files w' = <[new_job_id := f_bytes form]> (upload_files w)
       /\ (applied = false -> ledger w' = ledger w)
       /\ (applied = true ->
           exists t, ledger_entry (ledger w') (normalize_email (f_email form))
                     = Some (UsedBy new_job_id t))
       /\ (forall e, ledger_entry (ledger w) e <> None ->
                     ledger_entry (ledger w') e <> None).
Proof.
  destruct (form_accepted form) eqn:Hf.
  2:{ destruct (upload_form_rejected APP_ROOT count_pdf_pages new_job_id form w Hf)
        as [e ->]. discriminate. }
  pose proof (form_accepted_email form Hf) as Hne.
  rewrite (upload_form_accepted _ _ _ _ _ Hf). cbn zeta. run.
  destruct (count_pdf_pages (f_bytes form)) as [n|] eqn:Hn; [| discriminate].
  destruct (MAX_PAGES <? Z.of_nat n) eqn:Ec; [discriminate |].
  apply Z.ltb_ge in Ec.
  destruct (calc_base_amount (Z.of_nat n)) as [base|] eqn:Hb; [| discriminate].
  match goal with
  | |- context [(if ?c then email_can_use_free_sample ?e else ?f) ?w1] =>
      destruct (eligibility_inv e (Z.of_nat n) w1 Hne) as (k & b & Hk & Hiff)
  end.
  unfold mret, M_ret in Hk. rewrite Hk. clear Hk.
  unfold now_ts, write_job. run. cbn in Hiff |- *.
  destruct b.
  - match goal with
    | |- context [mark_email_used_free_sample ?e ?j ?w3] =>
        destruct (mark_email_used_inv e j w3) as (k' & l & t & Hm & Hent & Hkeep);
        rewrite Hm
    end.
    intros [= <- <-]. split; [reflexivity |].
    exists n, base, true, (clock w k), (clock w (S k)).
    cbn. repeat split; try reflexivity; try tauto; try discriminate;
      try (intros _; exists t; exact Hent);
      try (intros e He; apply Hkeep; exact He).
  - intros [= <- <-]. split; [reflexivity |].
    exists n, base, false, (clock w k), (clock w (S k)).
    cbn. repeat split; try reflexivity; try tauto; try discriminate;
      try (intros e He; exact He).
Qed.

End UploadMore.


Section UploadExtras.

Variable APP_ROOT : string.
Variable count_pdf_pages : string -> option nat.

(** X3: a form that fails one of the three checks (email, retention,
    file name) is refused before anything is written: the state is
    untouched, the error is one of the three validation errors, and it is
    the email error whenever the normalized email has no ["@"]. *)
Theorem upload_invalid_form_writes_nothing new_job_id form w :
  form_accepted form = false ->
  exists e,
    upload_pdf APP_ROOT count_pdf_pages new_job_id form w = (w, Raise e)
    /\ (e = ValidEmailRequired \/ e = RetentionDaysNotAllowed
        \/ e = OnlyPdfAllowed)
    /\ (PyStr.contains "@"%char (normalize_email (f_email form)) = false ->
        e = ValidEmailRequired).
Proof.
  unfold form_accepted, upload_pdf. intros H.
  destruct (String.eqb (normalize_email (f_email form)) "") eqn:E1; cbn [orb].
  { eexists. split; [reflexivity |]. auto. }
  destruct (PyStr.contains "@"%char (normalize_email (f_email form))) eqn:E2;
    cbn [negb].
  2:{ eexists. split; [reflexivity |]. auto. }
  cbn [negb andb orb] in H.
  destruct (bool_decide (retention_or_default form ∈ ALLOWED_RETENTION_DAYS));
    cbn [negb andb] in H |- *.
  2:{ eexists. split; [reflexivity |]. split; [auto | discriminate]. }
  rewrite H. cbn [negb].
  eexists. split; [reflexivity |]. split; [auto | discriminate].
Qed.

(** X4: when the page counter rejects the body, the upload is refused
    with invalid_pdf and no job, ledger entry or request results, but the
    body saved under the new job id is left in the uploads area. *)
Theorem upload_invalid_pdf_keeps_body new_job_id form w :
  form_accepted form = true ->
  count_pdf_pages (f_bytes form) = None ->
  exists w',
    upload_pdf APP_ROOT count_pdf_pages new_job_id form w
    = (w', Raise InvalidPdf)
    /\ jobs w' = jobs w /\ ledger w' = ledger w /\ requests w' = requests w
    /\ upload_files w' !! new_job_id = Some (f_bytes form)
    /\ new_job_id ∈ upload_dirs w'.
Proof.
  intros Hf Hn. rewrite (upload_form_accepted _ _ _ _ _ Hf). cbn zeta. run.
  rewrite Hn. eexists. split; [reflexivity |]. cbn.
  repeat split; try reflexivity.
  - apply lookup_insert_eq.
  - set_solver.
Qed.

(** What a failing upload leaves behind: never a job, a ledger change or
    a request. *)
Lemma upload_raise_inv new_job_id form w w' e :
  upload_pdf APP_ROOT count_pdf_pages new_job_id form w = (w', Raise e) ->
  jobs w' = jobs w /\ ledger w' = ledger w /\ requests w' = requests w
  /\ results w' = results w /\ outputs w' = outputs w.
Proof.
  destruct (form_accepted form) eqn:Hf.
  2:{ destruct (upload_form_rejected APP_ROOT count_pdf_pages new_job_id form w Hf)
        as [e' ->]. intros [= <- _]. repeat split; reflexivity. }
  pose proof (form_accepted_email form Hf) as Hne.
  rewrite (upload_form_accepted _ _ _ _ _ Hf). cbn zeta. run.
  destruct (count_pdf_pages (f_bytes form)) as [n|] eqn:Hn.
  2:{ intros [= <- _]. repeat split; reflexivity. }
  destruct (MAX_PAGES <? Z.of_nat n) eqn:Ec.
  { intros [= <- _]. repeat split; reflexivity. }
  destruct (calc_base_amount (Z.of_nat n)) as [base|] eqn:Hb.
  2:{ intros [= <- _]. repeat split; reflexivity. }
  match goal with
  | |- context [(if ?c then email_can_use_free_sample ?e else ?f) ?w1] =>
      destruct (eligibility_inv e (Z.of_nat n) w1 Hne) as (k & b & Hk & Hiff)
  end.
  unfold mret, M_ret in Hk. rewrite Hk. clear Hk.
  unfold now_ts, write_job. run. cbn.
  destruct b.
  - match goal with
    | |- context [mark_email_used_free_sample ?e ?j ?w3] =>
        destruct (mark_email_used_inv e j w3) as (k' & l & t & Hm & _);
        rewrite Hm
    end.
    discriminate.
  - discriminate.
Qed.

(** X5: whatever makes an upload fail (a refused form, an unreadable PDF,
    the page cap), no job record is stored, the ledger file is untouched
    and no request is queued. *)
Theorem upload_failure_stores_no_job new_job_id form w w' e :
  upload_pdf APP_ROOT count_pdf_pages new_job_id form w = (w', Raise e) ->
  jobs w' = jobs w /\ ledger w' = ledger w /\ requests w' = requests w.
Proof.
  intros H. destruct (upload_raise_inv _ _ _ _ _ H) as (Hj & Hl & Hr & _).
  auto.
Qed.

(** X6: a form that passes the checks, with a body of at most MAX_PAGES
    pages, always yields a job: the upload returns normally and the job is
    stored under the new id. *)
Theorem upload_succeeds new_job_id form w n :
  form_accepted form = true ->
  count_pdf_pages (f_bytes form) = Some n ->
  Z.of_nat n <= MAX_PAGES ->
  exists w' resp job,
    upload_pdf APP_ROOT count_pdf_pages new_job_id form w = (w', Ok resp)
    /\ u_job_id resp = new_job_id
    /\ u_pages resp = Z.of_nat n
    /\ jobs w' !! new_job_id = Some (Doc job)
    /\ j_id job = new_job_id.
Proof.
  intros Hf Hn Hc.
  destruct (upload_pdf APP_ROOT count_pdf_pages new_job_id form w)
    as [w' [resp | e]] eqn:E.
  - destruct (upload_ok_inv _ _ _ _ _ _ _ E)
      as (_ & n' & base & applied & c & u & Hn' & _ & _ & _ & -> & Hj & _).
    assert (n' = n) by congruence. subst n'.
    eexists _, _, _. split; [reflexivity |]. cbn.
    rewrite Hj, lookup_insert_eq. repeat split; reflexivity.
  - exfalso. revert E.
    pose proof (form_accepted_email form Hf) as Hne.
    rewrite (upload_form_accepted _ _ _ _ _ Hf). cbn zeta. run. rewrite Hn.
    destruct (MAX_PAGES <? Z.of_nat n) eqn:Ec; [apply Z.ltb_lt in Ec; lia |].
    destruct (calc_base_amount_in_cap (Z.of_nat n)) as (b & Hb & _); [lia |].
    rewrite Hb.
    match goal with
    | |- context [(if ?c then email_can_use_free_sample ?e else ?f) ?w1] =>
        destruct (eligibility_inv e (Z.of_nat n) w1 Hne) as (k & b0 & Hk & Hiff)
    end.
    unfold mret, M_ret in Hk. rewrite Hk. clear Hk.
    unfold now_ts, write_job. run. cbn.
    destruct b0.
    + match goal with
      | |- context [mark_email_used_free_sample ?e ?j ?w3] =>
          destruct (mark_email_used_inv e j w3) as (k' & l & t & Hm & _);
          rewrite Hm
      end.
      discriminate.
    + discriminate.
Qed.

(** X7: the record of every job that an upload creates satisfies the
    invariants of the data model: it is filed under its id, its page count
    is within the cap, its retention is an allowed value, the amount due is
    0 or the base price, it is paid and 'uploaded' exactly when nothing is
    due and 'awaiting_payment' otherwise, a free sample implies at most
    FREE_SAMPLE_MAX_PAGES pages and nothing due, and it is not done. *)
Theorem upload_job_invariants new_job_id form w w' resp :
  upload_pdf APP_ROOT count_pdf_pages new_job_id form w = (w', Ok resp) ->
  exists job pages base due retention,
    jobs w' !! new_job_id = Some (Doc job)
    /\ j_id job = new_job_id
    /\ j_pages job = Some pages /\ 0 <= pages <= MAX_PAGES
    /\ j_retention_days job = Some retention
    /\ retention ∈ ALLOWED_RETENTION_DAYS
    /\ j_base_amount_due job = Some base
    /\ j_amount_due job = Some due
    /\ (due = 0 \/ due = base)
    /\ (j_paid job = Some true <-> due = 0)
    /\ (j_paid job = Some false <-> due <> 0)
    /\ (j_status job = Some "uploaded" <-> due = 0)
    /\ (j_status job = Some "awaiting_payment" <-> due <> 0)
    /\ (j_free_sample_applied job = Some true ->
        pages <= FREE_SAMPLE_MAX_PAGES /\ due = 0)
    /\ j_done_at job = None.
Proof.
  intros E.
  destruct (upload_ok_inv _ _ _ _ _ _ _ E)
    as (Hf & n & base & applied & c & u & Hn & Hc & Hb & Hiff & -> & Hj & _).
  eexists _, (Z.of_nat n), base, (if applied then 0 else base),
    (retention_or_default form).
  rewrite Hj, lookup_insert_eq. split; [reflexivity |]. cbn.
  assert (Hret : retention_or_default form ∈ ALLOWED_RETENTION_DAYS).
  { unfold form_accepted in Hf. apply andb_prop in Hf as [Hf _].
    apply andb_prop in Hf as [_ Hf]. apply bool_decide_eq_true in Hf. exact Hf. }
  split; [reflexivity |]. split; [reflexivity |]. split; [lia |].
  split; [reflexivity |]. split; [exact Hret |].
  split; [reflexivity |]. split; [reflexivity |].
  split; [destruct applied; auto |].
  assert (Hz : forall d : Z, Some (d =? 0) = Some true <-> d = 0).
  { intros d. destruct (Z.eqb_spec d 0); split; congruence. }
  assert (Hnz : forall d : Z, Some (d =? 0) = Some false <-> d <> 0).
  { intros d. destruct (Z.eqb_spec d 0); split; congruence. }
  split; [apply Hz |]. split; [apply Hnz |].
  split.
  { destruct (Z.eqb_spec (if applied then 0 else base) 0);
      split; congruence. }
  split.
  { destruct (Z.eqb_spec (if applied then 0 else base) 0);
      split; congruence. }
  split; [| reflexivity].
  intros [= ->]. split; [apply Hiff; reflexivity | reflexivity].
Qed.

(** X8: an upload applies the free sample exactly when the document has at
    most FREE_SAMPLE_MAX_PAGES pages and the ledger holds no entry for the
    normalized email.  Then nothing is due and the ledger holds an entry of
    this job for the email; otherwise the full base price is due and the
    ledger file is unchanged.  Entries of other emails are never lost. *)
Theorem upload_sample_decision new_job_id form w w' resp :
  upload_pdf APP_ROOT count_pdf_pages new_job_id form w = (w', Ok resp) ->
  (u_free_sample_applied resp = true
   <-> u_pages resp <= FREE_SAMPLE_MAX_PAGES
       /\ ledger_entry (ledger w) (u_email resp) = None)
  /\ (u_free_sample_applied resp = true ->
      u_amount_due resp = 0
      /\ exists t, ledger_entry (ledger w') (u_email resp)
                   = Some (UsedBy new_job_id t))
  /\ (u_free_sample_applied resp = false ->
      u_amount_due resp = u_base_amount_due resp /\ ledger w' = ledger w)
  /\ (forall e, ledger_entry (ledger w) e <> None ->
                ledger_entry (ledger w') e <> None).
Proof.
  intros E.
  destruct (upload_ok_inv _ _ _ _ _ _ _ E)
    as (_ & n & base & applied & c & u & _ & _ & _ & Hiff & -> & _ & _ & _ & _
        & _ & Hno & Hyes & Hkeep).
  cbn. split; [exact Hiff |]. split.
  - intros ->. split; [reflexivity | apply Hyes; reflexivity].
  - split; [| exact Hkeep]. intros ->. split; [reflexivity | apply Hno; reflexivity].
Qed.

End UploadExtras.


(* ===================================================================== *)
(** * Further properties: histories of uploads                            *)
(* ===================================================================== *)

Section HistoryProofs.

Variable APP_ROOT : string.
Variable count_pdf_pages : string -> option nat.

Lemma upload_keeps_entries new_job_id form w e :
  ledger_entry (ledger w) e <> None ->
  ledger_entry
    (ledger (fst (upload_pdf APP_ROOT count_pdf_pages new_job_id form w))) e
  <> None.
Proof.
  intros He.
  destruct (upload_pdf APP_ROOT count_pdf_pages new_job_id form w)
    as [w' [resp | err]] eqn:E; cbn.
  - destruct (upload_ok_inv _ _ _ _ _ _ _ E)
      as (_ & n & base & applied & c & u & _ & _ & _ & _ & _ & _ & _ & _ & _
          & _ & _ & _ & Hkeep).
    apply Hkeep, He.
  - destruct (upload_raise_inv _ _ _ _ _ _ _ E) as (_ & -> & _). exact He.
Qed.

Lemma upload_no_second_grant new_job_id form w e :
  ledger_entry (ledger w) e <> None ->
  grants_sample_to e
    (snd (upload_pdf APP_ROOT count_pdf_pages new_job_id form w)) = false.
Proof.
  intros He.
  destruct (upload_pdf APP_ROOT count_pdf_pages new_job_id form w)
    as [w' [resp | err]] eqn:E; cbn; [| reflexivity].
  destruct (upload_ok_inv _ _ _ _ _ _ _ E)
    as (_ & n & base & applied & c & u & _ & _ & _ & Hiff & -> & _).
  cbn. destruct applied; [| reflexivity]. cbn.
  destruct (String.eqb_spec (normalize_email (f_email form)) e) as [<- | _];
    [| reflexivity].
  destruct (proj1 Hiff eq_refl) as [_ Hnone]. contradiction.
Qed.

Lemma upload_grant_leaves_entry new_job_id form w e :
  grants_sample_to e
    (snd (upload_pdf APP_ROOT count_pdf_pages new_job_id form w)) = true ->
  ledger_entry
    (ledger (fst (upload_pdf APP_ROOT count_pdf_pages new_job_id form w))) e
  <> None.
Proof.
  destruct (upload_pdf APP_ROOT count_pdf_pages new_job_id form w)
    as [w' [resp | err]] eqn:E; cbn; [| discriminate].
  destruct (upload_ok_inv _ _ _ _ _ _ _ E)
    as (_ & n & base & applied & c & u & _ & _ & _ & _ & -> & _ & _ & _ & _
        & _ & _ & Hyes & _).
  cbn. intros H. apply andb_prop in H as [-> H].
  apply String.eqb_eq in H. subst e.
  destruct (Hyes eq_refl) as [t ->]. discriminate.
Qed.

Lemma no_grant_once_used uploads w e :
  ledger_entry (ledger w) e <> None ->
  List.filter (grants_sample_to e)
    (snd (run_uploads APP_ROOT count_pdf_pages uploads w)) = [].
Proof.
  revert w. induction uploads as [|[new_job_id form] rest IH]; intros w He;
    [reflexivity |].
  cbn [run_uploads].
  pose proof (upload_keeps_entries new_job_id form w e He) as Hk.
  pose proof (upload_no_second_grant new_job_id form w e He) as Hg.
  destruct (upload_pdf APP_ROOT count_pdf_pages new_job_id form w) as [w1 r].
  cbn in Hk, Hg. specialize (IH w1 Hk).
  destruct (run_uploads APP_ROOT count_pdf_pages rest w1) as [w2 rs].
  cbn in IH |- *. rewrite Hg. exact IH.
Qed.

(** X9: in any sequence of uploads served one after the other, from any
    state of the service, at most one response applies the free sample to
    a given normalized email. *)
Theorem at_most_one_free_sample_per_email uploads w e :
  (length (List.filter (grants_sample_to e)
             (snd (run_uploads APP_ROOT count_pdf_pages uploads w))) <= 1)%nat.
Proof.
  revert w. induction uploads as [|[new_job_id form] rest IH]; intros w;
    [cbn; lia |].
  cbn [run_uploads].
  pose proof (upload_grant_leaves_entry new_job_id form w e) as Hg.
  destruct (upload_pdf APP_ROOT count_pdf_pages new_job_id form w) as [w1 r].
  cbn in Hg.
  pose proof (no_grant_once_used rest w1 e) as Hnone.
  specialize (IH w1).
  destruct (run_uploads APP_ROOT count_pdf_pages rest w1) as [w2 rs].
  cbn in IH, Hnone |- *.
  destruct (grants_sample_to e r) eqn:Er.
  - rewrite (Hnone (Hg eq_refl)). cbn. lia.
  - exact IH.
Qed.

End HistoryProofs.

(** Two small uploads by one customer under two spellings of the email,
    then one by another customer: the first and the third get the sample. *)
Example free_sample_history :
  map (fun r => match r with
                | Ok resp => Some (u_email resp, u_free_sample_applied resp,
                                   u_amount_due resp)
                | Raise _ => None
                end)
    (snd (run_uploads Demo.root Demo.count_pages
            [ ("job_1", Demo.small_form);
              ("job_2", mkUploadForm (Some "b.pdf") "abcd" "ANN@example.com"
                          (Some 0));
              ("job_3", mkUploadForm (Some "c.pdf") "ab" "bob@example.com"
                          None) ]
            Demo.empty_world))
  = [ Some ("ann@example.com", true, 0);
      Some ("ann@example.com", false, 25);
      Some ("bob@example.com", true, 0) ].
Proof. vm_compute. reflexivity. Qed.


(* ===================================================================== *)
(** * Further properties: payment marking, start, and their composition   *)
(* ===================================================================== *)

(** [mark_paid] on a job that awaits payment, whether its paid flag is
    set or not. *)
Lemma mark_paid_step job_id job w :
  jobs w !! job_id = Some (Doc job) ->
  j_id job = job_id ->
  j_status job = Some "awaiting_payment" ->
  exists w1 r1 job1,
    mark_paid job_id w = (w1, Ok r1)
    /\ jobs w1 !! job_id = Some (Doc job1)
    /\ j_id job1 = job_id
    /\ j_paid job1 = Some true
    /\ j_status job1 = Some "paid"
    /\ j_paths job1 = j_paths job
    /\ requests w1 = requests w.
Proof.
  intros H Hid Hs. unfold mark_paid. run. rewrite (read_job_found _ _ _ H).
  destruct (bool_decide (j_paid job = Some true)) eqn:Hp.
  - apply bool_decide_eq_true in Hp. rewrite Hs.
    change (PyStr.str_opt (Some "awaiting_payment") =? "awaiting_payment")%string
      with true. cbv beta iota.
    rewrite (update_job_found job_id job (set_status (Some "paid")) w H Hid).
    cbn zeta. eexists _, _, _. split; [reflexivity |].
    cbn. rewrite lookup_insert_eq. repeat split; try reflexivity; assumption.
  - rewrite (update_job_found job_id job
               (fun j => set_status (Some "paid") (set_paid (Some true) j))
               w H Hid).
    cbn zeta. eexists _, _, _. split; [reflexivity |].
    cbn. rewrite lookup_insert_eq. repeat split; try reflexivity; assumption.
Qed.

Section LifecycleProofs.

Variable APP_ROOT : string.
Variable count_pdf_pages : string -> option nat.

(** X10: right after a successful upload, [start] on the new job queues it
    with one request file pointing at the saved input when nothing is due,
    and is refused with payment_required, changing nothing, when an amount
    is due. *)
Theorem upload_then_start new_job_id form w w1 resp :
  upload_pdf APP_ROOT count_pdf_pages new_job_id form w = (w1, Ok resp) ->
  (u_amount_due resp = 0 ->
   exists w2 job req,
     start APP_ROOT new_job_id w1
     = (w2, Ok (StartQueued job (request_path APP_ROOT new_job_id)))
     /\ j_status job = Some "queued"
     /\ jobs w2 !! new_job_id = Some (Doc job)
     /\ requests w2 = <[request_name new_job_id := Doc req]> (requests w1)
     /\ r_job_id req = Some new_job_id
     /\ r_input_pdf req = input_pdf_path APP_ROOT new_job_id
     /\ n_pages (r_notes req) = Some (u_pages resp)
     /\ n_retention_days (r_notes req) = u_retention_days resp)
  /\ (u_amount_due resp <> 0 ->
      start APP_ROOT new_job_id w1 = (w1, Raise PaymentRequired)).
Proof.
  intros E.
  destruct (upload_ok_inv _ _ _ _ _ _ _ E)
    as (_ & n & base & applied & c & u & _ & _ & _ & _ & -> & Hj & _).
  cbn [u_amount_due u_pages u_retention_days].
  set (due := if applied then 0 else base) in *.
  match type of Hj with
  | _ = <[_ := Doc ?j]> _ => set (job := j) in *
  end.
  assert (Hl : jobs w1 !! new_job_id = Some (Doc job))
    by (rewrite Hj; apply lookup_insert_eq).
  split.
  - intros Hdue.
    assert (Hp : j_paid job = Some true) by (subst job; cbn; rewrite Hdue; reflexivity).
    assert (Hs : j_status job = Some "uploaded")
      by (subst job; cbn; rewrite Hdue; reflexivity).
    pose proof (start_enqueues_eq APP_ROOT new_job_id job _
                  (input_pdf_path APP_ROOT new_job_id) w1 Hl Hp
                  (or_introl Hs) eq_refl eq_refl) as Es.
    cbn zeta in Es. rewrite Es by reflexivity.
    eexists _, _, _. split; [reflexivity |]. cbn.
    rewrite lookup_insert_eq. repeat split; reflexivity.
  - intros Hdue. apply (start_unpaid APP_ROOT new_job_id job w1 Hl).
    subst job. cbn. apply Z.eqb_neq in Hdue. rewrite Hdue. discriminate.
Qed.

(** X11: [mark_paid] on a stored job.  A job that is already paid is
    returned untouched unless its status is 'awaiting_payment', which is
    moved to 'paid'; a job that is not paid becomes paid with status
    'paid'.  Only that job's record and the clock change. *)
Theorem mark_paid_transitions job_id job w :
  jobs w !! job_id = Some (Doc job) ->
  j_id job = job_id ->
  (j_paid job = Some true -> j_status job <> Some "awaiting_payment" ->
   mark_paid job_id w = (w, Ok (PaidAlready job)))
  /\ (j_paid job = Some true -> j_status job = Some "awaiting_payment" ->
      exists w' job',
        mark_paid job_id w = (w', Ok (PaidAlready job'))
        /\ job' = set_updated_at (j_updated_at job') (set_status (Some "paid") job)
        /\ jobs w' = <[job_id := Doc job']> (jobs w)
        /\ requests w' = requests w /\ ledger w' = ledger w)
  /\ (j_paid job <> Some true ->
      exists w' job',
        mark_paid job_id w = (w', Ok (PaidNow job'))
        /\ job' = set_updated_at (j_updated_at job')
                    (set_status (Some "paid") (set_paid (Some true) job))
        /\ jobs w' = <[job_id := Doc job']> (jobs w)
        /\ requests w' = requests w /\ ledger w' = ledger w).
Proof.
  intros H Hid. unfold mark_paid. run. rewrite (read_job_found _ _ _ H).
  split; [| split].
  - intros Hp Hs. rewrite bool_decide_eq_true_2 by exact Hp.
    destruct (String.eqb_spec (PyStr.str_opt (j_status job)) "awaiting_payment")
      as [Heq | _]; [| reflexivity].
    destruct (j_status job) as [s|]; cbn in Heq; [congruence | discriminate].
  - intros Hp Hs. rewrite bool_decide_eq_true_2 by exact Hp.
    rewrite Hs.
    change (PyStr.str_opt (Some "awaiting_payment") =? "awaiting_payment")%string
      with true. cbv beta iota.
    rewrite (update_job_found job_id job (set_status (Some "paid")) w H Hid).
    cbn zeta. eexists _, _. split; [reflexivity |].
    cbn. repeat split; reflexivity.
  - intros Hp. rewrite bool_decide_eq_false_2 by exact Hp.
    rewrite (update_job_found job_id job
               (fun j => set_status (Some "paid") (set_paid (Some true) j))
               w H Hid).
    cbn zeta. eexists _, _. split; [reflexivity |].
    cbn. repeat split; reflexivity.
Qed.

(** X12: a job that awaits payment, once marked paid, can be started:
    [mark_paid] followed by [start] leaves it 'queued' and paid, with its
    request file written. *)
Theorem mark_paid_then_start job_id job paths input_pdf w :
  jobs w !! job_id = Some (Doc job) ->
  j_id job = job_id ->
  j_status job = Some "awaiting_payment" ->
  j_paths job = Some paths -> paths !! "input_pdf" = Some input_pdf ->
  exists w1 r1 w2 job2 req,
    mark_paid job_id w = (w1, Ok r1)
    /\ start APP_ROOT job_id w1
       = (w2, Ok (StartQueued job2 (request_path APP_ROOT job_id)))
    /\ j_status job2 = Some "queued"
    /\ j_paid job2 = Some true
    /\ jobs w2 !! job_id = Some (Doc job2)
    /\ requests w2 = <[request_name job_id := Doc req]> (requests w)
    /\ r_input_pdf req = input_pdf.
Proof.
  intros H Hid Hs Hpaths Hin.
  destruct (mark_paid_step job_id job w H Hid Hs)
    as (w1 & r1 & job1 & Hm & Hl1 & Hid1 & Hp1 & Hs1 & Hpaths1 & Hreq1).
  pose proof (start_enqueues_eq APP_ROOT job_id job1 paths input_pdf w1 Hl1 Hp1
                (or_intror Hs1) Hid1 ltac:(rewrite Hpaths1; exact Hpaths) Hin)
    as Es.
  cbn zeta in Es.
  eexists w1, r1, _, _, _. split; [exact Hm |]. split; [exact Es |].
  cbn. rewrite lookup_insert_eq, Hreq1.
  unfold queued_job. cbn. repeat split; try reflexivity. exact Hp1.
Qed.

(** X13: on a job id that is not in the store, [read_job], [update_job],
    [mark_paid] and [start] all raise job_not_found; on a job file whose
    text is not a JSON document (the API tier writes job files in place)
    they all raise the decoder's error.  In both cases the state is left
    as it is. *)
Theorem job_file_missing_or_unreadable job_id patch w e :
  (jobs w !! job_id = None /\ e = JobNotFound)
  \/ (jobs w !! job_id = Some Unparsable /\ e = JSONDecodeError) ->
  read_job job_id w = (w, Raise e)
  /\ update_job job_id patch w = (w, Raise e)
  /\ mark_paid job_id w = (w, Raise e)
  /\ start APP_ROOT job_id w = (w, Raise e).
Proof.
  intros H.
  assert (Hr : read_job job_id w = (w, Raise e))
    by (unfold read_job; destruct H as [[-> ->] | [-> ->]]; reflexivity).
  repeat split; [exact Hr | unfold update_job | unfold mark_paid | unfold start];
    run; rewrite Hr; reflexivity.
Qed.

End LifecycleProofs.


(* ===================================================================== *)
(** * Further properties: the job store stays keyed by id                 *)
(* ===================================================================== *)

Lemma keeps_ret {A} (a : A) : keeps_store_keyed (mret a : M A).
Proof. intros w H. exact H. Qed.

Lemma keeps_raise {A} e : keeps_store_keyed (raise e : M A).
Proof. intros w H. exact H. Qed.

Lemma keeps_bind {A B} (m : M A) (f : A -> M B) :
  keeps_store_keyed m -> (forall a, keeps_store_keyed (f a)) ->
  keeps_store_keyed (m ≫= f).
Proof.
  intros Hm Hf w H. unfold mbind, M_bind. specialize (Hm w H).
  destruct (m w) as [w1 [a | e]]; cbn in Hm |- *; [| exact Hm].
  apply Hf, Hm.
Qed.

Lemma keeps_modify_frame (f : World -> World) :
  (forall w, jobs (f w) = jobs w) -> keeps_store_keyed (modify f).
Proof. intros Hf w H k job Hk. cbn in Hk. rewrite Hf in Hk. eapply H, Hk. Qed.

Lemma keeps_gets {A} (f : World -> A) : keeps_store_keyed (gets f).
Proof. intros w H. exact H. Qed.

Lemma keeps_now_ts : keeps_store_keyed now_ts.
Proof. intros w H. exact H. Qed.

Lemma keeps_read_job job_id : keeps_store_keyed (read_job job_id).
Proof.
  intros w H. unfold read_job. destruct (jobs w !! job_id) as [[|job]|]; exact H.
Qed.

Lemma keyed_insert w job :
  store_keyed_by_id w ->
  store_keyed_by_id (set_jobs (<[j_id job := Doc job]> (jobs w)) w).
Proof.
  intros H k j Hk. cbn in Hk.
  destruct (decide (j_id job = k)) as [<- | Hne].
  - rewrite lookup_insert_eq in Hk. congruence.
  - rewrite lookup_insert_ne in Hk by exact Hne. eapply H, Hk.
Qed.

Lemma keeps_write_job job : keeps_store_keyed (write_job job).
Proof. intros w H. apply keyed_insert, H. Qed.

Lemma keeps_update_job job_id patch : keeps_store_keyed (update_job job_id patch).
Proof.
  unfold update_job.
  apply keeps_bind; [apply keeps_read_job | intros job].
  apply keeps_bind; [apply keeps_now_ts | intros t].
  apply keeps_bind; [apply keeps_write_job | intros _]. apply keeps_ret.
Qed.

Lemma keeps_read_ledger : keeps_store_keyed read_ledger.
Proof.
  unfold read_ledger.
  apply keeps_bind; [apply keeps_gets | intros file].
  destruct file; [apply keeps_ret | | apply keeps_ret].
  apply keeps_bind; [apply keeps_now_ts | intros t]. apply keeps_ret.
Qed.

Lemma keeps_email_can_use email_norm :
  keeps_store_keyed (email_can_use_free_sample email_norm).
Proof.
  unfold email_can_use_free_sample.
  apply keeps_bind; [apply keeps_read_ledger | intros led]. apply keeps_ret.
Qed.

Lemma keeps_mark_email email_norm job_id :
  keeps_store_keyed (mark_email_used_free_sample email_norm job_id).
Proof.
  unfold mark_email_used_free_sample, write_ledger.
  apply keeps_bind; [apply keeps_read_ledger | intros led].
  apply keeps_bind; [apply keeps_now_ts | intros t].
  apply keeps_modify_frame. reflexivity.
Qed.

Lemma keeps_write_bridge_request APP_ROOT job :
  keeps_store_keyed (write_bridge_request APP_ROOT job).
Proof.
  unfold write_bridge_request, bridge_request_doc, lookup_key.
  apply keeps_bind.
  - apply keeps_bind; [apply keeps_now_ts | intros t].
    apply keeps_bind.
    + destruct (j_paths job); [apply keeps_ret | apply keeps_raise].
    + intros paths. apply keeps_bind; [| intros; apply keeps_ret].
      destruct (paths !! "input_pdf"); [apply keeps_ret | apply keeps_raise].
  - intros req. apply keeps_bind; [| intros; apply keeps_ret].
    apply keeps_modify_frame. reflexivity.
Qed.

Lemma keeps_start APP_ROOT job_id : keeps_store_keyed (start APP_ROOT job_id).
Proof.
  unfold start.
  apply keeps_bind; [apply keeps_read_job | intros job].
  destruct (negb (PyStr.truthy_bool (j_paid job))); [apply keeps_raise |].
  destruct (String.eqb _ _); [apply keeps_ret |].
  destruct (negb _); [apply keeps_raise |].
  apply keeps_bind; [apply keeps_update_job | intros job1].
  apply keeps_bind; [apply keeps_write_bridge_request | intros req_path].
  apply keeps_bind; [apply keeps_update_job | intros job2]. apply keeps_ret.
Qed.

Lemma keeps_mark_paid job_id : keeps_store_keyed (mark_paid job_id).
Proof.
  unfold mark_paid.
  apply keeps_bind; [apply keeps_read_job | intros job].
  destruct (bool_decide _).
  - destruct (String.eqb _ _); [| apply keeps_ret].
    apply keeps_bind; [apply keeps_update_job | intros; apply keeps_ret].
  - apply keeps_bind; [apply keeps_update_job | intros; apply keeps_ret].
Qed.

Lemma keeps_upload_pdf APP_ROOT count_pdf_pages new_job_id form :
  keeps_store_keyed (upload_pdf APP_ROOT count_pdf_pages new_job_id form).
Proof.
  unfold upload_pdf.
  destruct (_ || _); [apply keeps_raise |].
  destruct (negb (bool_decide _)); [apply keeps_raise |].
  destruct (negb (PyStr.endswith _ _)); [apply keeps_raise |].
  apply keeps_bind; [apply keeps_modify_frame; reflexivity | intros _].
  apply keeps_bind; [apply keeps_modify_frame; reflexivity | intros _].
  apply keeps_bind.
  { destruct (count_pdf_pages _); [apply keeps_ret | apply keeps_raise]. }
  intros pages. destruct (MAX_PAGES <? pages).
  { apply keeps_bind; [apply keeps_modify_frame; reflexivity | intros _].
    apply keeps_raise. }
  apply keeps_bind.
  { destruct (calc_base_amount pages); [apply keeps_ret | apply keeps_raise]. }
  intros base. apply keeps_bind.
  { destruct (pages <=? _); [apply keeps_email_can_use | apply keeps_ret]. }
  intros eligible.
  apply keeps_bind; [apply keeps_now_ts | intros created].
  apply keeps_bind; [apply keeps_now_ts | intros updated].
  apply keeps_bind; [apply keeps_write_job | intros _].
  apply keeps_bind; [| intros; apply keeps_ret].
  destruct eligible; [apply keeps_mark_email | apply keeps_ret].
Qed.

Lemma keeps_checkout_completed APP_ROOT job_id :
  keeps_store_keyed (checkout_completed APP_ROOT job_id).
Proof.
  unfold checkout_completed.
  apply keeps_bind; [apply keeps_read_job | intros job].
  apply keeps_bind.
  { destruct (bool_decide _); [apply keeps_ret |].
    apply keeps_bind; [apply keeps_now_ts | intros t].
    apply keeps_bind; [apply keeps_update_job | intros; apply keeps_ret]. }
  intros _. apply keeps_bind; [apply keeps_read_job | intros job1].
  destruct (_ && _); [| apply keeps_ret].
  apply keeps_bind; [apply keeps_update_job | intros job2].
  apply keeps_bind; [apply keeps_write_bridge_request | intros req_path].
  apply keeps_bind; [apply keeps_update_job | intros; apply keeps_ret].
Qed.

(** The record that the worker writes back is the stored one with new
    status, completion time and paths: it keeps its id. *)
Lemma process_request_keyed openpyxl_available workbook_error name w :
  store_keyed_by_id w ->
  store_keyed_by_id (fst (process_request openpyxl_available workbook_error name w)).
Proof.
  intros H.
  destruct (process_request openpyxl_available workbook_error name w) as [w' r] eqn:E.
  revert E.
  unfold process_request, read_request, generate_xlsx_for_job,
    build_zip_bundle, add_outputs, unlink_request, write_log, now_ts.
  run. intros E.
  repeat (case_match; simplify_eq; cbn in *; try exact H).
  all: intros key0 rec0 Hkey0; cbn in Hkey0;
    match type of Hkey0 with
    | <[?i := _]> _ !! _ = _ =>
        destruct (decide (i = key0)) as [<- | Hne0];
        [ rewrite lookup_insert_eq in Hkey0; injection Hkey0 as <-; cbn;
          eapply H; eassumption
        | rewrite lookup_insert_ne in Hkey0 by exact Hne0; eapply H, Hkey0 ]
    end.
Qed.

Lemma handle_request_keyed openpyxl_available workbook_error name w :
  store_keyed_by_id w ->
  store_keyed_by_id (handle_request openpyxl_available workbook_error name w).
Proof.
  intros H.
  pose proof (process_request_keyed openpyxl_available workbook_error name w H)
    as Hp.
  unfold handle_request.
  destruct (process_request openpyxl_available workbook_error name w) as [w' [u | e]];
    cbn in Hp |- *; exact Hp.
Qed.

Lemma cleanup_one_keyed parse_iso now stem w :
  store_keyed_by_id w -> store_keyed_by_id (cleanup_one parse_iso now stem w).
Proof.
  intros H. unfold cleanup_one.
  destruct (jobs w !! stem) as [[|job]|]; [exact H | | exact H].
  destruct (should_delete parse_iso now job) as [[|]|]; try exact H.
  intros k j Hk. rewrite delete_job_everywhere_jobs in Hk.
  apply lookup_delete_Some in Hk as [_ Hk]. eapply H, Hk.
Qed.

Lemma cleanup_pass_keyed parse_iso now w :
  store_keyed_by_id w -> store_keyed_by_id (cleanup_pass parse_iso now w).
Proof.
  unfold cleanup_pass. generalize (elements (dom (jobs w))). intros stems.
  revert w. induction stems as [|stem stems IH]; intros w H; [exact H |].
  cbn [fold_left]. apply IH, cleanup_one_keyed, H.
Qed.

(** X14: every operation of the API tier, the worker and the reaper keeps
    the invariant that each job file is named after the id inside it,
    whatever its outcome: upload, mark_paid, start, the webhook's
    checkout handling, one request of the worker loop, a reaper pass. *)
Theorem store_stays_keyed_by_id (APP_ROOT : string)
    (count_pdf_pages : string -> option nat) (parse_iso : string -> option Z)
    (openpyxl_available : bool)
    (workbook_error : string -> option Z -> option string -> option error)
    (now : Z) (job_id name : string) (form : UploadForm) (w : World) :
  store_keyed_by_id w ->
  store_keyed_by_id (fst (upload_pdf APP_ROOT count_pdf_pages job_id form w))
  /\ store_keyed_by_id (fst (mark_paid job_id w))
  /\ store_keyed_by_id (fst (start APP_ROOT job_id w))
  /\ store_keyed_by_id (fst (checkout_completed APP_ROOT job_id w))
  /\ store_keyed_by_id (handle_request openpyxl_available workbook_error name w)
  /\ store_keyed_by_id (cleanup_pass parse_iso now w).
Proof.
  intros H. repeat split.
  - apply keeps_upload_pdf, H.
  - apply keeps_mark_paid, H.
  - apply keeps_start, H.
  - apply keeps_checkout_completed, H.
  - apply handle_request_keyed, H.
  - apply cleanup_pass_keyed, H.
Qed.


(* ===================================================================== *)
(** * Further properties: the payment webhook                             *)
(* ===================================================================== *)

Lemma bind_ok {A B} (m : M A) (f : A -> M B) w w1 a :
  m w = (w1, Ok a) -> (m ≫= f) w = f a w1.
Proof. intros E. unfold mbind, M_bind. rewrite E. reflexivity. Qed.

Lemma bind_raise {A B} (m : M A) (f : A -> M B) w w1 e :
  m w = (w1, Raise e) -> (m ≫= f) w = (w1, Raise e).
Proof. intros E. unfold mbind, M_bind. rewrite E. reflexivity. Qed.

Section WebhookProofs.

Variable APP_ROOT : string.

(** [write_bridge_request] on a job whose input path is on record. *)
Lemma write_bridge_request_ok job paths input_pdf w :
  j_paths job = Some paths -> paths !! "input_pdf" = Some input_pdf ->
  write_bridge_request APP_ROOT job w
  = (set_requests
       (<[request_name (j_id job) :=
            Doc (expected_request APP_ROOT job input_pdf (clock w (ticks w)))]>
          (requests w))
       (set_ticks (S (ticks w)) w),
     Ok (request_path APP_ROOT (j_id job))).
Proof.
  intros Hp Hin.
  unfold write_bridge_request, bridge_request_doc, lookup_key, now_ts. run.
  rewrite Hp, Hin. reflexivity.
Qed.

(** The auto-start of the webhook on a stored job whose status is 'paid'
    or 'uploaded'. *)
Lemma auto_start_eq job_id job paths input_pdf w :
  jobs w !! job_id = Some (Doc job) -> j_id job = job_id ->
  j_paths job = Some paths -> paths !! "input_pdf" = Some input_pdf ->
  (job1 ← update_job job_id (set_status (Some "queued"));
   req_path ← write_bridge_request APP_ROOT job1;
   _ ← update_job job_id
         (set_paths (Some (<["bridge_request" := req_path]>
                             (default ∅ (j_paths job1)))));
   mret tt) w
  = (mkWorld
       (<[job_id := Doc (queued_job APP_ROOT job paths (clock w (ticks w))
                           (clock w (S (S (ticks w)))))]> (jobs w))
       (<[request_name job_id :=
            Doc (expected_request APP_ROOT job input_pdf
                   (clock w (S (ticks w))))]> (requests w))
       (results w) (ledger w) (upload_dirs w) (upload_files w) (outputs w)
       (log w) (clock w) (S (S (S (ticks w)))),
     Ok tt).
Proof.
  intros H Hid Hp Hin.
  erewrite bind_ok
    by (apply (update_job_found job_id job (set_status (Some "queued")) w H Hid)).
  cbn zeta.
  erewrite bind_ok by (eapply write_bridge_request_ok; [exact Hp | exact Hin]).
  erewrite bind_ok.
  2:{ apply update_job_found; [cbn; apply lookup_insert_eq | cbn; exact Hid]. }
  cbn. rewrite insert_insert_eq, Hid, Hp.
  unfold queued_job, expected_request, request_path. cbn. rewrite Hid.
  reflexivity.
Qed.

(** X15: a verified checkout.session.completed event for a stored job that
    is not yet paid marks it paid and starts it at once: the delivery
    answers ok, the job is paid, stamped with the payment time and
    'queued', its request file is written and the file's path is
    recorded.  No other job record and no other request file changes. *)
Theorem webhook_pays_and_queues job_id job paths input_pdf w :
  jobs w !! job_id = Some (Doc job) -> j_id job = job_id ->
  job_id <> "" ->
  j_paid job <> Some true ->
  j_paths job = Some paths -> paths !! "input_pdf" = Some input_pdf ->
  exists w' job' req,
    payments_webhook APP_ROOT true
      (Some (mkStripeEvent (Some "checkout.session.completed") (Some job_id))) w
    = (w', WebhookOk)
    /\ jobs w' = <[job_id := Doc job']> (jobs w)
    /\ j_paid job' = Some true
    /\ j_status job' = Some "queued"
    /\ j_stripe_paid_at job' = Some (clock w (ticks w))
    /\ j_paths job'
       = Some (<["bridge_request" := request_path APP_ROOT job_id]> paths)
    /\ requests w' = <[request_name job_id := Doc req]> (requests w)
    /\ r_job_id req = Some job_id
    /\ r_input_pdf req = input_pdf.
Proof.
  intros H Hid Hne Hp Hpaths Hin.
  unfold payments_webhook. cbn [negb ev_type ev_job_id].
  rewrite bool_decide_eq_true_2 by reflexivity.
  assert (Ht : PyStr.truthy_str (Some job_id) = true).
  { cbn. destruct (String.eqb_spec job_id ""); [contradiction | reflexivity]. }
  rewrite Ht. cbn [andb from_option id].
  unfold checkout_completed.
  erewrite bind_ok by (apply read_job_found; exact H).
  rewrite bool_decide_eq_false_2 by exact Hp.
  erewrite bind_ok.
  2:{ erewrite bind_ok by reflexivity.
      erewrite bind_ok.
      2:{ apply update_job_found; [cbn; exact H | cbn; exact Hid]. }
      reflexivity. }
  cbn zeta.
  erewrite bind_ok by (apply read_job_found; cbn; apply lookup_insert_eq).
  cbn [j_status set_updated_at set_status set_stripe_paid_at PyStr.str_opt].
  change (PyStr.in_strs "paid" ["paid"; "uploaded"]
          && negb ("paid" =? "queued")%string) with true.
  cbv iota.
  erewrite auto_start_eq;
    [| cbn; apply lookup_insert_eq | cbn; exact Hid | cbn; exact Hpaths
     | exact Hin].
  eexists _, _, _. split; [reflexivity |].
  cbn. rewrite insert_insert_eq.
  unfold queued_job, expected_request. cbn. rewrite Hid.
  repeat split; reflexivity.
Qed.

(** X16: a second delivery of the event, or a delivery for a job that is
    paid and already past 'paid' and 'uploaded' ('queued', 'done',
    'failed', ...), answers ok and changes nothing: a queued or finished
    job is not queued again. *)
Theorem webhook_redelivery_changes_nothing job_id job w :
  jobs w !! job_id = Some (Doc job) ->
  j_paid job = Some true ->
  PyStr.in_strs (PyStr.str_opt (j_status job)) ["paid"; "uploaded"] = false ->
  payments_webhook APP_ROOT true
    (Some (mkStripeEvent (Some "checkout.session.completed") (Some job_id))) w
  = (w, WebhookOk).
Proof.
  intros H Hp Hs. unfold payments_webhook. cbn [negb ev_type ev_job_id].
  rewrite bool_decide_eq_true_2 by reflexivity.
  destruct (PyStr.truthy_str (Some job_id)); [| reflexivity].
  cbn [andb from_option id].
  unfold checkout_completed.
  erewrite bind_ok by (apply read_job_found; exact H).
  rewrite bool_decide_eq_true_2 by exact Hp.
  erewrite bind_ok by reflexivity.
  erewrite bind_ok by (apply read_job_found; exact H).
  rewrite Hs. reflexivity.
Qed.

(** X17: the deliveries that the webhook does not act on.  Without a
    configured secret it answers 500, with a bad signature 400; an event of
    another type or without a job id is acknowledged; an event for an
    unknown job raises job_not_found.  In all of them the state is left as
    it is. *)
Theorem webhook_ignored_deliveries event ev w :
  payments_webhook APP_ROOT false event w = (w, WebhookSecretNotSet)
  /\ payments_webhook APP_ROOT true None w = (w, WebhookInvalidSignature)
  /\ (ev_type ev <> Some "checkout.session.completed" ->
      payments_webhook APP_ROOT true (Some ev) w = (w, WebhookOk))
  /\ (ev_job_id ev = None \/ ev_job_id ev = Some "" ->
      payments_webhook APP_ROOT true (Some ev) w = (w, WebhookOk))
  /\ (forall job_id,
        ev_type ev = Some "checkout.session.completed" ->
        ev_job_id ev = Some job_id -> job_id <> "" ->
        jobs w !! job_id = None ->
        payments_webhook APP_ROOT true (Some ev) w
        = (w, WebhookRaised JobNotFound)).
Proof.
  split; [reflexivity |]. split; [reflexivity |]. split; [| split].
  - intros Ht. unfold payments_webhook. cbn [negb].
    rewrite bool_decide_eq_false_2 by exact Ht. reflexivity.
  - intros Hj. unfold payments_webhook. cbn [negb].
    destruct Hj as [-> | ->]; cbn; rewrite andb_false_r; reflexivity.
  - intros job_id Ht Hj Hne Hnone. unfold payments_webhook. cbn [negb].
    rewrite bool_decide_eq_true_2 by exact Ht. rewrite Hj.
    assert (Htr : PyStr.truthy_str (Some job_id) = true).
    { cbn. destruct (String.eqb_spec job_id ""); [contradiction | reflexivity]. }
    rewrite Htr. cbn [andb from_option id].
    unfold checkout_completed.
    erewrite bind_raise; [reflexivity |].
    unfold read_job. rewrite Hnone. reflexivity.
Qed.

End WebhookProofs.

(** A forty-page job paid through the webhook: the first delivery queues
    it with one request, the second changes nothing. *)
Example webhook_end_to_end :
  let w0 := fst (upload_pdf Demo.root Demo.count_pages "job_40"
                   Demo.medium_form Demo.empty_world) in
  let ev := Some (mkStripeEvent (Some "checkout.session.completed")
                    (Some "job_40")) in
  let r1 := payments_webhook Demo.root true ev w0 in
  let r2 := payments_webhook Demo.root true ev (fst r1) in
  snd r1 = WebhookOk
  /\ j_status <$> stored_job "job_40" (fst r1) = Some (Some "queued")
  /\ j_paid <$> stored_job "job_40" (fst r1) = Some (Some true)
  /\ is_unparsable <$> requests (fst r1) !! "job_40.json" = Some false
  /\ snd r2 = WebhookOk
  /\ jobs (fst r2) !! "job_40" = jobs (fst r1) !! "job_40"
  /\ requests (fst r2) !! "job_40.json" = requests (fst r1) !! "job_40.json".
Proof.
  cbv zeta. do 6 (split; [vm_compute; reflexivity |]).
  vm_compute. reflexivity.
Qed.


(* ===================================================================== *)
(** * Further properties: the worker                                      *)
(* ===================================================================== *)

Section WorkerMore.

Variable openpyxl_available : bool.
Variable workbook_error : string -> option Z -> option string -> option error.

(** Creating the output directory and then writing files into it. *)
Lemma add_outputs_after_mkdir jid names w :
  fst (add_outputs jid names (fst (add_outputs jid ∅ w)))
  = set_outputs (<[jid := names ∪ default ∅ (outputs w !! jid)]> (outputs w)) w.
Proof.
  unfold add_outputs, modify. cbn.
  rewrite lookup_insert_eq, insert_insert_eq. cbn.
  rewrite (left_id_L ∅ (∪)). reflexivity.
Qed.

(** The spreadsheet step when the library is present and accepts the
    job's values. *)
Lemma generate_xlsx_ok job w :
  openpyxl_available = true -> jid_of job <> "" ->
  workbook_error (jid_of job) (j_pages job) (j_email job) = None ->
  generate_xlsx_for_job openpyxl_available workbook_error job w
  = (set_outputs
       (<[jid_of job := {[ "output.xlsx" ]}
                        ∪ default ∅ (outputs w !! jid_of job)]> (outputs w)) w,
     Ok (output_xlsx_path (jid_of job))).
Proof.
  intros -> Hid Hwb. rewrite <- add_outputs_after_mkdir.
  unfold generate_xlsx_for_job. cbn [negb].
  destruct (String.eqb_spec (jid_of job) ""); [contradiction |].
  rewrite Hwb. reflexivity.
Qed.

Lemma build_zip_bundle_ok job paths xlsx w :
  jid_of job <> "" -> j_paths job = Some paths ->
  paths !! "output_xlsx" = Some xlsx ->
  build_zip_bundle job w
  = (set_outputs
       (<[jid_of job := {[ "metadata.json"; "summary.txt"; "bundle.zip" ]}
                        ∪ default ∅ (outputs w !! jid_of job)]> (outputs w)) w,
     Ok (bundle_zip_path (jid_of job))).
Proof.
  intros Hid Hp Hx. rewrite <- add_outputs_after_mkdir.
  unfold build_zip_bundle.
  destruct (String.eqb_spec (jid_of job) ""); [contradiction |].
  rewrite Hp. run. cbn. rewrite Hx. reflexivity.
Qed.

(** X18: a request that names a stored job is completed when the
    spreadsheet library is present and accepts the job's values: the job
    record becomes 'done' with a completion time and the paths of the
    spreadsheet and of the bundle added to the paths it had, a result with
    [ok] true and the same completion time and paths is written, the
    output directory holds the four artifacts, and the request file is
    deleted. *)
Theorem process_request_completes_job name req job_id job w :
  openpyxl_available = true ->
  requests w !! name = Some (Doc req) ->
  r_job_id req = Some job_id -> job_id <> "" ->
  jobs w !! job_id = Some (Doc job) ->
  jid_of job <> "" ->
  workbook_error (jid_of job) (j_pages job) (j_email job) = None ->
  exists w' job' done_at paths',
    process_request openpyxl_available workbook_error name w = (w', Ok tt)
    /\ paths' = <["bundle_zip" := bundle_zip_path (jid_of job)]>
                  (<["output_xlsx" := output_xlsx_path (jid_of job)]>
                     (default ∅ (j_paths job)))
    /\ jobs w' = <[job_id := Doc job']> (jobs w)
    /\ job' = set_paths (Some paths')
                (set_done_at (Some done_at) (set_status (Some "done") job))
    /\ results w'
       = <[job_id := mkBridgeResult job_id true (Some done_at) paths']>
           (results w)
    /\ requests w' = delete name (requests w)
    /\ (exists files, outputs w' !! jid_of job = Some files
          /\ {[ "output.xlsx"; "metadata.json"; "summary.txt"; "bundle.zip" ]}
             ⊆ files)
    /\ ledger w' = ledger w /\ upload_files w' = upload_files w.
Proof.
  intros Hlib Hreq Hjid Hne Hjob Hid Hwb.
  assert (Ht : PyStr.truthy_str (Some job_id) = true).
  { cbn. destruct (String.eqb_spec job_id ""); [contradiction | reflexivity]. }
  destruct (process_request openpyxl_available workbook_error name w)
    as [w' r] eqn:E.
  revert E. unfold process_request.
  erewrite bind_ok by (unfold read_request; rewrite Hreq; reflexivity).
  rewrite Hjid, Ht. cbn [negb from_option id].
  erewrite bind_ok by reflexivity. cbn beta. rewrite Hjob.
  erewrite bind_ok by reflexivity.
  erewrite bind_ok by reflexivity.
  cbn [fst write_log].
  erewrite bind_ok by (apply generate_xlsx_ok; assumption).
  erewrite bind_ok by reflexivity.
  erewrite bind_ok.
  2:{ eapply build_zip_bundle_ok; [exact Hid | reflexivity |].
      apply lookup_insert_eq. }
  unfold unlink_request, write_log, now_ts. run. cbn.
  rewrite lookup_insert_eq, insert_insert_eq. cbn [from_option id].
  intros [= <- <-].
  eexists _, _, (clock w (S (ticks w))), _.
  split; [reflexivity |]. split; [reflexivity |].
  cbn [jobs results requests outputs ledger upload_files].
  split; [reflexivity |]. split; [reflexivity |]. split; [reflexivity |].
  split; [reflexivity |]. split; [| split; reflexivity].
  eexists. split; [apply lookup_insert_eq |].
  generalize (default ∅ (outputs w !! jid_of job)). intros files.
  set_solver.
Qed.

(** X19: a request that cannot be matched to a job (no job id in it, or a
    job id without a record) is a poison message: it is logged and its
    file deleted without raising, and no job record, result or output is
    written. *)
Theorem process_request_discards_poison name req w :
  requests w !! name = Some (Doc req) ->
  PyStr.truthy_str (r_job_id req) = false
  \/ jobs w !! default "" (r_job_id req) = None ->
  exists w',
    process_request openpyxl_available workbook_error name w = (w', Ok tt)
    /\ requests w' = delete name (requests w)
    /\ jobs w' = jobs w /\ results w' = results w /\ outputs w' = outputs w
    /\ length (log w') = S (length (log w)).
Proof.
  intros Hreq Hcase.
  unfold process_request, read_request, unlink_request, write_log, now_ts.
  run. rewrite Hreq.
  destruct (PyStr.truthy_str (r_job_id req)) eqn:Ht; cbn [negb].
  - destruct Hcase as [[=] | Hnone].
    cbn [jobs]. rewrite Hnone.
    eexists. split; [reflexivity |]. cbn.
    rewrite length_app. cbn. repeat split; try reflexivity. lia.
  - eexists. split; [reflexivity |]. cbn.
    rewrite length_app. cbn. repeat split; try reflexivity. lia.
Qed.

(** X20: after one drain of a listing, every listed request file is gone
    whatever happened while processing it, and the files that were not
    listed are exactly as before. *)
Theorem run_requests_consumes_listing reqs w name :
  requests (run_requests openpyxl_available workbook_error reqs w) !! name
  = if decide (name ∈ reqs) then None else requests w !! name.
Proof.
  unfold run_requests. revert w. induction reqs as [|r reqs IH]; intros w.
  - cbn. destruct (decide (name ∈ [])) as [Hin | _]; [| reflexivity].
    apply elem_of_nil in Hin. contradiction.
  - cbn [fold_left]. rewrite IH, handle_request_requests.
    destruct (decide (name ∈ reqs)) as [Hin | Hnin].
    + rewrite decide_True by (apply elem_of_cons; auto). reflexivity.
    + destruct (decide (name = r)) as [-> | Hne].
      * rewrite decide_True by (apply elem_of_cons; auto).
        apply lookup_delete_eq.
      * rewrite decide_False
          by (rewrite elem_of_cons; intros [? | ?]; contradiction).
        apply lookup_delete_ne. congruence.
Qed.

(** X21: handling a request, whatever its outcome, never touches the
    ledger or the uploads area, and never changes or creates the record of
    a job other than the one the request names. *)
Theorem handle_request_frame name w k :
  (forall req, requests w !! name = Some (Doc req) -> r_job_id req <> Some k) ->
  jobs (handle_request openpyxl_available workbook_error name w) !! k
  = jobs w !! k
  /\ results (handle_request openpyxl_available workbook_error name w) !! k
     = results w !! k
  /\ ledger (handle_request openpyxl_available workbook_error name w) = ledger w
  /\ upload_files (handle_request openpyxl_available workbook_error name w)
     = upload_files w
  /\ upload_dirs (handle_request openpyxl_available workbook_error name w)
     = upload_dirs w.
Proof.
  intros Hother. unfold handle_request.
  destruct (process_request openpyxl_available workbook_error name w) as [w' r] eqn:E.
  revert E.
  unfold process_request, read_request, generate_xlsx_for_job,
    build_zip_bundle, add_outputs, unlink_request, write_log, now_ts.
  run. intros E.
  destruct (requests w !! name) as [[|req]|] eqn:Hreq; simplify_eq; cbn;
    try (repeat split; reflexivity).
  specialize (Hother req eq_refl).
  destruct (r_job_id req) as [jid |] eqn:Hjid; cbn in *; simplify_eq;
    try (repeat split; reflexivity).
  assert (Hk : jid <> k) by congruence.
  repeat (case_match; simplify_eq; cbn in *;
          try (repeat split; reflexivity)).
  all: rewrite !lookup_insert_ne by exact Hk; repeat split; reflexivity.
Qed.

(** X30: the outcome of processing a request.  It raises when the request
    file is missing or is not a JSON document, when the job file is not a
    JSON document, when the spreadsheet library is missing, when the job
    has no id, and when the library refuses the job's values, with the
    exception of that step; in every other case, the two poison cases
    included, it returns normally: the bundle step and the writes after it
    never raise. *)
Theorem process_request_outcome name w :
  snd (process_request openpyxl_available workbook_error name w)
  = match requests w !! name with
    | None => Raise FileNotFoundError
    | Some Unparsable => Raise JSONDecodeError
    | Some (Doc req) =>
        if PyStr.truthy_str (r_job_id req)
        then
          match jobs w !! default "" (r_job_id req) with
          | None => Ok tt
          | Some Unparsable => Raise JSONDecodeError
          | Some (Doc job) =>
              if negb openpyxl_available
              then Raise (RuntimeError
                            "openpyxl is required (pip install openpyxl).")
              else if String.eqb (jid_of job) ""
              then Raise (RuntimeError "job missing id")
              else
                match workbook_error (jid_of job) (j_pages job) (j_email job)
                with
                | Some e => Raise e
                | None => Ok tt
                end
          end
        else Ok tt
    end.
Proof.
  unfold process_request, read_request, generate_xlsx_for_job,
    build_zip_bundle, add_outputs, unlink_request, write_log, now_ts.
  run.
  destruct (requests w !! name) as [[|req]|]; try reflexivity.
  destruct (PyStr.truthy_str (r_job_id req)); cbn [negb]; [| reflexivity].
  cbn [jobs].
  destruct (jobs w !! default "" (r_job_id req)) as [[|job]|];
    try reflexivity.
  destruct openpyxl_available; cbn [negb]; [| reflexivity].
  assert (Hj : forall p s d,
    jid_of (set_done_at d (set_status s (set_paths p job))) = jid_of job)
    by reflexivity.
  destruct (String.eqb (jid_of job) "") eqn:Hid; [reflexivity |].
  destruct (workbook_error (jid_of job) (j_pages job) (j_email job));
    [reflexivity |].
  rewrite Hj, Hid. cbn [j_paths set_done_at set_status set_paths].
  rewrite lookup_insert_eq. reflexivity.
Qed.

End WorkerMore.


(* ===================================================================== *)
(** * Further properties: the reaper                                      *)
(* ===================================================================== *)

Lemma append_inj_r s1 s2 t : s1 ++ t = s2 ++ t -> s1 = s2.
Proof.
  revert s2. induction s1 as [|c s1 IH]; intros s2 H.
  - destruct s2 as [|d s2]; [reflexivity |].
    apply (f_equal String.length) in H. rewrite append_nil in H.
    rewrite length_append in H. cbn in H. lia.
  - destruct s2 as [|d s2].
    + apply (f_equal String.length) in H. rewrite append_nil in H.
      rewrite length_append in H. cbn in H. lia.
    + rewrite !append_cons in H. injection H as -> H.
      f_equal. apply IH, H.
Qed.

Section ReaperProofs.

Variable parse_iso : string -> option Z.

(** X22: eligibility never lapses: a job that [should_delete] accepts at
    one instant is accepted at every later instant. *)
Theorem should_delete_monotone now now' job :
  should_delete parse_iso now job = Ok true ->
  now <= now' ->
  should_delete parse_iso now' job = Ok true.
Proof.
  unfold should_delete, parse_time. intros H Hle.
  repeat (case_match; simplify_eq; try reflexivity; try discriminate).
  all: f_equal; apply Z.leb_le;
    match goal with
    | E : (_ <=? _) = true |- _ => apply Z.leb_le in E; lia
    end.
Qed.

Lemma delete_job_everywhere_footprint stem k w :
  job_footprint k (fst (delete_job_everywhere stem w))
  = (delete stem (jobs w) !! k, delete stem (upload_files w) !! k,
     bool_decide (k ∈ upload_dirs w ∖ {[stem]}),
     delete stem (outputs w) !! k, delete stem (results w) !! k,
     delete (stem ++ ".json") (requests w) !! (k ++ ".json")).
Proof. reflexivity. Qed.

(** Deleting a job leaves the footprint of every other job alone. *)
Lemma delete_job_everywhere_other stem k w :
  stem <> k ->
  job_footprint k (fst (delete_job_everywhere stem w)) = job_footprint k w.
Proof.
  intros Hne. rewrite delete_job_everywhere_footprint. unfold job_footprint.
  rewrite !lookup_delete_ne by congruence.
  rewrite (lookup_delete_ne (requests w))
    by (intros Heq; apply append_inj_r in Heq; congruence).
  repeat f_equal. apply bool_decide_ext. set_solver.
Qed.

Lemma delete_job_everywhere_erases k w :
  erased k (fst (delete_job_everywhere k w)).
Proof.
  unfold erased. rewrite delete_job_everywhere_footprint.
  rewrite !lookup_delete_eq.
  rewrite bool_decide_eq_false_2 by set_solver. reflexivity.
Qed.

(** One step of the pass on another file. *)
Lemma cleanup_one_other now stem k w :
  named_by_file w -> stem <> k ->
  job_footprint k (cleanup_one parse_iso now stem w) = job_footprint k w.
Proof.
  intros Hwf Hne. unfold cleanup_one.
  destruct (jobs w !! stem) as [[|victim]|] eqn:Es;
    [reflexivity | | reflexivity].
  rewrite (Hwf stem victim Es).
  destruct (should_delete parse_iso now victim) as [[|]|]; try reflexivity.
  apply delete_job_everywhere_other, Hne.
Qed.

Lemma cleanup_one_named now stem w :
  named_by_file w -> named_by_file (cleanup_one parse_iso now stem w).
Proof.
  intros Hwf. unfold cleanup_one.
  destruct (jobs w !! stem) as [[|victim]|] eqn:Es;
    [exact Hwf | | exact Hwf].
  destruct (if PyStr.truthy_str (j_job_id victim) then _ else _);
    destruct (should_delete parse_iso now victim) as [[|]|]; try exact Hwf.
  all: intros s j Hs; rewrite delete_job_everywhere_jobs in Hs;
    apply lookup_delete_Some in Hs as [_ Hs]; eapply Hwf, Hs.
Qed.

(** What is erased stays erased: the pass only deletes. *)
Lemma cleanup_one_keeps_erased now stem k w :
  erased k w -> erased k (cleanup_one parse_iso now stem w).
Proof.
  unfold cleanup_one. intros He.
  destruct (jobs w !! stem) as [[|victim]|]; [exact He | | exact He].
  destruct (should_delete parse_iso now victim) as [[|]|]; try exact He.
  revert He. unfold erased. rewrite delete_job_everywhere_footprint.
  unfold job_footprint. intros [= H1 H2 H3 H4 H5 H6].
  apply bool_decide_eq_false in H3.
  rewrite bool_decide_eq_false_2 by set_solver.
  repeat f_equal; apply lookup_delete_None; auto.
Qed.

Lemma cleanup_fold_keeps_erased now stems k w :
  erased k w ->
  erased k (fold_left (fun w stem => cleanup_one parse_iso now stem w) stems w).
Proof.
  revert w. induction stems as [|stem stems IH]; intros w He; [exact He |].
  cbn [fold_left]. apply IH, cleanup_one_keeps_erased, He.
Qed.

Lemma cleanup_fold_erases now stems k job w :
  named_by_file w -> k ∈ stems ->
  jobs w !! k = Some (Doc job) -> should_delete parse_iso now job = Ok true ->
  erased k (fold_left (fun w stem => cleanup_one parse_iso now stem w) stems w).
Proof.
  revert w. induction stems as [|stem stems IH]; intros w Hwf Hin Hk Hd.
  - apply elem_of_nil in Hin. contradiction.
  - cbn [fold_left]. destruct (decide (stem = k)) as [-> | Hne].
    + apply cleanup_fold_keeps_erased. unfold cleanup_one.
      rewrite Hk, (Hwf k job Hk), Hd. apply delete_job_everywhere_erases.
    + apply elem_of_cons in Hin as [-> | Hin]; [contradiction |].
      apply IH; [apply cleanup_one_named, Hwf | exact Hin | | exact Hd].
      pose proof (cleanup_one_other now stem k w Hwf Hne) as Hf.
      unfold job_footprint in Hf. injection Hf as Hj _. rewrite Hj. exact Hk.
Qed.

(** X23: a reaper pass erases every job that is eligible when it starts:
    its record, the saved upload and its directory, the output directory,
    the result and any request file are gone, and reading the job
    afterwards gives job_not_found. *)
Theorem cleanup_pass_erases_eligible now k job w :
  named_by_file w ->
  jobs w !! k = Some (Doc job) ->
  should_delete parse_iso now job = Ok true ->
  erased k (cleanup_pass parse_iso now w)
  /\ read_job k (cleanup_pass parse_iso now w)
     = (cleanup_pass parse_iso now w, Raise JobNotFound).
Proof.
  intros Hwf Hk Hd.
  assert (He : erased k (cleanup_pass parse_iso now w)).
  { unfold cleanup_pass. eapply cleanup_fold_erases; try eassumption.
    apply elem_of_elements, elem_of_dom. eauto. }
  split; [exact He |].
  unfold erased, job_footprint in He. injection He as Hj _.
  unfold read_job. rewrite Hj. reflexivity.
Qed.

Lemma cleanup_fold_keeps_footprint now stems k job w :
  named_by_file w -> jobs w !! k = Some (Doc job) ->
  should_delete parse_iso now job <> Ok true ->
  job_footprint k
    (fold_left (fun w stem => cleanup_one parse_iso now stem w) stems w)
  = job_footprint k w.
Proof.
  revert w. induction stems as [|stem stems IH]; intros w Hwf Hk Hd;
    [reflexivity |].
  cbn [fold_left].
  assert (Hstep : job_footprint k (cleanup_one parse_iso now stem w)
                  = job_footprint k w).
  { destruct (decide (stem = k)) as [-> | Hne].
    - unfold cleanup_one. rewrite Hk.
      destruct (should_delete parse_iso now job) as [[|]|];
        [contradiction | reflexivity | reflexivity].
    - apply cleanup_one_other; assumption. }
  rewrite <- Hstep. apply IH.
  - apply cleanup_one_named, Hwf.
  - unfold job_footprint in Hstep. injection Hstep as Hj _. rewrite Hj. exact Hk.
  - exact Hd.
Qed.

(** X24: a reaper pass leaves alone every job that is not eligible at that
    instant, in particular every job that is not 'done' or 'failed' and
    every job whose timestamp does not parse: its record, upload, outputs,
    result and request file are exactly as before. *)
Theorem cleanup_pass_spares_ineligible now k job w :
  named_by_file w ->
  jobs w !! k = Some (Doc job) ->
  should_delete parse_iso now job <> Ok true ->
  job_footprint k (cleanup_pass parse_iso now w) = job_footprint k w.
Proof.
  intros Hwf Hk Hd. unfold cleanup_pass.
  apply (cleanup_fold_keeps_footprint now _ k job); assumption.
Qed.

(** X25: a terminal job whose stored retention is not 0 and whose creation
    timestamp does not parse makes [should_delete] raise; the pass swallows
    the exception, so its step for that job changes nothing, at any
    instant. *)
Theorem unparsable_timestamp_blocks_deletion now k job created w :
  jobs w !! k = Some (Doc job) ->
  is_terminal job ->
  j_created_at job = Some created -> created <> "" ->
  parse_iso created = None ->
  j_retention_days job <> Some 0 ->
  should_delete parse_iso now job = Raise ValueError
  /\ cleanup_one parse_iso now k w = w.
Proof.
  intros Hk Ht Hc Hne Hp Hstored.
  assert (Hrd : effective_retention_days job <> 0).
  { unfold effective_retention_days.
    destruct (j_retention_days job) as [d|]; cbn; [congruence | lia]. }
  assert (Hs : should_delete parse_iso now job = Raise ValueError).
  { unfold should_delete. apply terminal_status_check in Ht. rewrite Ht.
    rewrite Hc. cbn [negb PyStr.truthy_str].
    destruct (String.eqb_spec created ""); [contradiction |].
    cbn [negb from_option id]. apply Z.eqb_neq in Hrd. rewrite Hrd.
    unfold parse_time. rewrite Hp. reflexivity. }
  split; [exact Hs |]. unfold cleanup_one. rewrite Hk, Hs. reflexivity.
Qed.

End ReaperProofs.


(* ===================================================================== *)
(** * Further properties: the worker's atomic write                       *)
(* ===================================================================== *)

Lemma tmp_name_differs name : name ++ ".tmp" <> name.
Proof.
  intros H. apply (f_equal String.length) in H.
  rewrite length_append in H. cbn in H. lia.
Qed.

(** X26: while the worker's [write_json] runs, a reader of the target
    path finds what was there before or the complete new document, never
    an unparsable file; no unparsable [*.json] file appears anywhere in the
    directory; and when it returns the target holds the document and the
    temporary file is gone. *)
Theorem write_json_is_atomic {A} (dir : gmap string (JsonFile A)) name doc :
  (forall s, s ∈ write_json_trace name doc dir ->
     (s !! name = dir !! name \/ s !! name = Some (Doc doc))
     /\ unreadable_json s ⊆ unreadable_json dir)
  /\ write_json name doc dir !! name = Some (Doc doc)
  /\ write_json name doc dir !! (name ++ ".tmp") = None.
Proof.
  pose proof (tmp_name_differs name) as Hne.
  split; [| split].
  - intros s Hs. split; [| eapply write_json_hides_partial; exact Hs].
    unfold write_json_trace in Hs. rewrite !elem_of_cons in Hs.
    destruct Hs as [-> | [-> | [-> | Hs]]].
    + left. apply lookup_insert_ne. exact Hne.
    + left. apply lookup_insert_ne. exact Hne.
    + right. apply lookup_insert_eq.
    + apply elem_of_nil in Hs. contradiction.
  - unfold write_json. cbn. apply lookup_insert_eq.
  - unfold write_json. cbn. rewrite lookup_insert_ne by congruence.
    apply lookup_delete_eq.
Qed.

(* ===================================================================== *)
(** * Further properties: choice of the language                          *)
(* ===================================================================== *)

Lemma lower_char_idempotent c :
  PyStr.lower_char (PyStr.lower_char c) = PyStr.lower_char c.
Proof. destruct c as [[] [] [] [] [] [] [] []]; reflexivity. Qed.

Lemma lower_idempotent s : PyStr.lower (PyStr.lower s) = PyStr.lower s.
Proof.
  induction s as [|c s IH]; [reflexivity |].
  cbn. rewrite lower_char_idempotent, IH. reflexivity.
Qed.

(** What the header branch returns passes the pattern and is in lower
    case. *)
Lemma from_header_ok a tag :
  I18n.from_header a = Some tag ->
  I18n.lang_re_match tag = true /\ PyStr.lower tag = tag.
Proof.
  unfold I18n.from_header. destruct a as [a|]; [| discriminate].
  destruct (String.eqb a ""); [discriminate |].
  destruct (I18n.header_parts a) as [|part parts]; [discriminate |].
  destruct (I18n.lang_re_match _) eqn:E; [| discriminate].
  intros [= <-]. split; [exact E | apply lower_idempotent].
Qed.

Lemma split_no_sep sep s :
  PyStr.contains sep s = false -> I18n.split sep s = [s].
Proof.
  induction s as [|c s IH]; [reflexivity |]. cbn.
  rewrite Ascii.eqb_sym.
  destruct (Ascii.eqb c sep); [discriminate |]. cbn.
  intros H. rewrite (IH H). reflexivity.
Qed.

Lemma split_at_first_sep sep s rest :
  PyStr.contains sep s = false ->
  I18n.split sep (s ++ String sep rest) = s :: I18n.split sep rest.
Proof.
  induction s as [|c s IH].
  - intros _. rewrite append_nil. cbn. rewrite Ascii.eqb_refl. reflexivity.
  - cbn [PyStr.contains]. rewrite Ascii.eqb_sym.
    destruct (Ascii.eqb c sep) eqn:E; [discriminate |]. cbn [orb].
    intros H. rewrite append_cons. cbn [I18n.split]. rewrite E.
    rewrite (IH H). reflexivity.
Qed.

(** X28: only the first entry of the Accept-Language header counts: with
    no usable query parameter, a header whose first entry is not blank
    gives the same language whatever follows its first comma, so a later
    entry is never used even when the first is unusable. *)
Theorem pick_lang_reads_first_entry first rest :
  PyStr.contains ","%char first = false ->
  PyStr.strip first <> "" ->
  I18n.pick_lang None (Some (first ++ String ","%char rest))
  = I18n.pick_lang None (Some first).
Proof.
  intros Hc Hs.
  assert (Hne : first <> "") by (intros ->; apply Hs; reflexivity).
  unfold I18n.pick_lang, I18n.from_header, I18n.header_parts.
  rewrite (split_at_first_sep _ _ _ Hc), (split_no_sep _ _ Hc).
  cbn [List.map List.filter].
  destruct (String.eqb_spec (PyStr.strip first) ""); [contradiction |].
  cbn [negb].
  destruct (String.eqb_spec first ""); [contradiction |].
  destruct (String.eqb_spec (first ++ String ","%char rest) "") as [He | _].
  - destruct first; [contradiction | rewrite append_cons in He; discriminate].
  - reflexivity.
Qed.

Example pick_lang_examples :
  I18n.pick_lang (Some " EN-us ") (Some "fr") = "en-us"
  /\ I18n.pick_lang None (Some "fr-CA;q=0.8, en") = "fr-ca"
  /\ I18n.pick_lang None (Some "x!, fr") = "en"
  /\ I18n.pick_lang (Some "english") (Some " , de;q=1") = "de"
  /\ I18n.pick_lang None None = "en".
Proof. repeat split; reflexivity. Qed.


(* ===================================================================== *)
(** * Further properties: strip, lower and the normal form of an email    *)
(* ===================================================================== *)

Lemma append_nil_r s : s ++ "" = s.
Proof.
  induction s as [|c s IH]; [reflexivity |].
  rewrite append_cons, IH. reflexivity.
Qed.

Lemma rev_app_append s acc : String.rev_app s acc = String.rev s ++ acc.
Proof.
  unfold String.rev. revert acc. induction s as [|c s IH]; intros acc.
  - reflexivity.
  - cbn [String.rev_app]. rewrite IH, (IH (String c "")).
    generalize (String.rev_app s ""). intros r.
    induction r as [|d r IHr]; [reflexivity |].
    rewrite !append_cons, IHr. reflexivity.
Qed.

Lemma rev_cons c s : String.rev (String c s) = String.rev s ++ String c "".
Proof. unfold String.rev at 1. cbn [String.rev_app]. apply rev_app_append. Qed.

Lemma append_assoc (a b c : string) : (a ++ b) ++ c = a ++ (b ++ c).
Proof.
  induction a as [|x a IH]; [reflexivity |].
  rewrite !append_cons, IH. reflexivity.
Qed.

Lemma rev_append s t : String.rev (s ++ t) = String.rev t ++ String.rev s.
Proof.
  induction s as [|c s IH].
  - rewrite append_nil. symmetry. apply append_nil_r.
  - rewrite append_cons, !rev_cons, IH. apply append_assoc.
Qed.

Lemma rev_involutive s : String.rev (String.rev s) = s.
Proof.
  induction s as [|c s IH]; [reflexivity |].
  rewrite rev_cons, rev_append, IH. reflexivity.
Qed.

Lemma lstrip_starts_clean s : starts_clean (PyStr.lstrip s).
Proof.
  induction s as [|c s IH]; [exact I |]. cbn.
  destruct (PyStr.is_space c) eqn:E; [exact IH | exact E].
Qed.

Lemma lstrip_clean s : starts_clean s -> PyStr.lstrip s = s.
Proof. destruct s as [|c s]; [reflexivity |]. cbn. intros ->. reflexivity. Qed.

(** [lstrip] drops a prefix. *)
Lemma lstrip_suffix s : exists p, s = p ++ PyStr.lstrip s.
Proof.
  induction s as [|c s [p Hp]]; [exists ""; reflexivity |]. cbn.
  destruct (PyStr.is_space c).
  - exists (String c p). rewrite append_cons, <- Hp. reflexivity.
  - exists "". reflexivity.
Qed.

Lemma starts_clean_append s t : s <> "" -> starts_clean (s ++ t) -> starts_clean s.
Proof. destruct s as [|c s]; [congruence |]. intros _ H. exact H. Qed.

(** Stripping the reversal of a string that starts clean leaves a string
    that ends clean. *)
Lemma rev_lstrip_rev_clean a :
  starts_clean a -> starts_clean (String.rev (PyStr.lstrip (String.rev a))).
Proof.
  intros Ha. destruct (lstrip_suffix (String.rev a)) as [p Hp].
  set (b := PyStr.lstrip (String.rev a)) in *.
  assert (E : a = String.rev b ++ String.rev p).
  { rewrite <- rev_append, <- Hp. symmetry. apply rev_involutive. }
  destruct (String.rev b) as [|c r] eqn:Er; [exact I |].
  rewrite E in Ha. exact Ha.
Qed.

Lemma strip_ends_clean s : starts_clean (String.rev (PyStr.strip s)).
Proof.
  unfold PyStr.strip. rewrite rev_involutive. apply lstrip_starts_clean.
Qed.

Lemma strip_starts_clean s : starts_clean (PyStr.strip s).
Proof. unfold PyStr.strip. apply rev_lstrip_rev_clean, lstrip_starts_clean. Qed.

Lemma strip_idempotent s : PyStr.strip (PyStr.strip s) = PyStr.strip s.
Proof.
  pose proof (strip_starts_clean s) as H1.
  pose proof (strip_ends_clean s) as H2.
  unfold PyStr.strip at 1.
  rewrite (lstrip_clean _ H1), (lstrip_clean _ H2). apply rev_involutive.
Qed.

Lemma is_space_lower_char c :
  PyStr.is_space (PyStr.lower_char c) = PyStr.is_space c.
Proof. destruct c as [[] [] [] [] [] [] [] []]; reflexivity. Qed.

Lemma lower_lstrip s : PyStr.lower (PyStr.lstrip s) = PyStr.lstrip (PyStr.lower s).
Proof.
  induction s as [|c s IH]; [reflexivity |]. cbn.
  rewrite is_space_lower_char. destruct (PyStr.is_space c); [exact IH | reflexivity].
Qed.

Lemma lower_append s t : PyStr.lower (s ++ t) = PyStr.lower s ++ PyStr.lower t.
Proof.
  induction s as [|c s IH]; [reflexivity |].
  rewrite append_cons. cbn. rewrite IH, append_cons. reflexivity.
Qed.

Lemma lower_rev s : PyStr.lower (String.rev s) = String.rev (PyStr.lower s).
Proof.
  induction s as [|c s IH]; [reflexivity |].
  cbn [PyStr.lower]. rewrite !rev_cons, lower_append, IH. reflexivity.
Qed.

Lemma lower_strip s : PyStr.lower (PyStr.strip s) = PyStr.strip (PyStr.lower s).
Proof.
  unfold PyStr.strip.
  rewrite lower_rev, lower_lstrip, lower_rev, lower_lstrip. reflexivity.
Qed.

Lemma normalize_email_idempotent email :
  normalize_email (normalize_email email) = normalize_email email.
Proof.
  unfold normalize_email.
  rewrite <- lower_strip, lower_idempotent, strip_idempotent. reflexivity.
Qed.

Lemma normalize_email_shape email :
  PyStr.lower (normalize_email email) = normalize_email email
  /\ starts_clean (normalize_email email)
  /\ starts_clean (String.rev (normalize_email email)).
Proof.
  unfold normalize_email. split; [apply lower_idempotent |].
  rewrite lower_strip. split; [apply strip_starts_clean | apply strip_ends_clean].
Qed.

(** X29: [normalize_email] is idempotent: the email kept in a job record
    and as a ledger key is its own normal form, so normalizing it again
    (as a later upload with that spelling does) gives the same key.  The
    normal form has no upper-case ASCII letter and neither begins nor ends
    with white space. *)
Theorem normalize_email_normal_form email :
  normalize_email (normalize_email email) = normalize_email email
  /\ PyStr.lower (normalize_email email) = normalize_email email
  /\ starts_clean (normalize_email email)
  /\ starts_clean (String.rev (normalize_email email)).
Proof.
  split; [apply normalize_email_idempotent | apply normalize_email_shape].
Qed.


(* ===================================================================== *)
(** * Further properties: the language is a well-formed tag               *)
(* ===================================================================== *)

Lemma endswith_single x c :
  PyStr.endswith x (String c "") = true -> exists y, x = y ++ String c "".
Proof.
  unfold PyStr.endswith. cbn [String.length].
  induction x as [|d x IH]; [discriminate |].
  destruct x as [|e x].
  - cbn. destruct (Ascii.eqb_spec d c) as [-> | _]; [| discriminate].
    intros _. exists "". reflexivity.
  - intros H. apply andb_prop in H as [_ H].
    replace (String.length (String d (String e x)) - 1)%nat
      with (S (String.length (String e x) - 1)) in H by (cbn; lia).
    cbn [substring] in H.
    destruct IH as [y Hy].
    { apply andb_true_intro. split; [reflexivity | exact H]. }
    exists (String d y). rewrite append_cons, <- Hy. reflexivity.
Qed.

(** A string that ends clean does not end with a newline. *)
Lemma ends_clean_no_newline x :
  starts_clean (String.rev x) -> PyStr.endswith x I18n.NEWLINE = false.
Proof.
  intros H. destruct (PyStr.endswith x I18n.NEWLINE) eqn:E; [| reflexivity].
  apply endswith_single in E as [y ->].
  rewrite rev_append in H. cbn in H. discriminate.
Qed.

(** On a stripped and lowered string the pattern accepts exactly the
    well-formed tags. *)
Lemma lang_re_match_stripped s :
  I18n.lang_re_match (PyStr.lower (PyStr.strip s))
  = I18n.lang_tag (PyStr.lower (PyStr.strip s)).
Proof.
  unfold I18n.lang_re_match.
  rewrite (ends_clean_no_newline (PyStr.lower (PyStr.strip s))).
  - cbn [andb]. apply orb_false_r.
  - rewrite lower_strip. apply strip_ends_clean.
Qed.

Lemma from_header_tag a tag :
  I18n.from_header a = Some tag ->
  I18n.lang_tag tag = true /\ PyStr.lower tag = tag.
Proof.
  unfold I18n.from_header. destruct a as [a|]; [| discriminate].
  destruct (String.eqb a ""); [discriminate |].
  destruct (I18n.header_parts a) as [|part parts]; [discriminate |].
  rewrite lang_re_match_stripped.
  destruct (I18n.lang_tag _) eqn:E; [| discriminate].
  intros [= <-]. split; [exact E | apply lower_idempotent].
Qed.

(** X27: [pick_lang] returns the default ["en"] or a well-formed tag (two
    letters, optionally followed by a hyphen and two to eight letters) in
    lower case; and a [lang] query parameter that is such a tag once
    stripped and lowered decides alone, whatever the Accept-Language header
    says. *)
Theorem pick_lang_result query_lang accept_language :
  (I18n.pick_lang query_lang accept_language = "en"
   \/ (I18n.lang_tag (I18n.pick_lang query_lang accept_language) = true
       /\ PyStr.lower (I18n.pick_lang query_lang accept_language)
          = I18n.pick_lang query_lang accept_language))
  /\ (forall ql,
        query_lang = Some ql -> ql <> "" ->
        I18n.lang_tag (PyStr.lower (PyStr.strip ql)) = true ->
        I18n.pick_lang query_lang accept_language
        = PyStr.lower (PyStr.strip ql)).
Proof.
  split.
  - assert (Hfb : default I18n.DEFAULT (I18n.from_header accept_language) = "en"
                  \/ (I18n.lang_tag
                        (default I18n.DEFAULT (I18n.from_header accept_language))
                      = true
                      /\ PyStr.lower
                           (default I18n.DEFAULT (I18n.from_header accept_language))
                         = default I18n.DEFAULT (I18n.from_header accept_language))).
    { destruct (I18n.from_header accept_language) as [tag|] eqn:E.
      - right. apply from_header_tag in E. exact E.
      - left. reflexivity. }
    unfold I18n.pick_lang. destruct query_lang as [ql|]; [| exact Hfb].
    destruct (String.eqb ql ""); [exact Hfb |].
    rewrite lang_re_match_stripped.
    destruct (I18n.lang_tag (PyStr.lower (PyStr.strip ql))) eqn:E;
      [| exact Hfb].
    right. split; [exact E | apply lower_idempotent].
  - intros ql -> Hne Hm. unfold I18n.pick_lang.
    destruct (String.eqb_spec ql ""); [contradiction |].
    rewrite lang_re_match_stripped, Hm. reflexivity.
Qed.


(* ===================================================================== *)
(** * Further properties: quote and upload agree                          *)
(* ===================================================================== *)

(** X2: the price that an upload stores is the price that [quote] gives
    for the same page count: for every successful upload of at least one
    page, quoting its page count is answered with the upload's base
    amount. *)
Theorem quote_agrees_with_upload (APP_ROOT : string)
    (count_pdf_pages : string -> option nat) new_job_id form w w' resp :
  upload_pdf APP_ROOT count_pdf_pages new_job_id form w = (w', Ok resp) ->
  1 <= u_pages resp ->
  exists q,
    quote (PagesInt (u_pages resp)) = QuotePriced q
    /\ q_pages q = u_pages resp
    /\ q_base_amount_due q = u_base_amount_due resp.
Proof.
  intros E H1.
  destruct (upload_ok_inv _ _ _ _ _ _ _ E)
    as (_ & n & base & applied & c & u & _ & Hc & Hb & _ & -> & _).
  cbn in H1 |- *. unfold quote.
  destruct (Z.of_nat n <=? 0) eqn:E0; [apply Z.leb_le in E0; lia |].
  destruct (MAX_PAGES <? Z.of_nat n) eqn:E1; [apply Z.ltb_lt in E1; lia |].
  rewrite Hb. eexists. repeat split; reflexivity.
Qed.

(* ===================================================================== *)
(** * Concrete instances                                                  *)
(* ===================================================================== *)

Lemma demo_first_upload :
  upload_pdf Demo.root Demo.count_pages "job_1" Demo.small_form
    Demo.empty_world
  = (Demo.after_upload, Ok DemoMore.first_response).
Proof. vm_compute. reflexivity. Qed.

Lemma demo_billed_lookup :
  jobs DemoMore.after_billed_upload !! "job_40" = Some (Doc DemoMore.billed_job).
Proof. vm_compute. reflexivity. Qed.

Lemma demo_queued_lookup :
  jobs Demo.after_start !! "job_1" = Some (Doc DemoMore.queued_record).
Proof. vm_compute. reflexivity. Qed.

Lemma demo_request_lookup :
  requests Demo.after_start !! "job_1.json" = Some (Doc DemoMore.queued_request).
Proof. vm_compute. reflexivity. Qed.

Lemma demo_orphan_lookup :
  requests DemoMore.orphan_request_world !! "job_1.json"
  = Some (Doc DemoMore.queued_request).
Proof. vm_compute. reflexivity. Qed.

Lemma demo_finished_named : named_by_file DemoMore.finished_world.
Proof.
  intros stem job H. cbn in H.
  apply lookup_singleton_Some in H as [_ [= <-]]. reflexivity.
Qed.

Lemma demo_empty_keyed : store_keyed_by_id Demo.empty_world.
Proof. intros k job H. cbn in H. rewrite lookup_empty in H. discriminate. Qed.

Lemma quote_agrees_with_upload_witness :
  exists q,
    quote (PagesInt 3) = QuotePriced q /\ q_pages q = 3
    /\ q_base_amount_due q = 25.
Proof.
  apply (quote_agrees_with_upload Demo.root Demo.count_pages "job_1"
           Demo.small_form Demo.empty_world Demo.after_upload
           DemoMore.first_response demo_first_upload).
  cbn. lia.
Defined.

Lemma upload_invalid_form_writes_nothing_witness :
  exists e,
    upload_pdf Demo.root Demo.count_pages "job_7" DemoMore.no_email_form
      Demo.after_upload = (Demo.after_upload, Raise e)
    /\ e = ValidEmailRequired.
Proof.
  destruct (upload_invalid_form_writes_nothing Demo.root Demo.count_pages
              "job_7" DemoMore.no_email_form Demo.after_upload eq_refl)
    as (e & E & _ & He).
  exists e. split; [exact E | apply He; reflexivity].
Defined.

Lemma upload_invalid_pdf_keeps_body_witness :
  exists w',
    upload_pdf Demo.root Demo.count_pages "job_7" DemoMore.broken_pdf_form
      Demo.after_upload = (w', Raise InvalidPdf)
    /\ jobs w' = jobs Demo.after_upload
    /\ upload_files w' !! "job_7" = Some "not a pdf".
Proof.
  destruct (upload_invalid_pdf_keeps_body Demo.root Demo.count_pages "job_7"
              DemoMore.broken_pdf_form Demo.after_upload eq_refl eq_refl)
    as (w' & E & Hj & _ & _ & Hf & _).
  exists w'. repeat split; assumption.
Defined.

Lemma upload_failure_stores_no_job_witness :
  jobs (fst (upload_pdf Demo.root Demo.count_pages "job_9" Demo.long_form
               Demo.after_upload)) = jobs Demo.after_upload
  /\ ledger (fst (upload_pdf Demo.root Demo.count_pages "job_9" Demo.long_form
                    Demo.after_upload)) = ledger Demo.after_upload.
Proof.
  destruct (upload_pdf Demo.root Demo.count_pages "job_9" Demo.long_form
              Demo.after_upload) as [w' r] eqn:E.
  assert (Hr : exists e, r = Raise e).
  { vm_compute in E. injection E as _ <-. eexists. reflexivity. }
  destruct Hr as [e ->].
  destruct (upload_failure_stores_no_job Demo.root Demo.count_pages "job_9"
              Demo.long_form Demo.after_upload w' e E) as (Hj & Hl & _).
  split; assumption.
Defined.

Lemma upload_succeeds_witness :
  exists w' resp job,
    upload_pdf Demo.root Demo.count_pages "job_1" Demo.small_form
      Demo.empty_world = (w', Ok resp)
    /\ u_pages resp = 3
    /\ jobs w' !! "job_1" = Some (Doc job).
Proof.
  destruct (upload_succeeds Demo.root Demo.count_pages "job_1" Demo.small_form
              Demo.empty_world 3 eq_refl eq_refl)
    as (w' & resp & job & E & _ & Hp & Hj & _).
  - cbn. unfold MAX_PAGES. lia.
  - exists w', resp, job. repeat split; assumption.
Defined.

Lemma upload_job_invariants_witness :
  exists job pages,
    jobs Demo.after_upload !! "job_1" = Some (Doc job)
    /\ j_pages job = Some pages /\ 0 <= pages <= MAX_PAGES
    /\ j_id job = "job_1".
Proof.
  destruct (upload_job_invariants Demo.root Demo.count_pages "job_1"
              Demo.small_form Demo.empty_world Demo.after_upload
              DemoMore.first_response demo_first_upload)
    as (job & pages & base & due & ret & Hj & Hid & Hp & Hr & _).
  exists job, pages. repeat split; try assumption; lia.
Defined.

Lemma upload_sample_decision_witness :
  u_free_sample_applied DemoMore.first_response = true
  /\ exists t, ledger_entry (ledger Demo.after_upload) "ann@example.com"
               = Some (UsedBy "job_1" t).
Proof.
  destruct (upload_sample_decision Demo.root Demo.count_pages "job_1"
              Demo.small_form Demo.empty_world Demo.after_upload
              DemoMore.first_response demo_first_upload)
    as (_ & Hyes & _).
  split; [reflexivity |]. apply (Hyes eq_refl).
Defined.

Lemma upload_then_start_witness :
  exists w2 job,
    start Demo.root "job_1" Demo.after_upload
    = (w2, Ok (StartQueued job (request_path Demo.root "job_1")))
    /\ j_status job = Some "queued".
Proof.
  destruct (upload_then_start Demo.root Demo.count_pages "job_1"
              Demo.small_form Demo.empty_world Demo.after_upload
              DemoMore.first_response demo_first_upload) as [Hfree _].
  destruct (Hfree eq_refl) as (w2 & job & req & E & Hs & _).
  exists w2, job. split; assumption.
Defined.

Lemma mark_paid_transitions_witness :
  exists w' job',
    mark_paid "job_40" DemoMore.after_billed_upload = (w', Ok (PaidNow job'))
    /\ jobs w' = <["job_40" := Doc job']> (jobs DemoMore.after_billed_upload).
Proof.
  destruct (mark_paid_transitions "job_40" DemoMore.billed_job
              DemoMore.after_billed_upload demo_billed_lookup eq_refl)
    as (_ & _ & Hnow).
  destruct (Hnow ltac:(discriminate)) as (w' & job' & E & _ & Hj & _).
  exists w', job'. split; assumption.
Defined.

Lemma mark_paid_then_start_witness :
  exists w1 r1 w2 job2,
    mark_paid "job_40" DemoMore.after_billed_upload = (w1, Ok r1)
    /\ start Demo.root "job_40" w1
       = (w2, Ok (StartQueued job2 (request_path Demo.root "job_40")))
    /\ j_status job2 = Some "queued".
Proof.
  destruct (mark_paid_then_start Demo.root "job_40" DemoMore.billed_job
              DemoMore.billed_paths "/srv/twickell/uploads/job_40/input.pdf"
              DemoMore.after_billed_upload demo_billed_lookup eq_refl eq_refl
              eq_refl eq_refl)
    as (w1 & r1 & w2 & job2 & req & Hm & Hs & Hq & _).
  exists w1, r1, w2, job2. repeat split; assumption.
Defined.

Lemma job_file_missing_or_unreadable_witness :
  start Demo.root "job_0" Demo.after_upload
  = (Demo.after_upload, Raise JobNotFound)
  /\ mark_paid "job_0" Demo.after_upload
     = (Demo.after_upload, Raise JobNotFound).
Proof.
  destruct (job_file_missing_or_unreadable Demo.root "job_0" (fun j => j)
              Demo.after_upload JobNotFound) as (_ & _ & Hm & Hs).
  - left. split; [vm_compute |]; reflexivity.
  - split; assumption.
Defined.

Lemma store_stays_keyed_by_id_witness :
  store_keyed_by_id Demo.after_upload.
Proof.
  destruct (store_stays_keyed_by_id Demo.root Demo.count_pages Demo.parse_iso
              true Demo.workbook_error 0 "job_1" "job_1.json" Demo.small_form
              Demo.empty_world
              demo_empty_keyed) as (Hu & _).
  exact Hu.
Defined.

Lemma webhook_pays_and_queues_witness :
  exists w' job',
    payments_webhook Demo.root true
      (Some (mkStripeEvent (Some "checkout.session.completed")
               (Some "job_40"))) DemoMore.after_billed_upload
    = (w', WebhookOk)
    /\ jobs w' = <["job_40" := Doc job']> (jobs DemoMore.after_billed_upload)
    /\ j_status job' = Some "queued" /\ j_paid job' = Some true.
Proof.
  destruct (webhook_pays_and_queues Demo.root "job_40" DemoMore.billed_job
              DemoMore.billed_paths "/srv/twickell/uploads/job_40/input.pdf"
              DemoMore.after_billed_upload demo_billed_lookup eq_refl)
    as (w' & job' & req & E & Hj & Hp & Hs & _).
  - discriminate.
  - discriminate.
  - reflexivity.
  - reflexivity.
  - exists w', job'. repeat split; assumption.
Defined.

Lemma webhook_redelivery_changes_nothing_witness :
  payments_webhook Demo.root true
    (Some (mkStripeEvent (Some "checkout.session.completed") (Some "job_1")))
    Demo.after_start
  = (Demo.after_start, WebhookOk).
Proof.
  apply (webhook_redelivery_changes_nothing Demo.root "job_1"
           DemoMore.queued_record Demo.after_start demo_queued_lookup);
    reflexivity.
Defined.

Lemma process_request_completes_job_witness :
  exists w' job',
    process_request true Demo.workbook_error "job_1.json" Demo.after_start = (w', Ok tt)
    /\ jobs w' = <["job_1" := Doc job']> (jobs Demo.after_start)
    /\ j_status job' = Some "done"
    /\ requests w' = delete "job_1.json" (requests Demo.after_start).
Proof.
  destruct (process_request_completes_job true Demo.workbook_error
              "job_1.json" DemoMore.queued_request "job_1"
              DemoMore.queued_record Demo.after_start eq_refl
              demo_request_lookup eq_refl)
    as (w' & job' & done_at & paths' & E & _ & Hj & -> & _ & Hr & _).
  - discriminate.
  - exact demo_queued_lookup.
  - discriminate.
  - reflexivity.
  - eexists w', _. repeat split; try eassumption. reflexivity.
Defined.

Lemma process_request_discards_poison_witness :
  exists w',
    process_request true Demo.workbook_error "job_1.json" DemoMore.orphan_request_world
    = (w', Ok tt)
    /\ requests w' = delete "job_1.json" (requests DemoMore.orphan_request_world)
    /\ results w' = results DemoMore.orphan_request_world.
Proof.
  destruct (process_request_discards_poison true Demo.workbook_error
              "job_1.json"
              DemoMore.queued_request DemoMore.orphan_request_world)
    as (w' & E & Hr & _ & Hres & _).
  - exact demo_orphan_lookup.
  - right. vm_compute. reflexivity.
  - exists w'. repeat split; assumption.
Defined.

Lemma handle_request_frame_witness :
  jobs (handle_request true Demo.workbook_error "job_1.json" Demo.after_start) !! "job_2"
  = jobs Demo.after_start !! "job_2"
  /\ ledger (handle_request true Demo.workbook_error "job_1.json" Demo.after_start)
     = ledger Demo.after_start.
Proof.
  destruct (handle_request_frame true Demo.workbook_error "job_1.json"
              Demo.after_start "job_2")
    as (Hj & _ & Hl & _).
  - intros req H. rewrite demo_request_lookup in H. injection H as <-.
    discriminate.
  - split; assumption.
Defined.

Lemma should_delete_monotone_witness :
  should_delete Demo.parse_iso (Demo.new_year + 9 * ONE_HOUR)
    (Demo.finished_job (Some 0)) = Ok true.
Proof.
  apply (should_delete_monotone Demo.parse_iso (Demo.new_year + 8 * ONE_HOUR)).
  - reflexivity.
  - unfold ONE_HOUR, RETENTION_ZERO_DONE_BUFFER_SECONDS, MICROS_PER_SECOND. lia.
Defined.

Lemma cleanup_pass_erases_eligible_witness :
  erased "job_5"
    (cleanup_pass Demo.parse_iso (Demo.new_year + 8 * ONE_HOUR)
       DemoMore.finished_world).
Proof.
  destruct (cleanup_pass_erases_eligible Demo.parse_iso
              (Demo.new_year + 8 * ONE_HOUR) "job_5"
              (Demo.finished_job (Some 0)) DemoMore.finished_world
              demo_finished_named) as [He _].
  - reflexivity.
  - reflexivity.
  - exact He.
Defined.

Lemma cleanup_pass_spares_ineligible_witness :
  job_footprint "job_5"
    (cleanup_pass Demo.parse_iso (Demo.new_year + 6 * ONE_HOUR)
       DemoMore.finished_world)
  = job_footprint "job_5" DemoMore.finished_world.
Proof.
  apply (cleanup_pass_spares_ineligible Demo.parse_iso
           (Demo.new_year + 6 * ONE_HOUR) "job_5"
           (Demo.finished_job (Some 0)) DemoMore.finished_world
           demo_finished_named).
  - reflexivity.
  - vm_compute. discriminate.
Defined.

Lemma unparsable_timestamp_blocks_deletion_witness :
  should_delete Demo.parse_iso (Demo.new_year + 400 * ONE_DAY)
    DemoMore.stale_job = Raise ValueError
  /\ cleanup_one Demo.parse_iso (Demo.new_year + 400 * ONE_DAY) "job_1"
       DemoMore.stale_world = DemoMore.stale_world.
Proof.
  apply (unparsable_timestamp_blocks_deletion Demo.parse_iso
           (Demo.new_year + 400 * ONE_DAY) "job_1" DemoMore.stale_job
           DemoMore.stamp DemoMore.stale_world).
  - reflexivity.
  - right. reflexivity.
  - reflexivity.
  - discriminate.
  - reflexivity.
  - discriminate.
Defined.

Lemma pick_lang_reads_first_entry_witness :
  I18n.pick_lang None (Some "x!, fr") = I18n.pick_lang None (Some "x!").
Proof.
  apply (pick_lang_reads_first_entry "x!" " fr"); [reflexivity | discriminate].
Defined.
